(* ===== verification/_CoqProject ===== *)
-Q . S2P
Prelude.v
PyFloat.v
PyDict.v
LineParser.v
StrInt.v
Polygraph.v
PolygraphProps.v
PolygraphExact.v
PolygraphLive.v
Binary64.v
Ingestion.v
IngestionProps.v
IngestionExact.v
Broadcast.v
System.v
Startup.v
