(* ===== verification/Prelude.v ===== *)
(** * A verification development for PolygraphTestArduino (src/pythonWeb.py)

    The program is one Python file.  A background thread ([read_serial],
    lines 93-137) reads text lines from an Arduino over a serial port, parses
    each line into a dictionary ([parse_line], lines 75-90), feeds it to a
    [Polygraph] object ([Polygraph.update], lines 9-53) that first calibrates
    a per-channel baseline for [calibration_time] seconds and then scores
    every reading, broadcasts the reading with its score to every Socket.IO
    client (line 121), and at most once every ten seconds opens a second
    serial port (an ESP32), writes the truncated score and closes it again
    (lines 124-133).  The Flask/Socket.IO server (lines 56-66, 139-152) is
    the other execution context; its only code is the [on_connect] handler.

    Files, in dependency order, and what they model:
    - [Prelude] (this file): the fragment of the Python runtime the model
      needs: the exceptions the code can raise ([pyexc]), a state monad
      with exceptions [PyM] in which mutations made before a [raise] persist
      (an exception does not roll an object back), [for] loops ([py_for]),
      [try/except] ([py_try]), [try/finally] and the release of a [with]
      block ([py_finally]), a method call on an attribute ([zoom]), and the
      invariant toolkit [preserves] with its composition lemmas (hint
      database [py], tactic [solve_preserves]), and the lemmas that run a
      [for] loop to completion or show it blocked.
    - [PyFloat]: the float arithmetic the code performs as a type class
      [PyFloat] with two instances: [Qc] (exact rationals, for the general
      numeric theorems) and [b64] (IEEE-754 binary64 through the Standard
      Library's executable [SpecFloat], to run the code on concrete inputs
      as CPython does).  On top of the class: exact float/int comparisons,
      [int()], [round(x, 1)], and the divisions that raise
      [ZeroDivisionError].
    - [PyDict]: Python's insertion-ordered [dict] as an association list
      ([d[k]] raising [KeyError], [d[k] = v] keeping the position of an
      existing key, [k in d]), the values [parse_line] produces ([rawval])
      and those [read_serial] emits ([pyval]), and Python's arithmetic on
      them ([True] is 1, a [str] raises [TypeError]).
    - [LineParser]: [parse_line] with the string methods it calls
      ([str.split], [str.strip], [str.lower], [str.isdigit], [int()]) and
      [str(n)] for the relay payload, on ASCII text; the typing of what
      [parse_line] returns (distinct keys, lower-case stripped keys, ints
      that are non-negative).
    - [StrInt]: [str(n)] again, by well-founded recursion with Equations
      and without fuel; the fuelled printer of [LineParser] equals it, so
      its fuel is always enough (lemmas supporting the model).
    - [Polygraph]: the class [Polygraph]: its attributes as the record
      [polygraph], [update] statement by statement ([update_start],
      [calibrate_step] with [append_sample] and [finalize_entry], and
      [score_step]), and the spec's phases as [phase].
    - [PolygraphProps]: theorems for any float arithmetic: the calibration
      state machine (start time, one-way calibration, frozen baseline),
      scoring (counters, OR over channels, a missing channel), the
      invariant of every reachable object ([reachable], rule induction),
      the dead zero-sample fallback, the object that a text sample
      disables for good, and [data_history] as the last 1000 readings given
      to a calibrated object ([history_keeps_last_readings]); binary64
      fixtures and runs.
    - [PolygraphExact]: the numbers in exact arithmetic: scores in
      [0, 100], baseline = mean and population standard deviation, and two
      refinements of the spec (section 4.3): the scorer ([spec_score_step])
      and the phase machine ([spec_transition]).
    - [PolygraphLive]: the converse of the disabled object: an object
      whose sample lists hold numbers calibrates on the first reading with
      three numeric channels once the window has elapsed
      ([calibration_completes]), both loops of the calibration block run to
      completion ([py_for_nodup_ok] over the distinct keys).
    - [Binary64]: the relayed percentage in IEEE binary64, for every pair
      of counters with [total_count <= 200]: the score lies in [0, 100],
      [int(score)] never raises and is the floor of the exact percentage
      or one less ([relay_value_truncation], by reflection over the code's
      own binary64 operations).
    - [Ingestion]: [read_serial]: one iteration of [while True] as a
      function of an input [tick] (the line read or the read error, the
      [time.time()] readings, whether the ESP32 port opens and accepts the
      write), the loop state [ingest] (the locals [poly] and
      [last_sent_time] and the observable effects [outbox]: emits, the
      ESP32 port's open, write and close, and the thread's [print]s), the
      relay ([maybe_relay], [relay]), the loop over a finite input and the
      connection preamble on [ARDUINO_PORT] ([preamble]).
    - [IngestionProps]: the loop never lets an exception out, drops
      unparsable lines silently and reports read errors (spec 7), publishes every scored or calibrating reading, relays on the
      cooldown and resets it whatever the port does, and keeps the ESP32
      port scoped; whole binary64 runs of [read_serial] kept as examples
      (the spec's relay examples, the strict comparison at ten seconds, 57
      becoming 56, the scripted session).
    - [IngestionExact]: in exact arithmetic ([Qc]), two relays are more
      than ten seconds apart, every relayed value is an integer in
      [0, 100] and every published score is in [0, 100].
    - [Broadcast]: the Socket.IO hub as a [gmap] from session ids to what
      each client received; [on_connect] is the code's handler, the
      delivery semantics of [socketio.emit] are the library's contract
      (spec 4.5), modelled from the spec because the library is not in the
      repository.
    - [System]: the whole program: the hub behind a type class
      [Broadcaster] (what [read_serial] and [on_connect] need from
      Socket.IO, with the [gmap] hub as its instance), the state of both
      execution contexts as the record [system], and one step per event
      ([sys_step]: a serial tick in the background thread, a client
      connecting or leaving, an HTTP [GET /] answered by [index]), with the
      lemmas that run it.
    - [Startup]: the module-level code as statements over the module's
      globals ([module_state]): the app and Socket.IO server, the
      [with]-read of [BLE.html], the route, the daemon thread, the
      [connect] handler and [socketio.run] under the [__main__] guard
      ([import_module]); and [program], the import followed by [System]
      from the template read and the Arduino device opened at start-up.
      Two examples: a missing template ends the process before anything
      starts; a plain import starts the serial thread without a server.

    Bounds and fuel.  [digits_of_pos] (the digits of [str(n)]) runs on fuel
    [Pos.size_nat n], which exceeds the number of decimal digits
    ([py_str_Z_digits]), and any larger fuel gives the same string
    ([digits_of_pos_fuel_enough], against the fuel-free [StrInt]).  [data_history] is bounded by
    its [maxlen] of 1000.  The [while True] loop is modelled over every
    finite prefix of its input ([serial_loop]); since every iteration
    returns ([serial_loop_never_raises]), the infinite loop's behaviour is
    the limit of these prefixes.  Scenario theorems use binary64, general
    ones hold for any [PyFloat] instance or, where exact arithmetic is
    needed, for [Qc]: the range theorems of [PolygraphExact] and
    [IngestionExact] are proved in [Qc] only; in binary64 the range of the
    score and of the relayed value is proved for up to 200 scored readings
    ([Binary64]).

    What is not modelled: the contents of [BLE.html] and the serial
    devices (parameters of [program]: whether the file exists and what it
    holds, whether a port opens), Jinja's [render_template_string] (a
    parameter: the route is modelled, the template engine is not), the two
    [print]s inside [Polygraph.update] (lines 24 and 41; the object has no
    output channel in the model, and the thread's own prints are modelled),
    Flask's default configuration (only the key set on line 57 is kept),
    the UTF-8 decoding of the serial bytes (the model starts
    from the decoded ASCII text; [str.strip], [str.lower] and
    [str.isdigit] are modelled on ASCII only), the limit of 4300 digits
    that CPython 3.11 and later put on [int()] of a string (a line that
    long cannot arrive within [readline]'s one-second timeout at 9600
    baud), the compensated float summation of [sum()] in CPython 3.12 and
    later ([sq_dev_sum_from] adds left to right; only the binary64
    standard deviation differs, and no theorem depends on it),
    [time.sleep], the true concurrency of
    the two threads (the system interleaves whole steps; each step of one
    context touches state the other does not write), the Socket.IO
    transport itself (delivery is assumed reliable to connected clients),
    and the aliasing between [data_history]'s entries and the dict that
    [read_serial] later extends with ['maybe_lying'] (the history is never
    read, and the model keeps the reading as parsed). *)

From Stdlib Require Import ZArith String List Lia.
Import ListNotations.

Declare Scope py_scope.
Delimit Scope py_scope with py.

(** The exceptions the modelled code can raise. *)
Inductive pyexc : Type :=
| KeyError (k : string)
| TypeError
| ValueError
| AttributeError
| ZeroDivisionError
| OverflowError
| OSError.                (** [serial.SerialException] is an [IOError] *)

(** The outcome of a Python statement: a value, or an exception in flight. *)
Inductive result (A : Type) : Type :=
| Ok (a : A)
| Raise (e : pyexc).
Arguments Ok {A} a.
Arguments Raise {A} e.

(** A computation over a mutable object of type [S].  The state is returned
    also when an exception is raised: what was mutated before the [raise]
    stays mutated. *)
Definition PyM (S A : Type) : Type := S -> S * result A.

Definition ret {S A} (a : A) : PyM S A := fun s => (s, Ok a).

Definition raise {S A} (e : pyexc) : PyM S A := fun s => (s, Raise e).

Definition bind {S A B} (c : PyM S A) (f : A -> PyM S B) : PyM S B :=
  fun s =>
    let '(s', r) := c s in
    match r with
    | Ok a => f a s'
    | Raise e => (s', Raise e)
    end.

Definition get {S} : PyM S S := fun s => (s, Ok s).

Definition modify {S} (f : S -> S) : PyM S unit := fun s => (f s, Ok tt).

(** A pure Python expression that may raise. *)
Definition lift {S A} (r : result A) : PyM S A := fun s => (s, r).

Notation "x <- c ;; k" := (bind c (fun x => k))
  (at level 61, c at next level, right associativity) : py_scope.
Notation "c ;; k" := (bind c (fun _ => k))
  (at level 61, right associativity) : py_scope.

Local Open Scope py_scope.

(** [for x in l: body(x)] *)
Fixpoint py_for {S X} (l : list X) (body : X -> PyM S unit) : PyM S unit :=
  match l with
  | [] => ret tt
  | x :: l' => body x ;; py_for l' body
  end.

(** [try: c  except Exception: handler(e)] *)
Definition py_try {S A} (c : PyM S A) (handler : pyexc -> PyM S A) : PyM S A :=
  fun s =>
    let '(s', r) := c s in
    match r with
    | Ok a => (s', Ok a)
    | Raise e => handler e s'
    end.

(** [try: c  finally: fin], which is also how a [with] block releases its
    resource: [fin] runs on both exits, and an exception it raises replaces
    the one in flight. *)
Definition py_finally {S A} (c : PyM S A) (fin : PyM S unit) : PyM S A :=
  fun s =>
    let '(s1, r) := c s in
    let '(s2, r2) := fin s1 in
    (s2, match r2 with Ok _ => r | Raise e => Raise e end).

(** A method call [self.f.m(...)] on the object held in field [f] of a
    larger state: [getf] reads the field, [setf] writes it back, also when
    the method raises. *)
Definition zoom {S T A} (getf : S -> T) (setf : T -> S -> S) (c : PyM T A) : PyM S A :=
  fun s => let '(t', r) := c (getf s) in (setf t' s, r).

(** Bind on the [result] of a pure expression. *)
Definition rbind {A B} (r : result A) (f : A -> result B) : result B :=
  match r with
  | Ok a => f a
  | Raise e => Raise e
  end.

(** A state predicate that a computation keeps, on every exit path
    (normal return and exception alike). *)
Definition preserves {S A} (P : S -> Prop) (c : PyM S A) : Prop :=
  forall s, P s -> P (fst (c s)).

Create HintDb py.
Create Rewrite HintDb py_rw.

Lemma bind_ret_l {S A B} (a : A) (f : A -> PyM S B) s :
  bind (ret a) f s = f a s.
Proof. reflexivity. Qed.

Lemma bind_assoc {S A B C} (c : PyM S A) (f : A -> PyM S B) (g : B -> PyM S C) s :
  bind (bind c f) g s = bind c (fun a => bind (f a) g) s.
Proof.
  unfold bind. destruct (c s) as [s' [a|e]]; [|reflexivity].
  destruct (f a s') as [s'' [b|e']]; reflexivity.
Qed.

(** Running [c ;; k] from [s]: either [c] raised, or [k] ran from the state
    [c] left. *)
Lemma bind_cases {S A B} (c : PyM S A) (f : A -> PyM S B) s :
  (exists s' e, c s = (s', Raise e) /\ bind c f s = (s', Raise e)) \/
  (exists s' a, c s = (s', Ok a) /\ bind c f s = f a s').
Proof.
  unfold bind. destruct (c s) as [s' [a|e]]; eauto 6.
Qed.

Lemma preserves_ret {S A} (P : S -> Prop) (a : A) : preserves P (ret a).
Proof. intros s H. exact H. Qed.

Lemma preserves_raise {S A} (P : S -> Prop) e : preserves P (@raise S A e).
Proof. intros s H. exact H. Qed.

Lemma preserves_get {S} (P : S -> Prop) : preserves P get.
Proof. intros s H. exact H. Qed.

Lemma preserves_lift {S A} (P : S -> Prop) (r : result A) : preserves P (lift r).
Proof. intros s H. exact H. Qed.

Lemma preserves_modify {S} (P : S -> Prop) (f : S -> S) :
  (forall s, P s -> P (f s)) -> preserves P (modify f).
Proof. intros Hf s H. exact (Hf s H). Qed.

Lemma preserves_bind {S A B} (P : S -> Prop) (c : PyM S A) (f : A -> PyM S B) :
  preserves P c -> (forall a, preserves P (f a)) -> preserves P (bind c f).
Proof.
  intros Hc Hf s H. unfold bind.
  specialize (Hc s H). destruct (c s) as [s' [a|e]]; simpl in *; auto.
  apply Hf. exact Hc.
Qed.

Lemma preserves_for {S X} (P : S -> Prop) (l : list X) (body : X -> PyM S unit) :
  (forall x, In x l -> preserves P (body x)) -> preserves P (py_for l body).
Proof.
  induction l as [|x l IH]; intros Hb; simpl.
  - apply preserves_ret.
  - apply preserves_bind; [apply Hb; left; reflexivity|].
    intros _. apply IH. intros y Hy. apply Hb. right. exact Hy.
Qed.

Lemma preserves_try {S A} (P : S -> Prop) (c : PyM S A) (h : pyexc -> PyM S A) :
  preserves P c -> (forall e, preserves P (h e)) -> preserves P (py_try c h).
Proof.
  intros Hc Hh s H. unfold py_try.
  specialize (Hc s H). destruct (c s) as [s' [a|e]]; simpl in *; auto.
  apply Hh. exact Hc.
Qed.

Lemma preserves_finally {S A} (P : S -> Prop) (c : PyM S A) (fin : PyM S unit) :
  preserves P c -> preserves P fin -> preserves P (py_finally c fin).
Proof.
  intros Hc Hf s H. unfold py_finally.
  specialize (Hc s H). destruct (c s) as [s1 r]. simpl in Hc.
  specialize (Hf s1 Hc). destruct (fin s1) as [s2 r2]. exact Hf.
Qed.

Lemma zoom_run {S T A} (getf : S -> T) (setf : T -> S -> S) (c : PyM T A) s :
  zoom getf setf c s = (setf (fst (c (getf s))) s, snd (c (getf s))).
Proof. unfold zoom. destruct (c (getf s)). reflexivity. Qed.

Lemma preserves_if {S A} (P : S -> Prop) (b : bool) (c1 c2 : PyM S A) :
  preserves P c1 -> preserves P c2 -> preserves P (if b then c1 else c2).
Proof. destruct b; auto. Qed.

(** A [for] loop that completes: what each iteration established, and the
    later iterations keep, holds at the end. *)
Lemma py_for_ok_each {S X} (Q : X -> S -> Prop) (l : list X) (body : X -> PyM S unit) :
  (forall x s s', In x l -> body x s = (s', Ok tt) -> Q x s') ->
  (forall x y, In x l -> In y l -> preserves (Q x) (body y)) ->
  forall s s', py_for l body s = (s', Ok tt) -> forall x, In x l -> Q x s'.
Proof.
  induction l as [|y l IH]; intros Hpost Hkeep s s' Hrun x Hx; [destruct Hx|].
  simpl in Hrun. unfold bind in Hrun.
  destruct (body y s) as [s1 [[]|e]] eqn:E1; [|discriminate].
  destruct Hx as [<-|Hx].
  - pose proof (Hpost y s s1 (or_introl eq_refl) E1) as Hq.
    assert (Hp : preserves (Q y) (py_for l body)).
    { apply preserves_for. intros z Hz. apply Hkeep; simpl; auto. }
    specialize (Hp s1 Hq). rewrite Hrun in Hp. exact Hp.
  - refine (IH _ _ s1 s' Hrun x Hx).
    + intros z s0 s2 Hz. apply Hpost. right. exact Hz.
    + intros z w Hz Hw. apply Hkeep; right; assumption.
Qed.

(** A [for] loop that completes ran every iteration to completion. *)
Lemma py_for_ok_inv {S X} (body : X -> PyM S unit) (x : X) l' s s' :
  py_for (x :: l') body s = (s', Ok tt) ->
  exists s1, body x s = (s1, Ok tt) /\ py_for l' body s1 = (s', Ok tt).
Proof.
  simpl. unfold bind. destruct (body x s) as [s1 [[]|e]]; intros H; [eauto|discriminate].
Qed.

(** A [for] loop cannot complete when one of its iterations cannot complete
    in any state the earlier iterations leave. *)
Lemma py_for_blocked {S X} (P : S -> Prop) (l : list X) (body : X -> PyM S unit) x :
  In x l ->
  (forall y, In y l -> preserves P (body y)) ->
  (forall s s', P s -> body x s <> (s', Ok tt)) ->
  forall s s', P s -> py_for l body s <> (s', Ok tt).
Proof.
  induction l as [|y l IH]; intros Hx Hkeep Hblock s s' Hs Hrun; [destruct Hx|].
  apply py_for_ok_inv in Hrun. destruct Hrun as (s1 & E1 & Hrest).
  destruct Hx as [<-|Hx]; [exact (Hblock s s1 Hs E1)|].
  pose proof (Hkeep y (or_introl eq_refl) s Hs) as Hs1. rewrite E1 in Hs1.
  refine (IH Hx _ Hblock s1 s' Hs1 Hrest).
  intros z Hz. apply Hkeep. right. exact Hz.
Qed.

(** A [for] loop over distinct items runs to completion when each
    iteration completes on any item whose precondition holds, keeping the
    loop invariant [Q] and the preconditions of the other items. *)
Lemma py_for_nodup_ok {S X} (Q : S -> Prop) (P : X -> S -> Prop) (l : list X) (body : X -> PyM S unit) :
  NoDup l ->
  (forall x s, In x l -> Q s -> P x s ->
     exists s', body x s = (s', Ok tt) /\ Q s' /\ forall y, In y l -> y <> x -> P y s -> P y s') ->
  forall s, Q s -> (forall x, In x l -> P x s) -> exists s', py_for l body s = (s', Ok tt) /\ Q s'.
Proof.
  induction l as [|x l IH]; intros Hnd Hstep s Hq Hpre; [exists s; split; [reflexivity|exact Hq]|].
  inversion Hnd as [|? ? Hx Hnd']; subst.
  destruct (Hstep x s (or_introl eq_refl) Hq (Hpre x (or_introl eq_refl))) as (s1 & E1 & Hq1 & Hkeep).
  assert (Hstep' : forall y s0, In y l -> Q s0 -> P y s0 ->
            exists s', body y s0 = (s', Ok tt) /\ Q s' /\ forall z, In z l -> z <> y -> P z s0 -> P z s').
  { intros y s0 Hy Hq0 Hp. destruct (Hstep y s0 (or_intror Hy) Hq0 Hp) as (s' & E & Hq' & K).
    exists s'. split; [exact E|split; [exact Hq'|]]. intros z Hz. apply K. right. exact Hz. }
  destruct (IH Hnd' Hstep' s1 Hq1) as (s' & Hrun & Hq').
  - intros y Hy. apply Hkeep; [right; exact Hy|intros ->; contradiction|apply Hpre; right; exact Hy].
  - exists s'. cbn [py_for]. unfold bind. rewrite E1. auto.
Qed.

#[export] Hint Resolve preserves_ret preserves_raise preserves_get preserves_lift
  preserves_bind preserves_for preserves_try preserves_finally preserves_if : py.

(** [preserves] goals are split along the structure of the code. *)
Ltac preserves_step :=
  match goal with
  | |- preserves _ (bind _ _) => apply preserves_bind; [|intro]
  | |- preserves _ (py_for _ _) => apply preserves_for; intros ? ?
  | |- preserves _ (py_try _ _) => apply preserves_try; [|intro]
  | |- preserves _ (py_finally _ _) => apply preserves_finally
  | |- preserves _ (if _ then _ else _) => apply preserves_if
  | |- preserves _ (match ?x with _ => _ end) => destruct x
  | |- preserves _ (ret _) => apply preserves_ret
  | |- preserves _ (raise _) => apply preserves_raise
  | |- preserves _ get => apply preserves_get
  | |- preserves _ (lift _) => apply preserves_lift
  | |- preserves _ (modify _) => apply preserves_modify; intros ? ?
  end.

Ltac solve_preserves := repeat preserves_step.
