(* ===== verification/PyFloat.v ===== *)
(** * Python floats, as the code uses them

    [Polygraph.update] computes means with [sum(vals) / len(vals)] (int/int
    true division), squared deviations [(v - avg) ** 2] (int minus float,
    squared), a square root [** 0.5], products with the literal thresholds
    [1.2] and [1.3], the ratio [exceed_count / total_count * 100], and the
    loop compares floats with ints ([data[k] > avg * thr],
    [now - start_time >= calibration_time], [time.time() - last_sent_time > 10])
    and converts with [round(score, 1)] and [int(score)].

    The class [PyFloat] collects the primitive operations; the Python-level
    operations (exact float/int comparisons, [int()], [round(x, 1)], the
    division helpers that raise [ZeroDivisionError]) are defined once on top
    of it.  Two instances:
    - [PyFloat_Qc]: exact canonical rationals [Qc]; [x ** 0.5] is the
      rational square root when the argument is the square of a rational
      (always the case in the theorems that use it) and otherwise rounds down
      at the argument's denominator.
    - [PyFloat_b64]: IEEE-754 binary64 with round-to-nearest-even, through the
      Standard Library's executable [SpecFloat]; int/int true division is
      correctly rounded for all integers, as CPython's [long_true_divide]
      is.  Conversions of integers of more than 1024 bits (where CPython
      raises [OverflowError]) give an infinity here.

    [round(x, 1)] rounds to the nearest tenth with ties to even
    ([round_half_even_nearest]). *)

From Stdlib Require Import ZArith QArith Qabs Qcanon Qround String Lia.
From Stdlib Require Import SpecFloat.
From S2P Require Import Prelude.

(** The value a float stands for. *)
Inductive fvalue : Type :=
| Finite (q : Q)
| PosInf
| NegInf
| NaN.

Class PyFloat (F : Type) := {
  fl_of_Z : Z -> F;              (** [float(n)] *)
  fl_truediv_Z : Z -> Z -> F;    (** [a / b] on two ints, [b <> 0] *)
  fl_add : F -> F -> F;
  fl_sub : F -> F -> F;
  fl_mul : F -> F -> F;
  fl_div : F -> F -> F;          (** [x / y], [y <> 0] *)
  fl_sqrt : F -> F;              (** [x ** 0.5], [x >= 0] *)
  fl_value : F -> fvalue
}.

(** Strict order on [Q] as a boolean. *)
Definition Qltb (a b : Q) : bool := negb (Qle_bool b a).

Section PyFloatOps.
Context {F : Type} {PF : PyFloat F}.

(** [int > float], i.e. the float is below the int; exact, as CPython
    compares an int with a float without rounding the int. *)
Definition float_lt_int (x : F) (z : Z) : bool :=
  match fl_value x with
  | Finite q => Qltb q (inject_Z z)
  | NegInf => true
  | _ => false
  end.

(** [float > int] *)
Definition float_gt_int (x : F) (z : Z) : bool :=
  match fl_value x with
  | Finite q => Qltb (inject_Z z) q
  | PosInf => true
  | _ => false
  end.

(** [float >= int] *)
Definition float_ge_int (x : F) (z : Z) : bool :=
  match fl_value x with
  | Finite q => Qle_bool (inject_Z z) q
  | PosInf => true
  | _ => false
  end.

(** [int(x)]: truncation toward zero. *)
Definition py_int_of_float (x : F) : result Z :=
  match fl_value x with
  | Finite q => Ok (Z.quot (Qnum q) (Zpos (Qden q)))
  | NaN => Raise ValueError
  | _ => Raise OverflowError
  end.

(** Round to the nearest integer, ties to even. *)
Definition round_half_even (q : Q) : Z :=
  let n := Qnum q in
  let d := Zpos (Qden q) in
  let fl := Z.div n d in
  match Z.compare (2 * Z.modulo n d) d with
  | Lt => fl
  | Gt => fl + 1
  | Eq => if Z.even fl then fl else fl + 1
  end.

(** [round(x, 1)]: CPython rounds the exact value of [x] to one decimal
    (ties to even) and returns the float nearest that decimal, [k / 10];
    infinities and NaN are returned unchanged. *)
Definition py_round1 (x : F) : F :=
  match fl_value x with
  | Finite q => fl_truediv_Z (round_half_even (q * 10)) 10
  | _ => x
  end.

(** [a / b] on ints. *)
Definition py_truediv (a b : Z) : result F :=
  if Z.eqb b 0 then Raise ZeroDivisionError else Ok (fl_truediv_Z a b).

(** [x / n], a float divided by an int. *)
Definition py_fdiv_int (x : F) (n : Z) : result F :=
  if Z.eqb n 0 then Raise ZeroDivisionError else Ok (fl_div x (fl_of_Z n)).

End PyFloatOps.

(** ** Exact rationals *)

Definition qc_sqrt (x : Qc) : Qc :=
  Q2Qc (Z.sqrt (Qnum x * Zpos (Qden x)) # Qden x).

#[export] Instance PyFloat_Qc : PyFloat Qc := {
  fl_of_Z z := Q2Qc (inject_Z z);
  fl_truediv_Z a b := Q2Qc (inject_Z a / inject_Z b);
  fl_add := Qcplus;
  fl_sub := Qcminus;
  fl_mul := Qcmult;
  fl_div := Qcdiv;
  fl_sqrt := qc_sqrt;
  fl_value x := Finite (this x)
}.

(** ** IEEE-754 binary64 *)

Definition b64 : Type := spec_float.

Definition b64_prec : Z := 53.
Definition b64_emax : Z := 1024.

Definition b64_of_Z (z : Z) : b64 := binary_normalize b64_prec b64_emax z 0 false.

(** Correctly rounded [a / b] for ints, with the sign of a zero quotient as
    CPython gives it ([0 / -3 == -0.0]). *)
Definition b64_truediv_Z (a b : Z) : b64 :=
  match a, b with
  | _, Z0 => S754_nan
  | Z0, _ => S754_zero (Z.ltb b 0)
  | _, _ =>
      let '(m, e, l) := SFdiv_core_binary b64_prec b64_emax (Z.abs a) 0 (Z.abs b) 0 in
      binary_round_aux b64_prec b64_emax (xorb (Z.ltb a 0) (Z.ltb b 0)) m e l
  end.

Definition b64_value (x : b64) : fvalue :=
  match x with
  | S754_zero _ => Finite 0
  | S754_infinity false => PosInf
  | S754_infinity true => NegInf
  | S754_nan => NaN
  | S754_finite s m e =>
      let q := if Z.leb 0 e then inject_Z (Zpos m * 2 ^ e)
               else Zpos m # Pos.pow 2 (Z.to_pos (- e)) in
      Finite (if s then Qopp q else q)
  end.

#[export] Instance PyFloat_b64 : PyFloat b64 := {
  fl_of_Z := b64_of_Z;
  fl_truediv_Z := b64_truediv_Z;
  fl_add := SFadd b64_prec b64_emax;
  fl_sub := SFsub b64_prec b64_emax;
  fl_mul := SFmul b64_prec b64_emax;
  fl_div := SFdiv b64_prec b64_emax;
  fl_sqrt := SFsqrt b64_prec b64_emax;
  fl_value := b64_value
}.

(** ** [round]: the nearest integer, ties to even *)

Lemma round_dist (n : Z) (d : positive) (z : Z) :
  Qabs ((n # d) - inject_Z z) == (Z.abs (n - z * Zpos d) # d).
Proof. unfold Qminus, Qplus, Qopp, inject_Z, Qabs, Qeq. cbn. lia. Qed.

(** [round_half_even], the integer rounding inside [round(x, 1)]
    (line 116), returns an integer at distance at most [1/2] of its
    argument, hence a nearest integer, and at a tie (distance exactly
    [1/2]) the even one, as CPython's [round] does. *)
Lemma round_half_even_nearest (q : Q) :
  let z := round_half_even q in
  (Qabs (q - inject_Z z) <= 1 # 2)%Q /\ (Qabs (q - inject_Z z) == 1 # 2 -> Z.even z = true)%Q.
Proof.
  destruct q as [n d]. cbv zeta. rewrite round_dist. unfold Qle, Qeq. cbn [Qnum Qden].
  unfold round_half_even. cbn [Qnum Qden].
  pose proof (Z.div_mod n (Zpos d) ltac:(lia)) as Hdm.
  pose proof (Z.mod_pos_bound n (Zpos d) ltac:(lia)) as Hb.
  set (fl := (n / Zpos d)%Z) in *. set (r := (n mod Zpos d)%Z) in *.
  destruct (Z.compare_spec (2 * r) (Zpos d)) as [E|E|E].
  - destruct (Z.even fl) eqn:Ev.
    + split; [nia|intros _; exact Ev].
    + rewrite Z.even_add, Ev. split; [nia|intros _; reflexivity].
  - split; [nia|intros H; nia].
  - split; [nia|intros H; nia].
Qed.
