(* ===== verification/PyDict.v ===== *)
(** * Python dictionaries and the values the program stores in them

    Every [dict] of the program has string keys ([data] from [parse_line],
    [self.baseline], the [{'avg': .., 'std': ..}] records, the [thresholds]
    literal) and its iteration order matters ([for k in self.baseline]
    visits keys in insertion order, and an exception part-way leaves the
    earlier keys updated), so a dict is an association list in insertion
    order with at most one entry per key:
    - [dict_get d k] is [d[k]], raising [KeyError k];
    - [dict_set d k v] is [d[k] = v]: an existing key keeps its position and
      gets the new value, a new key goes last;
    - [dict_mem d k] is [k in d].

    [rawval] are the values [parse_line] produces (int, bool, str);
    [pyval F] adds the float and [None] that [read_serial] stores under
    ['maybe_lying'].  [raw_num], [raw_sub_float] and [raw_gt_float] are the
    arithmetic Python performs on a [rawval]: [bool] is a subclass of
    [int] ([True + 1 == 2]), and [str] raises [TypeError]. *)

From Stdlib Require Import ZArith String List Lia.
From S2P Require Import Prelude PyFloat.
Import ListNotations.

Section Dict.
Context {V : Type}.

Definition dict : Type := list (string * V).

Fixpoint dict_lookup (d : dict) (k : string) : option V :=
  match d with
  | [] => None
  | (k', v) :: d' => if String.eqb k k' then Some v else dict_lookup d' k
  end.

Definition dict_get (d : dict) (k : string) : result V :=
  match dict_lookup d k with
  | Some v => Ok v
  | None => Raise (KeyError k)
  end.

Fixpoint dict_set (d : dict) (k : string) (v : V) : dict :=
  match d with
  | [] => [(k, v)]
  | (k', v') :: d' =>
      if String.eqb k k' then (k', v) :: d' else (k', v') :: dict_set d' k v
  end.

Definition dict_mem (d : dict) (k : string) : bool :=
  match dict_lookup d k with
  | Some _ => true
  | None => false
  end.

Definition dict_keys (d : dict) : list string := map fst d.

End Dict.
Arguments dict : clear implicits.

(** The values [parse_line] stores. *)
Inductive rawval : Type :=
| RInt (z : Z)
| RBool (b : bool)
| RStr (s : string).

(** The values of the dictionary [read_serial] emits. *)
Inductive pyval (F : Type) : Type :=
| VInt (z : Z)
| VBool (b : bool)
| VStr (s : string)
| VFloat (x : F)
| VNone.
Arguments VInt {F} z.
Arguments VBool {F} b.
Arguments VStr {F} s.
Arguments VFloat {F} x.
Arguments VNone {F}.

Definition pyval_of_raw {F} (v : rawval) : pyval F :=
  match v with
  | RInt z => VInt z
  | RBool b => VBool b
  | RStr s => VStr s
  end.

Section RawArith.
Context {F : Type} {PF : PyFloat F}.

(** The int a value stands for in arithmetic ([True] is 1). *)
Definition raw_num (v : rawval) : result Z :=
  match v with
  | RInt z => Ok z
  | RBool b => Ok (if b then 1 else 0)%Z
  | RStr _ => Raise TypeError
  end.

(** [sum(vals)]: starts from the int 0 and adds left to right. *)
Fixpoint raw_sum_from (acc : Z) (vals : list rawval) : result Z :=
  match vals with
  | [] => Ok acc
  | v :: vs => rbind (raw_num v) (fun z => raw_sum_from (acc + z)%Z vs)
  end.

Definition raw_sum (vals : list rawval) : result Z := raw_sum_from 0%Z vals.

(** [v - x] for a float [x]: the int is converted to float. *)
Definition raw_sub_float (v : rawval) (x : F) : result F :=
  rbind (raw_num v) (fun z => Ok (fl_sub (fl_of_Z z) x)).

(** [v > x] for a float [x]: exact comparison. *)
Definition raw_gt_float (v : rawval) (x : F) : result bool :=
  rbind (raw_num v) (fun z => Ok (float_lt_int x z)).

End RawArith.

(** ** Lemmas *)

Section DictLemmas.
Context {V : Type}.

Lemma dict_lookup_set_eq (d : dict V) k v : dict_lookup (dict_set d k v) k = Some v.
Proof.
  induction d as [|[k' v'] d IH]; simpl.
  - rewrite String.eqb_refl. reflexivity.
  - destruct (String.eqb k k') eqn:E; simpl; rewrite ?E; [reflexivity|exact IH].
Qed.

Lemma dict_lookup_set_ne (d : dict V) k k' v :
  k <> k' -> dict_lookup (dict_set d k v) k' = dict_lookup d k'.
Proof.
  intros Hne. induction d as [|[k0 v0] d IH]; simpl.
  - destruct (String.eqb k' k) eqn:E; [apply String.eqb_eq in E; congruence|reflexivity].
  - destruct (String.eqb k k0) eqn:E; simpl.
    + apply String.eqb_eq in E. subst k0.
      destruct (String.eqb k' k) eqn:E'; [apply String.eqb_eq in E'; congruence|reflexivity].
    + rewrite IH. reflexivity.
Qed.

Lemma dict_get_set_eq (d : dict V) k v : dict_get (dict_set d k v) k = Ok v.
Proof. unfold dict_get. rewrite dict_lookup_set_eq. reflexivity. Qed.

Lemma dict_get_set_ne (d : dict V) k k' v :
  k <> k' -> dict_get (dict_set d k v) k' = dict_get d k'.
Proof. intros H. unfold dict_get. rewrite dict_lookup_set_ne by exact H. reflexivity. Qed.

Lemma dict_mem_lookup (d : dict V) k : dict_mem d k = true <-> exists v, dict_lookup d k = Some v.
Proof.
  unfold dict_mem. destruct (dict_lookup d k); split; intros H; eauto; try discriminate.
  destruct H as [? H]; discriminate.
Qed.

Lemma dict_lookup_In (d : dict V) k : (exists v, dict_lookup d k = Some v) <-> In k (dict_keys d).
Proof.
  induction d as [|[k' v'] d IH]; simpl.
  - split; [intros [? H]; discriminate|intros []].
  - destruct (String.eqb k k') eqn:E.
    + apply String.eqb_eq in E. subst. split; eauto.
    + apply String.eqb_neq in E. rewrite IH. split; [auto|].
      intros [H|H]; [congruence|exact H].
Qed.

(** Setting a key already present keeps the keys and their order. *)
Lemma dict_keys_set_mem (d : dict V) k v :
  In k (dict_keys d) -> dict_keys (dict_set d k v) = dict_keys d.
Proof.
  induction d as [|[k' v'] d IH]; simpl; [intros []|].
  intros H. destruct (String.eqb k k') eqn:E; simpl; [reflexivity|].
  apply String.eqb_neq in E. f_equal. apply IH. destruct H; [congruence|exact H].
Qed.

(** Setting a new key appends it. *)
Lemma dict_keys_set_new (d : dict V) k v :
  ~ In k (dict_keys d) -> dict_keys (dict_set d k v) = dict_keys d ++ [k].
Proof.
  induction d as [|[k' v'] d IH]; simpl; [reflexivity|].
  intros H. destruct (String.eqb k k') eqn:E.
  - apply String.eqb_eq in E. subst. exfalso. apply H. left. reflexivity.
  - simpl. f_equal. apply IH. intros H'. apply H. right. exact H'.
Qed.

Lemma dict_set_nodup (d : dict V) k v :
  NoDup (dict_keys d) -> NoDup (dict_keys (dict_set d k v)).
Proof.
  intros H. destruct (in_dec String.string_dec k (dict_keys d)) as [Hin|Hin].
  - rewrite dict_keys_set_mem by exact Hin. exact H.
  - rewrite dict_keys_set_new by exact Hin.
    apply NoDup_app; auto using NoDup_cons, NoDup_nil.
    intros x Hx [Hy|[]]. subst. contradiction.
Qed.

Lemma dict_get_ok_in (d : dict V) k v : dict_get d k = Ok v -> In k (dict_keys d).
Proof.
  unfold dict_get. intros H. apply dict_lookup_In.
  destruct (dict_lookup d k) as [w|]; [eauto|discriminate].
Qed.

Lemma dict_keys_set_incl (d : dict V) k v x :
  In x (dict_keys d) -> In x (dict_keys (dict_set d k v)).
Proof.
  intros H. destruct (in_dec String.string_dec k (dict_keys d)) as [Hk|Hk].
  - rewrite dict_keys_set_mem by exact Hk. exact H.
  - rewrite dict_keys_set_new by exact Hk. apply in_or_app. left. exact H.
Qed.

Lemma dict_keys_set_sub (d : dict V) k v x :
  In x (dict_keys (dict_set d k v)) -> x = k \/ In x (dict_keys d).
Proof.
  destruct (in_dec String.string_dec k (dict_keys d)) as [Hk|Hk].
  - rewrite dict_keys_set_mem by exact Hk. auto.
  - rewrite dict_keys_set_new by exact Hk. intros H. apply in_app_or in H.
    destruct H as [H|[H|[]]]; auto.
Qed.

Lemma dict_get_some (d : dict V) k v : dict_lookup d k = Some v -> dict_get d k = Ok v.
Proof. unfold dict_get. intros ->. reflexivity. Qed.

Lemma dict_mem_some (d : dict V) k v : dict_lookup d k = Some v -> dict_mem d k = true.
Proof. unfold dict_mem. intros ->. reflexivity. Qed.

(** A new key goes last. *)
Lemma dict_set_fresh (d : dict V) k v : dict_lookup d k = None -> dict_set d k v = d ++ [(k, v)].
Proof.
  induction d as [|[k' v'] d IH]; simpl; [reflexivity|].
  destruct (String.eqb k k'); [discriminate|]. intros H. rewrite (IH H). reflexivity.
Qed.

(** A property of every entry survives [d[k] = v] for an entry that has
    it (an existing key keeps its first spelling). *)
Lemma dict_set_Forall (P : string -> V -> Prop) (d : dict V) k v :
  Forall (fun kv => P (fst kv) (snd kv)) d -> P k v ->
  Forall (fun kv => P (fst kv) (snd kv)) (dict_set d k v).
Proof.
  intros Hd Hk. induction Hd as [|[k0 v0] d H0 Hd IH]; cbn.
  - constructor; [exact Hk|constructor].
  - destruct (String.eqb k k0) eqn:E; constructor; auto.
    apply String.eqb_eq in E. subst k0. exact Hk.
Qed.

Lemma dict_lookup_in (d : dict V) k v : dict_lookup d k = Some v -> In (k, v) d.
Proof.
  induction d as [|[k' v'] d IH]; cbn; [discriminate|].
  destruct (String.eqb_spec k k') as [<-|_]; [intros [= <-]; left; reflexivity|].
  intros H. right. exact (IH H).
Qed.

(** The same dict seen at another value type ([rawval] as [pyval]). *)
Lemma dict_lookup_map_values {W} (f : V -> W) (d : dict V) k :
  dict_lookup (map (fun kv => (fst kv, f (snd kv))) d) k = option_map f (dict_lookup d k).
Proof.
  induction d as [|[k' v'] d IH]; simpl; [reflexivity|].
  destruct (String.eqb k k'); [reflexivity|exact IH].
Qed.

Lemma dict_keys_map_values {W} (f : V -> W) (d : dict V) :
  dict_keys (map (fun kv => (fst kv, f (snd kv))) d) = dict_keys d.
Proof. unfold dict_keys. rewrite map_map. reflexivity. Qed.

End DictLemmas.

#[export] Hint Rewrite @dict_get_set_eq @dict_lookup_set_eq : py_rw.
