(* ===== verification/LineParser.v ===== *)
(** * [parse_line] (src/pythonWeb.py, lines 75-90)

    The Arduino sends lines such as [ekg:512|gsr:340|sound:88].
    [parse_line] splits the line on ['|'], each part on [':'] (a part that
    does not split into exactly two pieces makes the tuple assignment raise
    [ValueError]), strips and lower-cases the key, strips the value, and
    converts it: digits only gives an int, [true]/[false] in any case a
    bool, anything else stays text.  A bare [except] turns any exception
    into [None].

    The string operations are those of CPython restricted to ASCII text:
    [py_split] is [str.split(sep)], [py_strip] is [str.strip()] (the ASCII
    characters [str.isspace] accepts: 9-13 and 28-32), [py_lower] is
    [str.lower()], [py_isdigit] is [str.isdigit()] and [digits_value] is
    [int()] on a string of decimal digits.  [py_str_Z] is [str(n)] for an
    int, used to print fields (and, in [read_serial], the relay payload). *)

From Stdlib Require Import ZArith String Ascii List Bool Lia.
From S2P Require Import Prelude PyDict.
Import ListNotations.
Local Open Scope string_scope.
Local Open Scope bool_scope.

(** ** CPython string methods on ASCII text *)

(** [s.split(sep)]: every occurrence of [sep] separates two pieces; the
    result is never empty. *)
Fixpoint py_split (sep : ascii) (s : string) : list string :=
  match s with
  | EmptyString => [EmptyString]
  | String c s' =>
      match py_split sep s' with
      | [] => [String c EmptyString]
      | r :: rs => if Ascii.eqb c sep then EmptyString :: r :: rs else String c r :: rs
      end
  end.

Definition py_isspace (c : ascii) : bool :=
  let n := nat_of_ascii c in
  (Nat.leb 9 n && Nat.leb n 13) || (Nat.leb 28 n && Nat.leb n 32).

Fixpoint py_lstrip (s : string) : string :=
  match s with
  | EmptyString => EmptyString
  | String c s' => if py_isspace c then py_lstrip s' else s
  end.

Fixpoint py_rstrip (s : string) : string :=
  match s with
  | EmptyString => EmptyString
  | String c s' =>
      let r := py_rstrip s' in
      if py_isspace c && String.eqb r "" then EmptyString else String c r
  end.

(** [s.strip()] *)
Definition py_strip (s : string) : string := py_rstrip (py_lstrip s).

Definition lower_char (c : ascii) : ascii :=
  let n := nat_of_ascii c in
  if Nat.leb 65 n && Nat.leb n 90 then ascii_of_nat (n + 32) else c.

(** [s.lower()] *)
Fixpoint py_lower (s : string) : string :=
  match s with
  | EmptyString => EmptyString
  | String c s' => String (lower_char c) (py_lower s')
  end.

Definition is_digit (c : ascii) : bool :=
  let n := nat_of_ascii c in Nat.leb 48 n && Nat.leb n 57.

(** Every character satisfies [p]. *)
Fixpoint str_forall (p : ascii -> bool) (s : string) : bool :=
  match s with
  | EmptyString => true
  | String c s' => p c && str_forall p s'
  end.

(** [s.isdigit()]: non-empty and only digits. *)
Definition py_isdigit (s : string) : bool :=
  match s with
  | EmptyString => false
  | _ => str_forall is_digit s
  end.

(** [int(s)] for a string of decimal digits, read left to right. *)
Fixpoint digits_value (acc : Z) (s : string) : Z :=
  match s with
  | EmptyString => acc
  | String c s' => digits_value (10 * acc + (Z.of_nat (nat_of_ascii c) - 48)) s'
  end.

Definition digit_char (d : Z) : ascii := ascii_of_nat (48 + Z.to_nat d).
#[global] Arguments digit_char : simpl never.

(** The decimal digits of [n > 0], in front of [acc]; [fuel] bounds the
    number of digits. *)
Fixpoint digits_of_pos (fuel : nat) (n : Z) (acc : string) : string :=
  match fuel with
  | O => acc
  | S f =>
      let acc' := String (digit_char (n mod 10)) acc in
      if Z.ltb n 10 then acc' else digits_of_pos f (n / 10) acc'
  end.

(** [str(n)] *)
Definition py_str_Z (n : Z) : string :=
  match n with
  | Z0 => "0"
  | Zpos p => digits_of_pos (Pos.size_nat p) (Zpos p) ""
  | Zneg p => String "-" (digits_of_pos (Pos.size_nat p) (Zpos p) "")
  end.

(** ** [parse_line] *)

(** Lines 83-86: the value of a field, after [value.strip()]. *)
Definition parse_value (value : string) : rawval :=
  if py_isdigit value then RInt (digits_value 0 value)
  else if String.eqb (py_lower value) "true" || String.eqb (py_lower value) "false"
  then RBool (String.eqb (py_lower value) "true")
  else RStr value.

(** Lines 80-86: [key, value = part.split(':')] and the conversions. *)
Definition parse_part (part : string) : result (string * rawval) :=
  match py_split ":" part with
  | [key; value] => Ok (py_lower (py_strip key), parse_value (py_strip value))
  | _ => Raise ValueError
  end.

(** Lines 79-87: [for part in parts: ... data[key] = value]. *)
Fixpoint parse_parts (data : dict rawval) (parts : list string) : result (dict rawval) :=
  match parts with
  | [] => Ok data
  | part :: parts' =>
      rbind (parse_part part) (fun kv => parse_parts (dict_set data (fst kv) (snd kv)) parts')
  end.

(** [parse_line] (lines 75-90); [None] is the bare [except]'s result. *)
Definition parse_line (line : string) : option (dict rawval) :=
  match parse_parts [] (py_split "|" line) with
  | Ok data => Some data
  | Raise _ => None
  end.

(** ** Lemmas on the string methods *)

Lemma py_split_nonempty sep s : py_split sep s <> [].
Proof.
  destruct s as [|c s]; simpl; [discriminate|].
  destruct (py_split sep s); [discriminate|]. destruct (Ascii.eqb c sep); discriminate.
Qed.

Definition no_char (sep : ascii) (s : string) : bool :=
  str_forall (fun c => negb (Ascii.eqb c sep)) s.

Lemma py_split_no_sep sep s : no_char sep s = true -> py_split sep s = [s].
Proof.
  induction s as [|c s IH]; simpl; [reflexivity|].
  intros H. apply andb_prop in H as [Hc Hs]. rewrite (IH Hs).
  destruct (Ascii.eqb c sep); [discriminate|reflexivity].
Qed.

Lemma py_split_app sep x y :
  no_char sep x = true -> py_split sep (x ++ String sep y) = x :: py_split sep y.
Proof.
  induction x as [|c x IH]; simpl; intros H.
  - destruct (py_split sep y) as [|r rs] eqn:E; [exfalso; exact (py_split_nonempty sep y E)|].
    rewrite Ascii.eqb_refl. reflexivity.
  - apply andb_prop in H as [Hc Hx]. rewrite (IH Hx).
    destruct (Ascii.eqb c sep); [discriminate|reflexivity].
Qed.

(** Joining pieces without the separator and splitting again. *)
Lemma py_split_concat sep (parts : list string) :
  parts <> [] -> Forall (fun p => no_char sep p = true) parts ->
  py_split sep (String.concat (String sep "") parts) = parts.
Proof.
  induction parts as [|p ps IH]; intros Hne Hall; [contradiction|].
  inversion Hall as [|? ? Hp Hps]; subst.
  destruct ps as [|q qs].
  - simpl. apply py_split_no_sep. exact Hp.
  - assert (E : String.concat (String sep "") (p :: q :: qs) =
                p ++ String sep (String.concat (String sep "") (q :: qs))) by reflexivity.
    rewrite E, (py_split_app sep p _ Hp), IH; [reflexivity|discriminate|exact Hps].
Qed.

Lemma py_lstrip_id s : str_forall (fun c => negb (py_isspace c)) s = true -> py_lstrip s = s.
Proof.
  destruct s as [|c s]; simpl; [reflexivity|].
  intros H. apply andb_prop in H as [Hc _]. destruct (py_isspace c); [discriminate|reflexivity].
Qed.

Lemma py_rstrip_id s : str_forall (fun c => negb (py_isspace c)) s = true -> py_rstrip s = s.
Proof.
  induction s as [|c s IH]; simpl; [reflexivity|].
  intros H. apply andb_prop in H as [Hc Hs]. rewrite (IH Hs).
  destruct (py_isspace c); [discriminate|reflexivity].
Qed.

Lemma py_strip_id s : str_forall (fun c => negb (py_isspace c)) s = true -> py_strip s = s.
Proof. intros H. unfold py_strip. rewrite py_lstrip_id by exact H. apply py_rstrip_id, H. Qed.

Definition not_upper (c : ascii) : bool :=
  negb (Nat.leb 65 (nat_of_ascii c) && Nat.leb (nat_of_ascii c) 90).

Lemma lower_char_id c : not_upper c = true -> lower_char c = c.
Proof.
  unfold not_upper, lower_char. cbv zeta.
  destruct (Nat.leb 65 (nat_of_ascii c) && Nat.leb (nat_of_ascii c) 90); [discriminate|reflexivity].
Qed.

Lemma py_lower_id s : str_forall not_upper s = true -> py_lower s = s.
Proof.
  induction s as [|c s IH]; simpl; [reflexivity|].
  intros H. apply andb_prop in H as [Hc Hs]. rewrite (IH Hs), (lower_char_id c Hc). reflexivity.
Qed.

Lemma str_forall_app p x y : str_forall p (x ++ y) = str_forall p x && str_forall p y.
Proof. induction x as [|c x IH]; simpl; [reflexivity|]. rewrite IH. apply andb_assoc. Qed.

Lemma str_forall_impl (p q : ascii -> bool) s :
  (forall c, p c = true -> q c = true) -> str_forall p s = true -> str_forall q s = true.
Proof.
  intros Hpq. induction s as [|c s IH]; simpl; [reflexivity|].
  intros H. apply andb_prop in H as [Hc Hs]. rewrite (Hpq c Hc), (IH Hs). reflexivity.
Qed.

Lemma str_app_assoc (x y z : string) : x ++ (y ++ z) = (x ++ y) ++ z.
Proof. induction x as [|c x IH]; simpl; [reflexivity|rewrite IH; reflexivity]. Qed.

Lemma digits_value_app acc x y : digits_value acc (x ++ y) = digits_value (digits_value acc x) y.
Proof. revert acc. induction x as [|c x IH]; intros acc; simpl; [reflexivity|apply IH]. Qed.

(** ** [str(n)] and [int(s)] *)

Lemma digit_char_spec d :
  (0 <= d < 10)%Z ->
  is_digit (digit_char d) = true /\ (Z.of_nat (nat_of_ascii (digit_char d)) - 48)%Z = d.
Proof.
  intros H. assert (Hd : d = 0%Z \/ d = 1%Z \/ d = 2%Z \/ d = 3%Z \/ d = 4%Z \/ d = 5%Z \/
                         d = 6%Z \/ d = 7%Z \/ d = 8%Z \/ d = 9%Z) by lia.
  repeat destruct Hd as [->|Hd]; try (split; reflexivity). subst. split; reflexivity.
Qed.

Lemma digits_of_pos_app fuel n acc :
  digits_of_pos fuel n acc = digits_of_pos fuel n "" ++ acc.
Proof.
  revert n acc. induction fuel as [|f IH]; intros n acc; simpl; [reflexivity|].
  destruct (Z.ltb n 10); [reflexivity|].
  rewrite (IH _ (String _ acc)), (IH _ (String _ "")). rewrite <- str_app_assoc. reflexivity.
Qed.

Lemma digits_of_pos_value fuel n :
  (0 <= n < 10 ^ Z.of_nat fuel)%Z -> digits_value 0 (digits_of_pos fuel n "") = n.
Proof.
  revert n. induction fuel as [|f IH]; intros n Hn; simpl.
  - simpl in Hn. lia.
  - assert (Hm : (0 <= n mod 10 < 10)%Z) by (apply Z.mod_pos_bound; lia).
    destruct (digit_char_spec _ Hm) as [_ Hv].
    destruct (Z.ltb_spec n 10).
    + cbn [digits_value]. rewrite Hv, Z.mod_small by lia. lia.
    + rewrite digits_of_pos_app, digits_value_app, IH; cbn [digits_value]; [rewrite Hv|].
      * pose proof (Z.div_mod n 10). lia.
      * rewrite Nat2Z.inj_succ, Z.pow_succ_r in Hn by lia.
        split; [apply Z.div_pos; lia|apply Z.div_lt_upper_bound; lia].
Qed.

Lemma digits_of_pos_digits fuel n acc :
  (0 <= n)%Z -> str_forall is_digit (digits_of_pos fuel n acc) = str_forall is_digit acc.
Proof.
  revert n acc. induction fuel as [|f IH]; intros n acc Hn; cbn [digits_of_pos]; [reflexivity|].
  assert (Hm : (0 <= n mod 10 < 10)%Z) by (apply Z.mod_pos_bound; lia).
  destruct (digit_char_spec _ Hm) as [Hd _].
  destruct (Z.ltb n 10); [cbn [str_forall]; rewrite Hd; reflexivity|].
  rewrite IH by (apply Z.div_pos; lia). cbn [str_forall]. rewrite Hd. reflexivity.
Qed.

Lemma pos_lt_pow2_size p : (Zpos p < 2 ^ Z.of_nat (Pos.size_nat p))%Z.
Proof.
  induction p as [p IH|p IH|]; simpl Pos.size_nat; rewrite ?Nat2Z.inj_succ, ?Z.pow_succ_r by lia;
    try (rewrite Pos2Z.inj_xI || rewrite Pos2Z.inj_xO); lia.
Qed.

Lemma pos_lt_pow10_size p : (Zpos p < 10 ^ Z.of_nat (Pos.size_nat p))%Z.
Proof.
  eapply Z.lt_le_trans; [apply pos_lt_pow2_size|].
  apply Z.pow_le_mono_l. lia.
Qed.

(** [int(str(n)) == n] for [n >= 0], and [str(n)] passes [isdigit()]. *)
Lemma py_str_Z_digits n :
  (0 <= n)%Z -> py_isdigit (py_str_Z n) = true /\ digits_value 0 (py_str_Z n) = n.
Proof.
  intros Hn. destruct n as [|p|p]; [split; reflexivity| |lia].
  unfold py_str_Z. split.
  - destruct (Pos.size_nat p) as [|f] eqn:E; [destruct p; discriminate|].
    rewrite <- E. unfold py_isdigit.
    destruct (digits_of_pos (Pos.size_nat p) (Zpos p) "") eqn:Ed.
    + rewrite E in Ed. simpl in Ed. destruct (Z.ltb _ 10); [discriminate|].
      rewrite digits_of_pos_app in Ed. destruct (digits_of_pos f _ ""); discriminate.
    + rewrite <- Ed. rewrite digits_of_pos_digits by lia. reflexivity.
  - apply digits_of_pos_value. split; [lia|apply pos_lt_pow10_size].
Qed.

(** ** What [parse_line] accepts *)

Lemma parse_part_ok_iff part :
  (exists kv, parse_part part = Ok kv) <-> length (py_split ":" part) = 2.
Proof.
  unfold parse_part. destruct (py_split ":" part) as [|a [|b [|c l]]]; simpl;
    split; intros H; try discriminate; try (destruct H as [? H]; discriminate); eauto.
Qed.

Lemma parse_parts_raise_iff data parts :
  (exists e, parse_parts data parts = Raise e) <->
  Exists (fun part => length (py_split ":" part) <> 2) parts.
Proof.
  revert data. induction parts as [|p ps IH]; intros data; simpl.
  - split; [intros [e H]; discriminate|intros H; inversion H].
  - rewrite Exists_cons. destruct (parse_part p) as [kv|e] eqn:Hp; simpl.
    + rewrite IH. assert (H2 : length (py_split ":" p) = 2)
        by (apply parse_part_ok_iff; eauto). tauto.
    + assert (H2 : length (py_split ":" p) <> 2).
      { intros H2. apply parse_part_ok_iff in H2. destruct H2 as [kv H2]. congruence. }
      split; [auto|eauto].
Qed.

(** C14: [parse_line] fails (returns [None]) exactly when some
    ['|']-separated field does not contain exactly one [':']; no other
    input makes it fail, and a failure never yields a partial reading. *)
Theorem parse_line_none_iff line :
  parse_line line = None <->
  Exists (fun part => length (py_split ":" part) <> 2) (py_split "|" line).
Proof.
  unfold parse_line. rewrite <- (parse_parts_raise_iff []).
  destruct (parse_parts [] (py_split "|" line)); split; intros H;
    try discriminate; try (destruct H as [? H]; discriminate); eauto.
Qed.

(** The spec's examples: [ekg:512|gsr:340|sound:88] parses to three ints
    in order, and [ekg512|gsr:340] (a field without [':']) fails. *)
Example parse_line_examples :
  parse_line "ekg:512|gsr:340|sound:88" =
    Some [("ekg", RInt 512); ("gsr", RInt 340); ("sound", RInt 88)] /\
  parse_line "ekg512|gsr:340" = None.
Proof. split; reflexivity. Qed.

(** Inputs at the edges of the line format: a key repeated in another
    case keeps its first position and takes its last value; a trailing
    [|] is an empty field, which does not split on [':'], so the whole line
    is dropped; a value with a sign or a decimal point stays text; an
    empty value is the empty text. *)
Example parse_line_boundaries :
  parse_line "ekg:1|gsr:5|EKG:2" = Some [("ekg", RInt 2); ("gsr", RInt 5)] /\
  parse_line "ekg:1|gsr:2|" = None /\
  parse_line "ekg:+5|gsr:1.5| sound : " =
    Some [("ekg", RStr "+5"); ("gsr", RStr "1.5"); ("sound", RStr "")].
Proof. repeat split; reflexivity. Qed.

(** ** The types of a parsed reading *)

Lemma lower_char_idem c : lower_char (lower_char c) = lower_char c.
Proof.
  unfold lower_char. destruct (Nat.leb 65 (nat_of_ascii c) && Nat.leb (nat_of_ascii c) 90) eqn:E.
  - apply andb_prop in E as [E1 E2]. apply Nat.leb_le in E1, E2.
    rewrite nat_ascii_embedding by lia.
    replace (Nat.leb (nat_of_ascii c + 32) 90) with false by (symmetry; apply Nat.leb_gt; lia).
    rewrite andb_false_r. reflexivity.
  - rewrite E. reflexivity.
Qed.

Lemma py_lower_idem s : py_lower (py_lower s) = py_lower s.
Proof. induction s as [|c s IH]; cbn; [reflexivity|]. rewrite lower_char_idem, IH. reflexivity. Qed.

Lemma digits_value_nonneg acc s :
  (0 <= acc)%Z -> str_forall is_digit s = true -> (0 <= digits_value acc s)%Z.
Proof.
  revert acc. induction s as [|c s IH]; intros acc Ha Hs; cbn [digits_value]; [exact Ha|].
  cbn [str_forall] in Hs. apply andb_prop in Hs as [Hc Hs].
  unfold is_digit in Hc. apply andb_prop in Hc as [Hc _]. apply Nat.leb_le in Hc.
  apply IH; [lia|exact Hs].
Qed.

(** The typing policy of spec 4.1 for one value: digits give a
    non-negative int, [true]/[false] in any case give a bool, anything
    else stays text. *)
Definition raw_wf (v : rawval) : Prop :=
  match v with
  | RInt n => (0 <= n)%Z
  | RBool _ => True
  | RStr s => py_isdigit s = false /\ py_lower s <> "true" /\ py_lower s <> "false"
  end.

Lemma parse_value_wf value : raw_wf (parse_value value).
Proof.
  unfold parse_value. destruct (py_isdigit value) eqn:Hd.
  - cbn. apply digits_value_nonneg; [lia|]. destruct value; [discriminate|exact Hd].
  - destruct (String.eqb (py_lower value) "true") eqn:Et; [exact I|].
    destruct (String.eqb (py_lower value) "false") eqn:Ef; [exact I|].
    apply String.eqb_neq in Et, Ef. cbn. auto.
Qed.

(** A field of a parsed reading: a lower-case key and a typed value. *)
Definition field_wf (k : string) (v : rawval) : Prop := py_lower k = k /\ raw_wf v.

Lemma parse_parts_typed data parts d :
  parse_parts data parts = Ok d ->
  NoDup (dict_keys data) -> Forall (fun kv => field_wf (fst kv) (snd kv)) data ->
  NoDup (dict_keys d) /\ Forall (fun kv => field_wf (fst kv) (snd kv)) d.
Proof.
  revert data. induction parts as [|part parts IH]; intros data Hp Hn Hf; cbn in Hp.
  - injection Hp as <-. auto.
  - unfold parse_part in Hp. destruct (py_split ":" part) as [|key [|value [|? ?]]]; try discriminate.
    cbn in Hp. apply (IH _ Hp); [apply dict_set_nodup, Hn|].
    apply (dict_set_Forall field_wf); [exact Hf|split; [apply py_lower_idem|apply parse_value_wf]].
Qed.

(** C15: Every reading [parse_line] returns is a dict: its keys are
    distinct and lower-case, and each value has the type the spec's policy
    assigns (a non-negative int for digits, a bool for [true]/[false] in
    any case, text otherwise). *)
Theorem parse_line_typed line d :
  parse_line line = Some d ->
  NoDup (dict_keys d) /\ Forall (fun kv => field_wf (fst kv) (snd kv)) d.
Proof.
  unfold parse_line. destruct (parse_parts [] (py_split "|" line)) as [d'|e] eqn:Hp; [|discriminate].
  intros [= <-]. apply (parse_parts_typed [] _ _ Hp); constructor.
Qed.

(** ** Printing a reading and parsing it back *)

(** The characters of a field name: lower-case letters, digits, [_]. *)
Definition key_char (c : ascii) : bool :=
  let n := nat_of_ascii c in
  (Nat.leb 97 n && Nat.leb n 122) || is_digit c || Nat.eqb n 95.

(** The Arduino's line format (spec §6): [k1:v1|k2:v2|...]. *)
Definition render_field (kv : string * Z) : string := fst kv ++ ":" ++ py_str_Z (snd kv).

Definition render_line (fields : list (string * Z)) : string :=
  String.concat "|" (map render_field fields).

Lemma ascii_eqb_nat c d : Ascii.eqb c d = true -> nat_of_ascii c = nat_of_ascii d.
Proof. intros H. apply Ascii.eqb_eq in H. subst. reflexivity. Qed.

(** What a field-name or digit character is not. *)
Lemma plain_char c (sep : ascii) :
  key_char c = true -> (nat_of_ascii sep = 58 \/ nat_of_ascii sep = 124) ->
  negb (Ascii.eqb c sep) = true /\ negb (py_isspace c) = true /\ not_upper c = true.
Proof.
  unfold key_char, is_digit, py_isspace, not_upper. intros Hc Hsep.
  assert (Hn : (97 <= nat_of_ascii c <= 122 \/ 48 <= nat_of_ascii c <= 57 \/
                nat_of_ascii c = 95)%nat).
  { repeat rewrite orb_true_iff in Hc. rewrite !andb_true_iff, !Nat.leb_le, Nat.eqb_eq in Hc.
    lia. }
  split; [|split].
  - destruct (Ascii.eqb c sep) eqn:E; [apply ascii_eqb_nat in E; lia|reflexivity].
  - destruct (Nat.leb_spec 9 (nat_of_ascii c)), (Nat.leb_spec (nat_of_ascii c) 13),
      (Nat.leb_spec 28 (nat_of_ascii c)), (Nat.leb_spec (nat_of_ascii c) 32);
      first [reflexivity|lia].
  - destruct (Nat.leb_spec 65 (nat_of_ascii c)), (Nat.leb_spec (nat_of_ascii c) 90);
      first [reflexivity|lia].
Qed.

Lemma key_str_props s (sep : ascii) :
  str_forall key_char s = true -> (nat_of_ascii sep = 58 \/ nat_of_ascii sep = 124) ->
  no_char sep s = true /\ str_forall (fun c => negb (py_isspace c)) s = true /\
  str_forall not_upper s = true.
Proof.
  intros H Hsep. unfold no_char.
  split; [|split]; apply (str_forall_impl key_char); try exact H; intros c Hc;
    apply (plain_char c sep Hc Hsep).
Qed.

Lemma digit_key_char c : is_digit c = true -> key_char c = true.
Proof. unfold key_char. intros ->. rewrite orb_true_r. reflexivity. Qed.

Lemma py_str_Z_key_chars n : (0 <= n)%Z -> str_forall key_char (py_str_Z n) = true.
Proof.
  intros Hn. destruct (py_str_Z_digits n Hn) as [Hd _].
  apply (str_forall_impl is_digit); [apply digit_key_char|].
  unfold py_isdigit in Hd. destruct (py_str_Z n); [discriminate|exact Hd].
Qed.

Lemma render_field_no_bar kv :
  str_forall key_char (fst kv) = true -> (0 <= snd kv)%Z -> no_char "|" (render_field kv) = true.
Proof.
  intros Hk Hn.
  pose proof (proj1 (key_str_props _ "|" Hk (or_intror eq_refl))) as H1.
  pose proof (proj1 (key_str_props _ "|" (py_str_Z_key_chars _ Hn) (or_intror eq_refl))) as H2.
  unfold no_char, render_field in *. rewrite !str_forall_app, H1, H2. reflexivity.
Qed.

Lemma parse_render_field k n :
  str_forall key_char k = true -> (0 <= n)%Z ->
  parse_part (render_field (k, n)) = Ok (k, RInt n).
Proof.
  intros Hk Hn. destruct (py_str_Z_digits n Hn) as [Hd Hv].
  pose proof (py_str_Z_key_chars n Hn) as Hdk.
  destruct (key_str_props k ":" Hk (or_introl eq_refl)) as (Hk1 & Hk2 & Hk3).
  destruct (key_str_props _ ":" Hdk (or_introl eq_refl)) as (Hd1 & Hd2 & _).
  unfold parse_part, render_field. simpl fst. simpl snd.
  change (":" ++ py_str_Z n) with (String ":" (py_str_Z n)).
  rewrite py_split_app by exact Hk1. rewrite py_split_no_sep by exact Hd1.
  rewrite py_strip_id by exact Hk2. rewrite py_lower_id by exact Hk3.
  rewrite py_strip_id by exact Hd2. unfold parse_value. rewrite Hd, Hv. reflexivity.
Qed.

Lemma parse_render_parts data fields :
  NoDup (map fst data ++ map fst fields)%list ->
  Forall (fun kv => str_forall key_char (fst kv) = true /\ (0 <= snd kv)%Z) fields ->
  parse_parts data (map render_field fields) =
  Ok (data ++ map (fun kv => (fst kv, RInt (snd kv))) fields)%list.
Proof.
  revert data. induction fields as [|[k n] fs IH]; intros data Hnd Hall; simpl.
  - rewrite app_nil_r. reflexivity.
  - inversion Hall as [|? ? [Hk Hn] Hfs]; subst.
    rewrite parse_render_field by assumption. simpl.
    assert (Hnew : dict_lookup data k = None).
    { destruct (dict_lookup data k) eqn:E; [|reflexivity]. exfalso.
      assert (Hin : In k (dict_keys data)) by (apply dict_lookup_In; eauto).
      simpl in Hnd. apply (NoDup_remove_2 (map fst data) (map fst fs) k) in Hnd.
      apply Hnd. apply in_or_app. left. exact Hin. }
    rewrite dict_set_fresh by exact Hnew. rewrite IH.
    + rewrite <- app_assoc. reflexivity.
    + rewrite map_app, <- app_assoc. exact Hnd.
    + exact Hfs.
Qed.

(** C16: Round trip: printing non-negative int fields with distinct
    lower-case names in the Arduino's format and parsing the line gives
    back exactly those fields, as ints, in order. *)
Theorem parse_render_line fields :
  fields <> [] -> NoDup (map fst fields) ->
  Forall (fun kv => str_forall key_char (fst kv) = true /\ (0 <= snd kv)%Z) fields ->
  parse_line (render_line fields) = Some (map (fun kv => (fst kv, RInt (snd kv))) fields).
Proof.
  intros Hne Hnd Hall. unfold parse_line, render_line.
  rewrite py_split_concat.
  - rewrite (parse_render_parts [] fields Hnd Hall). reflexivity.
  - destruct fields; [contradiction|discriminate].
  - apply Forall_map. refine (Forall_impl _ _ Hall).
    intros kv [Hk Hn]. apply render_field_no_bar; assumption.
Qed.

Lemma parse_line_typed_witness :
  parse_line "EKG:0512|Flag: TRUE |note:12.5" =
    Some [("ekg", RInt 512); ("flag", RBool true); ("note", RStr "12.5")] /\
  NoDup (dict_keys [("ekg", RInt 512); ("flag", RBool true); ("note", RStr "12.5")]) /\
  Forall (fun kv => field_wf (fst kv) (snd kv))
    [("ekg", RInt 512); ("flag", RBool true); ("note", RStr "12.5")].
Proof.
  assert (H : parse_line "EKG:0512|Flag: TRUE |note:12.5" =
                Some [("ekg", RInt 512); ("flag", RBool true); ("note", RStr "12.5")])
    by (vm_compute; reflexivity).
  split; [exact H|]. exact (parse_line_typed _ _ H).
Defined.

Lemma parse_render_line_witness :
  [("ekg", 512%Z); ("gsr", 340%Z); ("sound", 88%Z)] <> [] /\
  parse_line (render_line [("ekg", 512%Z); ("gsr", 340%Z); ("sound", 88%Z)]) =
    Some [("ekg", RInt 512); ("gsr", RInt 340); ("sound", RInt 88)].
Proof.
  split; [discriminate|].
  apply (parse_render_line [("ekg", 512%Z); ("gsr", 340%Z); ("sound", 88%Z)]).
  - discriminate.
  - repeat constructor; simpl; intuition discriminate.
  - repeat apply Forall_cons; try apply Forall_nil; (split; [reflexivity|simpl; lia]).
Defined.
