(* ===== verification/StrInt.v ===== *)
(** * [str(n)] by well-founded recursion, and the fuel of [py_str_Z]

    [py_str_Z] (in [LineParser]), which models [f"{stress_percent}"] on
    line 129, produces the digits of [n] with a recursion bounded by the
    fuel [Pos.size_nat n].  Here the same digit loop is written without
    fuel, by well-founded recursion on [n] with Equations ([dec_digits]),
    which is the reference: [py_str_Z] equals it on every integer
    ([py_str_Z_ref_eq]), and any fuel at least [Pos.size_nat n] gives the
    same string ([digits_of_pos_fuel_enough]), so the fuel never runs out
    before the last digit. *)

From Equations Require Import Equations.
From Stdlib Require Import ZArith Ascii String Lia.
From S2P Require Import LineParser.
Local Open Scope string_scope.
Local Open Scope Z_scope.

(** The decimal digits of [n > 0] in front of [acc]: the last digit is
    [n mod 10], the others are those of [n / 10]. *)
Equations? dec_digits (n : Z) (acc : string) : string by wf (Z.to_nat n) lt :=
dec_digits n acc with Z_lt_dec n 10 := {
  | left _ => String (digit_char (n mod 10)) acc;
  | right _ => dec_digits (n / 10) (String (digit_char (n mod 10)) acc) }.
Proof.
  apply Z2Nat.inj_lt; [apply Z.div_pos; lia|lia|apply Z.div_lt; lia].
Qed.

(** [str(n)], the reference. *)
Definition py_str_Z_ref (n : Z) : string :=
  match n with
  | Z0 => "0"
  | Zpos _ => dec_digits n ""
  | Zneg p => String "-" (dec_digits (Zpos p) "")
  end.

(** Fuel that covers the digits of [n] gives the reference's digits. *)
Lemma digits_of_pos_dec fuel n acc :
  0 < n < 10 ^ Z.of_nat fuel -> digits_of_pos fuel n acc = dec_digits n acc.
Proof.
  revert fuel. funelim (dec_digits n acc); intros fuel Hn.
  - destruct fuel as [|f]; [cbn in Hn; lia|].
    cbn [digits_of_pos]. destruct (Z.ltb_spec n 10); [reflexivity|lia].
  - destruct fuel as [|f]; [cbn in Hn; lia|].
    cbn [digits_of_pos]. destruct (Z.ltb_spec n 10); [lia|].
    apply H. rewrite Nat2Z.inj_succ, Z.pow_succ_r in Hn by lia.
    split; [apply Z.div_str_pos; lia|apply Z.div_lt_upper_bound; lia].
Qed.

Lemma pow10_mono (f g : nat) : (f <= g)%nat -> 10 ^ Z.of_nat f <= 10 ^ Z.of_nat g.
Proof. intros H. apply Z.pow_le_mono_r; lia. Qed.

(** [py_str_Z], the fuelled model of [str(n)], is the reference
    printer [py_str_Z_ref] on every integer: the sign, then the digits
    of [|n|] most significant first, with no leading zero. *)
Lemma py_str_Z_ref_eq (n : Z) : py_str_Z n = py_str_Z_ref n.
Proof.
  destruct n as [|p|p]; [reflexivity| |]; unfold py_str_Z, py_str_Z_ref; [|f_equal];
    apply digits_of_pos_dec; split; [lia|apply pos_lt_pow10_size|lia|apply pos_lt_pow10_size].
Qed.

(** The fuel [Pos.size_nat p] of [py_str_Z] is enough: the digit loop
    reaches its last digit before the fuel runs out, so any larger fuel
    produces the same string. *)
Lemma digits_of_pos_fuel_enough (p : positive) (fuel : nat) acc :
  (Pos.size_nat p <= fuel)%nat ->
  digits_of_pos fuel (Zpos p) acc = digits_of_pos (Pos.size_nat p) (Zpos p) acc.
Proof.
  intros Hf. pose proof (pos_lt_pow10_size p) as Hp.
  rewrite !digits_of_pos_dec; [reflexivity| |]; split; try lia.
  eapply Z.lt_le_trans; [exact Hp|apply pow10_mono, Hf].
Qed.

