(* ===== verification/Polygraph.v ===== *)
(** * The [Polygraph] class (src/pythonWeb.py, lines 9-53)

    The state of a [Polygraph] object is the record [polygraph]; its fields
    are the attributes set in [__init__] (lines 10-17).  [self.baseline]
    maps a channel to a list of samples while calibrating, and each list is
    replaced by an [{'avg': .., 'std': ..}] dict at the end of calibration:
    [bentry] has one constructor for each.  [update] (lines 19-53) is
    translated statement by statement into the [PyM] monad of [Prelude], so
    that an exception raised in the middle of [update] (a missing channel,
    a text value, an [AttributeError] on a list already replaced by a dict)
    leaves the object exactly as CPython leaves it.  [time.time()] is the
    argument [now].

    The phases of the object (the spec's WARMING_UP, CALIBRATING, SCORING)
    are the function [phase] of the attributes [start_time] and
    [calibrated]. *)

From Stdlib Require Import ZArith String List Lia.
From S2P Require Import Prelude PyFloat PyDict.
Import ListNotations.
Local Open Scope string_scope.
Local Open Scope py_scope.

(** A value of [self.baseline]. *)
Inductive bentry (F : Type) : Type :=
| BSamples (vals : list rawval)     (** [self.baseline[k] = []] and its appends *)
| BStats (avg std : F).             (** [{'avg': avg, 'std': std}] *)
Arguments BSamples {F} vals.
Arguments BStats {F} avg std.

Record polygraph (F : Type) : Type := mkPolygraph {
  calibration_time : Z;
  start_time : option F;
  calibrated : bool;
  baseline : dict (bentry F);
  data_history : list (dict rawval);
  exceed_count : Z;
  total_count : Z
}.
Arguments mkPolygraph {F}.
Arguments calibration_time {F}.
Arguments start_time {F}.
Arguments calibrated {F}.
Arguments baseline {F}.
Arguments data_history {F}.
Arguments exceed_count {F}.
Arguments total_count {F}.

(** [deque(maxlen=n).append(x)]: when full, the leftmost element is dropped. *)
Definition deque_append {A} (maxlen : nat) (q : list A) (x : A) : list A :=
  if Nat.ltb (length q) maxlen then q ++ [x] else tl q ++ [x].

Definition history_maxlen : nat := 1000.

(** The channels, in the order of the literal [['ekg', 'gsr', 'sound']]. *)
Definition channels : list string := ["ekg"; "gsr"; "sound"].

Section Polygraph.
Context {F : Type} {PF : PyFloat F}.

Abbreviation state := (polygraph F).

(** [Polygraph(calibration_time)] (lines 10-17). *)
Definition init (calibration_time : Z) : state :=
  mkPolygraph calibration_time None false [] [] 0%Z 0%Z.

Definition set_start_time (t : F) (s : state) : state :=
  mkPolygraph (calibration_time s) (Some t) (calibrated s) (baseline s)
    (data_history s) (exceed_count s) (total_count s).

Definition set_calibrated (s : state) : state :=
  mkPolygraph (calibration_time s) (start_time s) true (baseline s)
    (data_history s) (exceed_count s) (total_count s).

Definition set_baseline_entry (k : string) (e : bentry F) (s : state) : state :=
  mkPolygraph (calibration_time s) (start_time s) (calibrated s)
    (dict_set (baseline s) k e) (data_history s) (exceed_count s) (total_count s).

Definition push_history (data : dict rawval) (s : state) : state :=
  mkPolygraph (calibration_time s) (start_time s) (calibrated s) (baseline s)
    (deque_append history_maxlen (data_history s) data)
    (exceed_count s) (total_count s).

Definition incr_total (s : state) : state :=
  mkPolygraph (calibration_time s) (start_time s) (calibrated s) (baseline s)
    (data_history s) (exceed_count s) (total_count s + 1).

Definition add_exceed (n : Z) (s : state) : state :=
  mkPolygraph (calibration_time s) (start_time s) (calibrated s) (baseline s)
    (data_history s) (exceed_count s + n) (total_count s).

(** Lines 28-30, one channel:
    [if k not in self.baseline: self.baseline[k] = []]
    [self.baseline[k].append(data[k])].
    CPython evaluates [self.baseline[k].append] (an [AttributeError] on a
    dict) before the argument [data[k]] (a [KeyError]). *)
Definition append_sample (data : dict rawval) (k : string) : PyM state unit :=
  self <- get ;;
  (if dict_mem (baseline self) k then ret tt
   else modify (set_baseline_entry k (BSamples []))) ;;
  self <- get ;;
  entry <- lift (dict_get (baseline self) k) ;;
  vals <- lift (match entry with
                | BSamples vals => Ok vals
                | BStats _ _ => Raise AttributeError
                end) ;;
  v <- lift (dict_get data k) ;;
  modify (set_baseline_entry k (BSamples (vals ++ [v]))).

(** [sum((v - avg) ** 2 for v in vals)]: the running sum starts as the int
    0, which the first float addition converts. *)
Fixpoint sq_dev_sum_from (acc : F) (avg : F) (vals : list rawval) : result F :=
  match vals with
  | [] => Ok acc
  | v :: vs =>
      rbind (raw_sub_float v avg) (fun d => sq_dev_sum_from (fl_add acc (fl_mul d d)) avg vs)
  end.

(** Lines 34-38 for one channel: [vals = self.baseline[k]], the fallback
    [[0]] for an empty list, the mean and the population standard
    deviation.  A [BStats] value is a two-key dict: [len] is 2 and [sum]
    over its keys raises [TypeError] at the first key. *)
Definition baseline_stats (e : bentry F) : result (F * F) :=
  match e with
  | BStats _ _ => Raise TypeError
  | BSamples vals0 =>
      let vals := if Nat.eqb (length vals0) 0 then [RInt 0] else vals0 in
      let n := Z.of_nat (length vals) in
      rbind (raw_sum vals) (fun total =>
      rbind (py_truediv total n) (fun avg =>
      rbind (sq_dev_sum_from (fl_of_Z 0) avg vals) (fun sq =>
      rbind (py_fdiv_int sq n) (fun var =>
      Ok (avg, fl_sqrt var)))))
  end.

(** Lines 34-39, one key of [for k in self.baseline]. *)
Definition finalize_entry (k : string) : PyM state unit :=
  self <- get ;;
  e <- lift (dict_get (baseline self) k) ;;
  st <- lift (baseline_stats e) ;;
  modify (set_baseline_entry k (BStats (fst st) (snd st))).

(** [thresholds = {'ekg': 1.2, 'gsr': 1.2, 'sound': 1.3}] (line 46); a float
    literal is the float nearest the decimal, i.e. [12 / 10]. *)
Definition thresholds : dict F :=
  [("ekg", fl_truediv_Z 12 10); ("gsr", fl_truediv_Z 12 10); ("sound", fl_truediv_Z 13 10)].

(** Line 48: [data[k] > self.baseline[k]['avg'] * thresholds[k]]; the left
    operand is evaluated first.  Indexing a list with ['avg'] raises
    [TypeError]. *)
Definition channel_exceeds (self : state) (data : dict rawval) (k : string) : result bool :=
  rbind (dict_get data k) (fun v =>
  rbind (dict_get (baseline self) k) (fun e =>
  rbind (match e with
         | BStats avg _ => Ok avg
         | BSamples _ => Raise TypeError
         end) (fun avg =>
  rbind (dict_get thresholds k) (fun thr =>
  raw_gt_float v (fl_mul avg thr))))).

(** Lines 45-49: [exceed = 0; for k in ...: if ...: exceed += 1]. *)
Fixpoint count_exceed_from (self : state) (data : dict rawval) (exceed : Z)
    (ks : list string) : result Z :=
  match ks with
  | [] => Ok exceed
  | k :: ks' =>
      rbind (channel_exceeds self data k) (fun b =>
      count_exceed_from self data (if b then exceed + 1 else exceed)%Z ks')
  end.

(** Line 52: [(self.exceed_count / self.total_count) * 100]. *)
Definition maybe_lying_prob (exceed total : Z) : result F :=
  rbind (py_truediv exceed total) (fun ratio => Ok (fl_mul ratio (fl_of_Z 100))).

(** Lines 22-24: [if self.start_time is None: self.start_time = now]. *)
Definition update_start (now : F) : PyM state unit :=
  self <- get ;;
  match start_time self with
  | None => modify (set_start_time now)
  | Some _ => ret tt
  end.

(** Lines 26-42: the body of [if not self.calibrated]. *)
Definition calibrate_step (now : F) (data : dict rawval) : PyM state (option F) :=
  py_for channels (append_sample data) ;;
  self <- get ;;
  elapsed <- lift (match start_time self with
                   | Some t => Ok (fl_sub now t)
                   | None => Raise TypeError
                   end) ;;
  (if float_ge_int elapsed (calibration_time self) then
     py_for (dict_keys (baseline self)) finalize_entry ;;
     modify set_calibrated
   else ret tt) ;;
  ret None.

(** Lines 44-53: scoring a reading once calibrated. *)
Definition score_step (data : dict rawval) : PyM state (option F) :=
  modify (push_history data) ;;
  self <- get ;;
  exceed <- lift (count_exceed_from self data 0%Z channels) ;;
  modify incr_total ;;
  modify (add_exceed (if Z.ltb 0 exceed then 1 else 0)%Z) ;;
  self <- get ;;
  p <- lift (maybe_lying_prob (exceed_count self) (total_count self)) ;;
  ret (Some p).

(** [Polygraph.update] (lines 19-53).  The result is the returned value:
    [None] while calibrating, [Some maybe_lying_prob] when scoring. *)
Definition update (now : F) (data : dict rawval) : PyM state (option F) :=
  update_start now ;;
  self <- get ;;
  if negb (calibrated self) then calibrate_step now data else score_step data.

(** The spec's phases, read off the attributes the code tests:
    [start_time is None] (line 22) and [self.calibrated] (line 26). *)
Inductive phase_t : Type :=
| WARMING_UP
| CALIBRATING
| SCORING.

Definition phase (s : state) : phase_t :=
  if calibrated s then SCORING
  else match start_time s with
       | None => WARMING_UP
       | Some _ => CALIBRATING
       end.

End Polygraph.

(** ** Running the blocks of [update] *)

Section PolygraphRun.
Context {F : Type} {PF : PyFloat F}.

(** The object after line 23. *)
Definition started (now : F) (s : polygraph F) : polygraph F :=
  match start_time s with
  | None => set_start_time now s
  | Some _ => s
  end.

Lemma update_start_run now s : update_start now s = (started now s, Ok tt).
Proof. unfold update_start, started, bind, get. destruct (start_time s); reflexivity. Qed.

Lemma started_calibrated now s : calibrated (started now s) = calibrated s.
Proof. unfold started. destruct (start_time s); reflexivity. Qed.

Lemma update_run now data s :
  update now data s =
  if calibrated s then score_step data (started now s)
  else calibrate_step now data (started now s).
Proof.
  unfold update. unfold bind at 1. rewrite update_start_run.
  unfold bind, get. rewrite started_calibrated. destruct (calibrated s); reflexivity.
Qed.

Lemma score_step_run data s :
  (0 <= total_count s)%Z ->
  score_step data s =
  let s1 := push_history data s in
  match count_exceed_from s1 data 0%Z channels with
  | Raise e => (s1, Raise e)
  | Ok ex =>
      let s2 := add_exceed (if Z.ltb 0 ex then 1 else 0)%Z (incr_total s1) in
      (s2, Ok (Some (fl_mul (fl_truediv_Z (exceed_count s2) (total_count s2)) (fl_of_Z 100))))
  end.
Proof.
  intros H. unfold score_step, bind, modify, get, lift.
  destruct (count_exceed_from _ _ _ _) as [ex|e]; [|reflexivity].
  unfold maybe_lying_prob, py_truediv. cbn -[fl_mul fl_truediv_Z fl_of_Z].
  destruct (Z.eqb_spec (total_count s + 1) 0); [lia|reflexivity].
Qed.

End PolygraphRun.

(** ** What each block leaves unchanged *)

Section PolygraphFrame.
Context {F : Type} {PF : PyFloat F}.

(** The attributes calibration does not touch. *)
Definition calib_frame (s0 s : polygraph F) : Prop :=
  calibration_time s = calibration_time s0 /\ start_time s = start_time s0 /\
  data_history s = data_history s0 /\ exceed_count s = exceed_count s0 /\
  total_count s = total_count s0.

(** The attributes scoring does not touch. *)
Definition score_frame (s0 s : polygraph F) : Prop :=
  calibration_time s = calibration_time s0 /\ start_time s = start_time s0 /\
  calibrated s = calibrated s0 /\ baseline s = baseline s0.

Ltac frame_leaf := cbn; tauto.

Lemma append_sample_frame s0 data k : preserves (calib_frame s0) (append_sample data k).
Proof. unfold append_sample. solve_preserves; frame_leaf. Qed.

Lemma finalize_entry_frame s0 k : preserves (calib_frame s0) (finalize_entry k).
Proof. unfold finalize_entry. solve_preserves; frame_leaf. Qed.

Lemma calibrate_step_frame s0 now data : preserves (calib_frame s0) (calibrate_step now data).
Proof.
  unfold calibrate_step. solve_preserves;
    auto using append_sample_frame, finalize_entry_frame; frame_leaf.
Qed.

Lemma score_step_frame s0 data : preserves (score_frame s0) (score_step data).
Proof. unfold score_step. solve_preserves; frame_leaf. Qed.

Lemma calib_frame_refl s : calib_frame s s.
Proof. unfold calib_frame. tauto. Qed.

Lemma score_frame_refl s : score_frame s s.
Proof. unfold score_frame. tauto. Qed.

End PolygraphFrame.

(** ** The calibration blocks, as equations *)

Section CalibrationRun.
Context {F : Type} {PF : PyFloat F}.

Lemma append_sample_run data k (s : polygraph F) :
  append_sample data k s =
  let s1 := if dict_mem (baseline s) k then s else set_baseline_entry k (BSamples []) s in
  match dict_get (baseline s1) k with
  | Raise e => (s1, Raise e)
  | Ok (BStats _ _) => (s1, Raise AttributeError)
  | Ok (BSamples vals) =>
      match dict_get data k with
      | Raise e => (s1, Raise e)
      | Ok v => (set_baseline_entry k (BSamples (vals ++ [v])) s1, Ok tt)
      end
  end.
Proof.
  unfold append_sample, bind, get, lift, modify, ret.
  destruct (dict_mem (baseline s) k);
    (destruct (dict_get _ k) as [[vals|avg sd]|e]; [destruct (dict_get data k)| |]); reflexivity.
Qed.

Lemma finalize_entry_run k (s : polygraph F) :
  finalize_entry k s =
  match dict_get (baseline s) k with
  | Raise e => (s, Raise e)
  | Ok e =>
      match baseline_stats e with
      | Raise x => (s, Raise x)
      | Ok st => (set_baseline_entry k (BStats (fst st) (snd st)) s, Ok tt)
      end
  end.
Proof.
  unfold finalize_entry, bind, get, lift, modify.
  destruct (dict_get (baseline s) k) as [e|e]; [destruct (baseline_stats e)|]; reflexivity.
Qed.

Lemma calibrate_step_run now data (s : polygraph F) :
  calibrate_step now data s =
  match py_for channels (append_sample data) s with
  | (s1, Raise e) => (s1, Raise e)
  | (s1, Ok _) =>
      match start_time s1 with
      | None => (s1, Raise TypeError)
      | Some t =>
          if float_ge_int (fl_sub now t) (calibration_time s1) then
            match py_for (dict_keys (baseline s1)) finalize_entry s1 with
            | (s2, Raise e) => (s2, Raise e)
            | (s2, Ok _) => (set_calibrated s2, Ok None)
            end
          else (s1, Ok None)
      end
  end.
Proof.
  unfold calibrate_step, bind at 1.
  destruct (py_for channels (append_sample data) s) as [s1 [[]|e]]; [|reflexivity].
  unfold bind, get, lift. destruct (start_time s1) as [t|]; [|reflexivity].
  destruct (float_ge_int _ _); [|reflexivity].
  destruct (py_for _ finalize_entry s1) as [s2 [[]|e]]; reflexivity.
Qed.

(** Neither loop of the calibration block sets [calibrated]. *)
Lemma append_sample_calibrated b data k :
  preserves (fun s : polygraph F => calibrated s = b) (append_sample data k).
Proof. unfold append_sample. solve_preserves; cbn; assumption. Qed.

Lemma finalize_entry_calibrated b k :
  preserves (fun s : polygraph F => calibrated s = b) (finalize_entry k).
Proof. unfold finalize_entry. solve_preserves; cbn; assumption. Qed.

End CalibrationRun.

(** ** The exceed count of a reading *)

Section ExceedCount.
Context {F : Type} {PF : PyFloat F}.

Lemma channel_exceeds_baseline (s1 s2 : polygraph F) data k :
  baseline s1 = baseline s2 -> channel_exceeds s1 data k = channel_exceeds s2 data k.
Proof. intros H. unfold channel_exceeds. rewrite H. reflexivity. Qed.

Lemma count_exceed_baseline (s1 s2 : polygraph F) data e0 ks :
  baseline s1 = baseline s2 ->
  count_exceed_from s1 data e0 ks = count_exceed_from s2 data e0 ks.
Proof.
  intros H. revert e0. induction ks as [|k ks IH]; intros e0; simpl; [reflexivity|].
  rewrite (channel_exceeds_baseline s1 s2 data k H).
  destruct (channel_exceeds s2 data k); simpl; auto.
Qed.

Lemma count_exceed_range (s : polygraph F) data e0 ks ex :
  count_exceed_from s data e0 ks = Ok ex -> (e0 <= ex <= e0 + Z.of_nat (length ks))%Z.
Proof.
  revert e0. induction ks as [|k ks IH]; intros e0 H; simpl in H.
  - inversion H. simpl. lia.
  - destruct (channel_exceeds s data k) as [b|e]; [|discriminate]. simpl in H.
    apply IH in H. simpl length. destruct b; lia.
Qed.

(** The count is positive exactly when some channel exceeds. *)
Lemma count_exceed_pos (s : polygraph F) data e0 ks ex :
  count_exceed_from s data e0 ks = Ok ex ->
  ((e0 < ex)%Z <-> exists k, In k ks /\ channel_exceeds s data k = Ok true).
Proof.
  revert e0. induction ks as [|k ks IH]; intros e0 H; simpl in H.
  - inversion H; subst. split; [lia|intros (k & [] & _)].
  - destruct (channel_exceeds s data k) as [b|e] eqn:Ek; [|discriminate]. simpl in H.
    destruct b.
    + apply count_exceed_range in H. split; [intros _; exists k; simpl; auto|lia].
    + rewrite (IH _ H). split; intros (k' & Hin & Hk').
      * exists k'. simpl. auto.
      * exists k'. destruct Hin as [<-|Hin]; [congruence|auto].
Qed.

(** A channel missing from the reading makes the count raise. *)
Lemma count_exceed_missing (s : polygraph F) data e0 ks k :
  In k ks -> dict_lookup data k = None ->
  exists e, count_exceed_from s data e0 ks = Raise e.
Proof.
  revert e0. induction ks as [|k' ks IH]; intros e0 Hin Hk; [destruct Hin|]. simpl.
  destruct Hin as [<-|Hin].
  - unfold channel_exceeds, dict_get at 1. rewrite Hk. simpl. eauto.
  - destruct (channel_exceeds s data k') as [b|e]; simpl; eauto.
Qed.

End ExceedCount.
