(* ===== verification/PolygraphProps.v ===== *)
(** * Properties of the [Polygraph] class

    Theorems about [Polygraph.update] for any float arithmetic (any
    instance of [PyFloat]):
    - the calibration state machine: the start time is set by the first
      reading and never moves, calibration is one-way and freezes the
      baseline ([update_start_time], [update_keeps_calibration]);
    - scoring: the counters and the returned ratio, the OR over channels,
      and what a reading with a missing channel does
      ([update_scoring], [update_exceed_iff], [update_missing_channel]);
    - the invariant of every reachable object ([reachable_inv]);
    - calibration needs every channel and never uses the empty-list
      fallback ([calibration_needs_every_channel],
      [append_loop_fills_every_key]);
    - a text sample during calibration disables the object for good
      ([update_poisoned]);
    - the counters only grow once scoring starts
      ([update_counters_monotone]);
    - [data_history] holds the last 1000 readings given to a calibrated
      object, those on which scoring raised included
      ([history_keeps_last_readings], through [deque_appends_lastn]). *)

From Stdlib Require Import ZArith String List Lia.
From S2P Require Import Prelude PyFloat PyDict Polygraph.
Import ListNotations.
Local Open Scope string_scope.
Local Open Scope py_scope.

(** ** The calibration state machine *)

Section PolygraphTheorems.
Context {F : Type} {PF : PyFloat F}.

Lemma started_fields now (s : polygraph F) :
  calibration_time (started now s) = calibration_time s /\
  calibrated (started now s) = calibrated s /\ baseline (started now s) = baseline s /\
  data_history (started now s) = data_history s /\
  exceed_count (started now s) = exceed_count s /\ total_count (started now s) = total_count s /\
  start_time (started now s) = Some (match start_time s with Some t => t | None => now end).
Proof. unfold started. destruct (start_time s) eqn:E; cbn; repeat split; exact E. Qed.

(** C3: Calibration is one-way and the baseline is frozen: once an object
    is calibrated, [update] (on every path, exceptions included) leaves it
    calibrated, with the same baseline and calibration time. *)
Theorem update_keeps_calibration now data (s : polygraph F) :
  calibrated s = true ->
  let s' := fst (update now data s) in
  calibrated s' = true /\ baseline s' = baseline s /\
  calibration_time s' = calibration_time s.
Proof.
  intros Hc. rewrite update_run, Hc.
  destruct (score_step_frame (started now s) data (started now s) (score_frame_refl _))
    as (HT & _ & Hcal & Hb).
  destruct (started_fields now s) as (HT0 & Hc0 & Hb0 & _).
  repeat split; congruence.
Qed.

(** C7: The first reading starts the calibration clock: [update] sets
    [start_time] to [now] when it was [None] and never changes it
    afterwards, on every path. *)
Theorem update_start_time now data (s : polygraph F) :
  start_time (fst (update now data s)) =
  Some (match start_time s with Some t => t | None => now end).
Proof.
  rewrite update_run. destruct (started_fields now s) as (_ & _ & _ & _ & _ & _ & Hst).
  destruct (calibrated s).
  - destruct (score_step_frame (started now s) data (started now s) (score_frame_refl _))
      as (_ & H & _). congruence.
  - destruct (calibrate_step_frame (started now s) now data (started now s) (calib_frame_refl _))
      as (_ & H & _). congruence.
Qed.

(** [update] on a calibrated object, as one equation. *)
Lemma update_scoring_run now data (s : polygraph F) :
  calibrated s = true -> (0 <= total_count s)%Z ->
  update now data s =
  let s1 := push_history data (started now s) in
  match count_exceed_from s data 0%Z channels with
  | Raise e => (s1, Raise e)
  | Ok ex =>
      let s2 := add_exceed (if Z.ltb 0 ex then 1 else 0)%Z (incr_total s1) in
      (s2, Ok (Some (fl_mul (fl_truediv_Z (exceed_count s2) (total_count s2)) (fl_of_Z 100))))
  end.
Proof.
  intros Hc Ht. destruct (started_fields now s) as (_ & _ & Hb & _ & _ & Ht0 & _).
  rewrite update_run, Hc, score_step_run by lia. cbv zeta.
  rewrite (count_exceed_baseline (push_history data (started now s)) s); [reflexivity|].
  cbn. exact Hb.
Qed.

(** C1: Scoring: on a calibrated object, a reading whose channels all
    compare without error is counted ([total_count] + 1), counted as
    exceeding when its exceed count is positive, appended to the history,
    and [update] returns [(exceed_count / total_count) * 100] computed on
    the new counters; the baseline is unchanged. *)
Theorem update_scoring now data (s : polygraph F) ex :
  calibrated s = true -> (0 <= total_count s)%Z ->
  count_exceed_from s data 0%Z channels = Ok ex ->
  exists s' p,
    update now data s = (s', Ok (Some p)) /\
    maybe_lying_prob (exceed_count s') (total_count s') = Ok p /\
    total_count s' = (total_count s + 1)%Z /\
    exceed_count s' = (exceed_count s + (if Z.ltb 0 ex then 1 else 0))%Z /\
    data_history s' = deque_append history_maxlen (data_history s) data /\
    baseline s' = baseline s.
Proof.
  intros Hc Ht Hex. rewrite update_scoring_run by assumption. rewrite Hex.
  destruct (started_fields now s) as (_ & _ & Hb & Hh & He & Ht0 & _).
  do 2 eexists. split; [reflexivity|]. cbn. rewrite Hb, Hh, He, Ht0.
  unfold maybe_lying_prob, py_truediv.
  destruct (Z.eqb_spec (total_count s + 1) 0); [lia|]. auto.
Qed.

(** C13: A scored reading counts as exceeding (the exceed counter grows by
    one) exactly when at least one channel exceeds its threshold; otherwise
    the counter is unchanged. *)
Theorem update_exceed_iff now data (s : polygraph F) ex :
  calibrated s = true -> (0 <= total_count s)%Z ->
  count_exceed_from s data 0%Z channels = Ok ex ->
  let s' := fst (update now data s) in
  (exceed_count s' = (exceed_count s + 1)%Z <->
   exists k, In k channels /\ channel_exceeds s data k = Ok true) /\
  (exceed_count s' = exceed_count s \/ exceed_count s' = (exceed_count s + 1)%Z).
Proof.
  intros Hc Ht Hex. rewrite update_scoring_run by assumption. rewrite Hex.
  destruct (started_fields now s) as (_ & _ & _ & _ & He & _).
  cbn. rewrite He. rewrite <- (count_exceed_pos s data 0 channels ex Hex).
  destruct (Z.ltb_spec 0 ex); split; [split; intros; lia|lia|split; intros; lia|lia].
Qed.

(** The counters never go down: every [update], on every path
    (exceptions included), leaves [exceed_count] and [total_count] equal or
    one higher, and [exceed_count] grows only together with
    [total_count]. *)
Theorem update_counters_monotone now data (s : polygraph F) :
  let s' := fst (update now data s) in
  (exceed_count s <= exceed_count s' <= exceed_count s + 1)%Z /\
  (total_count s <= total_count s' <= total_count s + 1)%Z /\
  (exceed_count s' - exceed_count s <= total_count s' - total_count s)%Z.
Proof.
  destruct (started_fields now s) as (_ & _ & _ & _ & He & Ht & _).
  rewrite update_run. destruct (calibrated s).
  - unfold score_step, bind, modify, get, lift. cbn [fst snd].
    destruct (count_exceed_from _ _ _ _) as [ex|e]; cbn; rewrite He, Ht; [|lia].
    destruct (maybe_lying_prob _ _); destruct (Z.ltb 0 ex); cbn; lia.
  - destruct (calibrate_step_frame (started now s) now data (started now s) (calib_frame_refl _))
      as (_ & _ & _ & He' & Ht'). cbn. rewrite He', Ht', He, Ht. lia.
Qed.

(** C6: A reading that lacks one of the channels, once calibrated, is not
    skipped channel by channel: [update] raises, the counters are unchanged
    (the reading is not scored), and the reading has nevertheless been
    appended to [data_history]. *)
Theorem update_missing_channel now data (s : polygraph F) k :
  calibrated s = true -> In k channels -> dict_lookup data k = None ->
  let (s', r) := update now data s in
  (exists e, r = Raise e) /\
  total_count s' = total_count s /\ exceed_count s' = exceed_count s /\
  data_history s' = deque_append history_maxlen (data_history s) data.
Proof.
  intros Hc Hin Hk.
  destruct (count_exceed_missing s data 0 channels k Hin Hk) as [e He].
  destruct (started_fields now s) as (_ & _ & Hb & Hh & He0 & Ht0 & _).
  rewrite update_run, Hc. unfold score_step, bind, modify, get, lift.
  rewrite (count_exceed_baseline _ s) by (cbn; exact Hb). rewrite He.
  cbn. rewrite Hh, He0, Ht0. eauto.
Qed.

End PolygraphTheorems.

(** ** What the calibration loops establish *)

Section CalibrationLoops.
Context {F : Type} {PF : PyFloat F}.

Definition has_key (k : string) (s : polygraph F) : Prop := In k (dict_keys (baseline s)).

Definition has_stats (k : string) (s : polygraph F) : Prop :=
  exists avg sd, dict_lookup (baseline s) k = Some (BStats avg sd).

Lemma append_sample_has_key x data k : preserves (has_key x) (append_sample data k).
Proof.
  intros s H. unfold has_key in *. rewrite append_sample_run. cbv zeta.
  assert (H1 : In x (dict_keys (baseline
    (if dict_mem (baseline s) k then s else set_baseline_entry k (BSamples []) s)))).
  { destruct (dict_mem _ _); [exact H|apply dict_keys_set_incl; exact H]. }
  destruct (dict_get _ k) as [[vals|avg sd]|e]; [destruct (dict_get data k)| |];
    cbn; try apply dict_keys_set_incl; exact H1.
Qed.

Lemma append_sample_adds_key data k (s s' : polygraph F) :
  append_sample data k s = (s', Ok tt) -> has_key k s'.
Proof.
  rewrite append_sample_run. cbv zeta.
  destruct (dict_get _ k) as [[vals|avg sd]|e] eqn:E; [|discriminate|discriminate].
  destruct (dict_get data k); [|discriminate]. intros H. inversion H; subst.
  unfold has_key. cbn. apply dict_keys_set_incl. eapply dict_get_ok_in. exact E.
Qed.

Lemma finalize_entry_has_stats x k : preserves (has_stats x) (finalize_entry k).
Proof.
  intros s H. rewrite finalize_entry_run.
  destruct (dict_get (baseline s) k) as [e|e]; [destruct (baseline_stats e) as [st|]|];
    cbn; try exact H.
  unfold has_stats. cbn. destruct (String.string_dec k x) as [<-|Hne].
  - rewrite dict_lookup_set_eq. eauto.
  - rewrite dict_lookup_set_ne by exact Hne. exact H.
Qed.

Lemma finalize_entry_sets_stats k (s s' : polygraph F) :
  finalize_entry k s = (s', Ok tt) -> has_stats k s'.
Proof.
  rewrite finalize_entry_run.
  destruct (dict_get (baseline s) k) as [e|e]; [destruct (baseline_stats e) as [st|]|];
    intros H; inversion H; subst.
  unfold has_stats. cbn. rewrite dict_lookup_set_eq. eauto.
Qed.

Lemma finalize_entry_keys k (s : polygraph F) :
  dict_keys (baseline (fst (finalize_entry k s))) = dict_keys (baseline s).
Proof.
  rewrite finalize_entry_run.
  destruct (dict_get (baseline s) k) as [e|e] eqn:E; [destruct (baseline_stats e)|];
    cbn; try reflexivity.
  apply dict_keys_set_mem. eapply dict_get_ok_in. exact E.
Qed.

(** The append loop that completes leaves a key for every channel. *)
Lemma append_loop_keys data (s s' : polygraph F) :
  py_for channels (append_sample data) s = (s', Ok tt) ->
  forall k, In k channels -> has_key k s'.
Proof.
  apply py_for_ok_each.
  - intros x s0 s1 _. apply append_sample_adds_key.
  - intros x y _ _. apply append_sample_has_key.
Qed.

(** The finalization loop that completes leaves statistics for every key. *)
Lemma finalize_loop_stats ks (s s' : polygraph F) :
  py_for ks finalize_entry s = (s', Ok tt) -> forall k, In k ks -> has_stats k s'.
Proof.
  apply py_for_ok_each.
  - intros x s0 s1 _. apply finalize_entry_sets_stats.
  - intros x y _ _. apply finalize_entry_has_stats.
Qed.

Lemma finalize_loop_keys ks (s : polygraph F) :
  dict_keys (baseline (fst (py_for ks finalize_entry s))) = dict_keys (baseline s).
Proof.
  set (P := fun s0 : polygraph F => dict_keys (baseline s0) = dict_keys (baseline s)).
  change (P (fst (py_for ks finalize_entry s))).
  apply preserves_for; [|reflexivity].
  intros k _ s0 H. unfold P in *. rewrite finalize_entry_keys. exact H.
Qed.

(** A calibration block that sets [calibrated] has a start time and
    statistics for every channel. *)
Lemma calibrate_step_sets_stats now data (s : polygraph F) :
  calibrated s = false -> calibrated (fst (calibrate_step now data s)) = true ->
  start_time (fst (calibrate_step now data s)) <> None /\
  forall k, In k channels -> has_stats k (fst (calibrate_step now data s)).
Proof.
  intros Hc. rewrite calibrate_step_run.
  destruct (py_for channels (append_sample data) s) as [s1 [[]|e]] eqn:E1;
    pose proof (preserves_for _ channels (append_sample data)
                  (fun k _ => append_sample_calibrated false data k) s Hc) as Hc1;
    rewrite E1 in Hc1; cbn in Hc1; [|cbn; intros; congruence].
  destruct (start_time s1) as [t|] eqn:Ht; [|cbn; congruence].
  destruct (float_ge_int _ _); [|cbn; congruence].
  destruct (py_for (dict_keys (baseline s1)) finalize_entry s1) as [s2 [[]|e]] eqn:E2.
  - intros _. cbn. split.
    + pose proof (preserves_for (calib_frame s1) (dict_keys (baseline s1)) finalize_entry
                    (fun k _ => finalize_entry_frame s1 k) s1 (calib_frame_refl s1)) as Hf.
      rewrite E2 in Hf. destruct Hf as (_ & Hst & _). cbn in Hst. congruence.
    + intros k Hk. destruct (finalize_loop_stats _ s1 s2 E2 k) as (avg & sd & H);
        [exact (append_loop_keys data s s1 E1 k Hk)|].
      exists avg, sd. exact H.
  - pose proof (preserves_for _ (dict_keys (baseline s1)) finalize_entry
                  (fun k _ => finalize_entry_calibrated false k) s1 Hc1) as Hc2.
    rewrite E2 in Hc2. cbn in Hc2. cbn. intros. congruence.
Qed.

End CalibrationLoops.

(** ** The invariant of a [Polygraph] object *)

Section Invariant.
Context {F : Type} {PF : PyFloat F}.

(** The keys of [self.baseline] are distinct channel names. *)
Definition keys_ok (s : polygraph F) : Prop :=
  NoDup (dict_keys (baseline s)) /\ incl (dict_keys (baseline s)) channels.

Definition polygraph_inv (s : polygraph F) : Prop :=
  (0 <= exceed_count s <= total_count s)%Z /\
  length (data_history s) <= history_maxlen /\
  keys_ok s /\
  (calibrated s = true ->
   start_time s <> None /\ forall k, In k channels -> has_stats k s) /\
  (calibrated s = false ->
   exceed_count s = 0%Z /\ total_count s = 0%Z /\ data_history s = []).

(** The objects [read_serial] can hold: [Polygraph(T)] after any sequence of
    [update] calls, with any times and readings, whatever they raised. *)
Inductive reachable (T : Z) : polygraph F -> Prop :=
| reachable_init : reachable T (init T)
| reachable_step now data s : reachable T s -> reachable T (fst (update now data s)).

(** The reference for [deque(maxlen=n)]: the [n] most recent items. *)
Definition lastn {A} (n : nat) (l : list A) : list A := skipn (length l - n) l.

Lemma lastn_short {A} (n : nat) (l : list A) : length l <= n -> lastn n l = l.
Proof. intros H. unfold lastn. replace (length l - n) with 0 by lia. apply skipn_0. Qed.

(** Keeping the last [n] items and appending more keeps the last [n] of the
    whole. *)
Lemma lastn_lastn_app {A} (n : nat) (l ys : list A) :
  lastn n (lastn n l ++ ys) = lastn n (l ++ ys).
Proof.
  destruct (Nat.le_gt_cases (length l) n) as [H|H]; [rewrite (lastn_short n l H); reflexivity|].
  unfold lastn at 2. set (k := length l - n).
  unfold lastn. rewrite !length_app, length_skipn.
  replace (length l + length ys - n) with (length ys + k) by lia.
  replace (length l - k + length ys - n) with (length ys) by lia.
  rewrite <- skipn_skipn, (skipn_app k l ys). replace (k - length l) with 0 by lia.
  rewrite skipn_0. reflexivity.
Qed.

Lemma deque_append_length {A} (n : nat) (q : list A) x :
  0 < n -> length q <= n -> length (deque_append n q x) <= n.
Proof.
  intros Hn Hq. unfold deque_append.
  destruct (Nat.ltb_spec (length q) n); rewrite length_app; simpl.
  - lia.
  - destruct q; simpl in *; lia.
Qed.

Lemma deque_append_lastn {A} (n : nat) (q : list A) x :
  0 < n -> length q <= n -> deque_append n q x = lastn n (q ++ [x]).
Proof.
  intros Hn Hq. unfold deque_append, lastn. rewrite length_app. cbn [length].
  destruct (Nat.ltb_spec (length q) n).
  - replace (length q + 1 - n) with 0 by lia. reflexivity.
  - replace (length q + 1 - n) with 1 by lia.
    destruct q; [cbn in *; lia|reflexivity].
Qed.

(** [deque(maxlen=n)]: after any sequence of appends to a deque holding
    at most [n] items, it holds exactly the [n] most recent items, oldest
    first. *)
Lemma deque_appends_lastn {A} (n : nat) (q xs : list A) :
  0 < n -> length q <= n -> fold_left (deque_append n) xs q = lastn n (q ++ xs).
Proof.
  intros Hn. revert q. induction xs as [|x xs IH]; intros q Hq.
  - rewrite app_nil_r, lastn_short by exact Hq. reflexivity.
  - cbn [fold_left]. rewrite IH by (apply deque_append_length; assumption).
    rewrite deque_append_lastn, lastn_lastn_app, <- app_assoc by assumption. reflexivity.
Qed.

Lemma set_baseline_entry_keys_ok k e (s : polygraph F) :
  In k channels -> keys_ok s -> keys_ok (set_baseline_entry k e s).
Proof.
  intros Hk [Hnd Hincl]. split; cbn.
  - apply dict_set_nodup. exact Hnd.
  - intros x Hx. apply dict_keys_set_sub in Hx. destruct Hx as [->|Hx]; auto.
Qed.

Lemma append_sample_keys_ok data k :
  In k channels -> preserves keys_ok (append_sample data k).
Proof.
  intros Hk s H. rewrite append_sample_run. cbv zeta.
  assert (H1 : keys_ok (if dict_mem (baseline s) k then s
                        else set_baseline_entry k (BSamples []) s)).
  { destruct (dict_mem _ _); [exact H|apply set_baseline_entry_keys_ok; assumption]. }
  destruct (dict_get _ k) as [[vals|avg sd]|e]; [destruct (dict_get data k)| |];
    cbn [fst]; try apply set_baseline_entry_keys_ok; assumption.
Qed.

Lemma finalize_entry_keys_ok k : preserves (@keys_ok) (finalize_entry k).
Proof.
  intros s [Hnd Hincl]. unfold keys_ok. rewrite finalize_entry_keys. auto.
Qed.

Lemma calibrate_step_keys_ok now data : preserves keys_ok (calibrate_step now data).
Proof.
  unfold calibrate_step. solve_preserves;
    auto using append_sample_keys_ok, finalize_entry_keys_ok.
Qed.

Lemma update_inv now data (s : polygraph F) :
  polygraph_inv s -> polygraph_inv (fst (update now data s)).
Proof.
  intros (Hcnt & Hhist & [Hnd Hincl] & Hcal & Hpre).
  destruct (started_fields now s) as (HT & Hc0 & Hb0 & Hh0 & He0 & Ht0 & Hst0).
  destruct (calibrated s) eqn:Hc.
  - destruct (Hcal eq_refl) as [Hst Hstats].
    rewrite update_scoring_run by (auto; lia).
    assert (Hlen : length (deque_append history_maxlen (data_history s) data) <= history_maxlen)
      by (apply deque_append_length; [unfold history_maxlen; lia|exact Hhist]).
    destruct (count_exceed_from s data 0 channels) as [ex|e] eqn:Hex;
      unfold polygraph_inv, keys_ok, has_stats; cbn; rewrite Hc0, Hb0, Hh0, He0, Ht0, Hst0;
      (repeat split; try tauto; try lia; try discriminate; try exact Hnd; try exact Hincl).
    all: destruct (Z.ltb_spec 0 ex); lia.
  - pose proof (calibrate_step_frame (started now s) now data (started now s)
                  (calib_frame_refl _)) as (_ & Hst' & Hh' & He' & Ht').
    pose proof (calibrate_step_keys_ok now data (started now s)) as Hk'.
    rewrite update_run, Hc.
    destruct (Hpre eq_refl) as (He & Ht & Hh).
    set (s' := fst (calibrate_step now data (started now s))) in *.
    assert (Hks : keys_ok s') by (apply Hk'; unfold keys_ok; rewrite Hb0; split; assumption).
    unfold polygraph_inv. rewrite Hh', He', Ht', Hh0, He0, Ht0, He, Ht, Hh.
    refine (conj _ (conj _ (conj Hks (conj _ _)))); [lia|simpl; lia| |auto].
    intros Hc'. apply (calibrate_step_sets_stats now data (started now s)); [|exact Hc'].
    rewrite Hc0. reflexivity.
Qed.

(** Rule induction on [reachable]. *)
Lemma reachable_polygraph_inv T (s : polygraph F) : reachable T s -> polygraph_inv s.
Proof.
  induction 1 as [|now data s _ IH].
  - unfold polygraph_inv, keys_ok. cbn. repeat split; try lia; try discriminate.
    + constructor.
    + intros x [].
  - apply update_inv. exact IH.
Qed.

Lemma update_calibration_time now data (s : polygraph F) :
  calibration_time (fst (update now data s)) = calibration_time s.
Proof.
  rewrite update_run. destruct (started_fields now s) as (Ht & _).
  destruct (calibrated s).
  - destruct (score_step_frame (started now s) data (started now s) (score_frame_refl _)) as (H & _).
    congruence.
  - destruct (calibrate_step_frame (started now s) now data (started now s) (calib_frame_refl _))
      as (H & _). congruence.
Qed.

Lemma reachable_calibration_time T (s : polygraph F) : reachable T s -> calibration_time s = T.
Proof. induction 1; [reflexivity|]. rewrite update_calibration_time. assumption. Qed.

(** A calibration step that completes the calibration saw the window
    elapse (line 32). *)
Lemma calibrate_step_becomes_calibrated now data (s : polygraph F) :
  calibrated s = false -> calibrated (fst (calibrate_step now data s)) = true ->
  exists t, start_time s = Some t /\ float_ge_int (fl_sub now t) (calibration_time s) = true.
Proof.
  intros H0 H1. rewrite calibrate_step_run in H1.
  pose proof (preserves_for _ channels (append_sample data)
                (fun k _ => append_sample_calibrated false data k) s H0) as Hc.
  pose proof (preserves_for _ channels (append_sample data)
                (fun k _ => append_sample_frame s data k) s (calib_frame_refl s)) as (Hct & Hst & _).
  destruct (py_for channels (append_sample data) s) as [s1 [[]|e]]; cbn in Hc, Hct, Hst, H1;
    [|congruence].
  rewrite Hst, Hct in H1. destruct (start_time s) as [t|]; [|cbn in H1; congruence].
  exists t. split; [reflexivity|].
  destruct (float_ge_int _ _); [reflexivity|cbn in H1; congruence].
Qed.

(** C4: Every object [read_serial] can hold satisfies the invariant:
    [0 <= exceed_count <= total_count], at most 1000 readings in the history,
    the baseline keys are distinct channel names, a calibrated object has a
    start time and statistics for all three channels, and an object not yet
    calibrated has scored nothing and recorded no history. *)
Theorem reachable_inv T (s : polygraph F) : reachable T s -> polygraph_inv s.
Proof. exact (reachable_polygraph_inv T s). Qed.

End Invariant.

(** ** A text value recorded during calibration *)

Section Poisoned.
Context {F : Type} {PF : PyFloat F}.

(** The sample list of channel [k] holds a [str]. *)
Definition has_text_sample (k : string) (s : polygraph F) : Prop :=
  exists vals t, dict_lookup (baseline s) k = Some (BSamples vals) /\ In (RStr t) vals.

(** Not calibrated, and some channel either already holds statistics (a
    previous finalisation stopped part-way) or holds a text sample. *)
Definition poisoned (s : polygraph F) : Prop :=
  calibrated s = false /\
  exists k, In k channels /\ (has_stats k s \/ has_text_sample k s).

Lemma lookup_set_baseline_entry k e x (s : polygraph F) :
  dict_lookup (baseline (set_baseline_entry k e s)) x =
  if String.eqb k x then Some e else dict_lookup (baseline s) x.
Proof.
  cbn. destruct (String.eqb_spec k x) as [<-|Hne].
  - apply dict_lookup_set_eq.
  - apply dict_lookup_set_ne. exact Hne.
Qed.

(** [append_sample data k] leaves the entries of the other keys alone. *)
Lemma append_sample_other x data k (s : polygraph F) :
  k <> x ->
  dict_lookup (baseline (fst (append_sample data k s))) x = dict_lookup (baseline s) x.
Proof.
  intros Hkx. rewrite append_sample_run. cbv zeta.
  assert (Hx : forall (s0 : polygraph F) e,
             dict_lookup (baseline (set_baseline_entry k e s0)) x = dict_lookup (baseline s0) x).
  { intros s0 e. rewrite lookup_set_baseline_entry.
    destruct (String.eqb_spec k x); [contradiction|reflexivity]. }
  assert (H1 : dict_lookup (baseline (if dict_mem (baseline s) k then s
                                      else set_baseline_entry k (BSamples []) s)) x =
               dict_lookup (baseline s) x)
    by (destruct (dict_mem (baseline s) k); [|rewrite Hx]; reflexivity).
  destruct (dict_get _ k) as [[vs|a b]|e];
    [destruct (dict_get data k)| |]; cbn [fst]; try rewrite Hx; exact H1.
Qed.

Lemma raw_sum_from_text acc vals t :
  In (RStr t) vals -> exists e, raw_sum_from acc vals = Raise e.
Proof.
  revert acc. induction vals as [|v vals IH]; intros acc Hin; [destruct Hin|].
  destruct Hin as [->|Hin]; simpl; [eauto|].
  destruct (raw_num v); simpl; eauto.
Qed.

Lemma baseline_stats_text vals t :
  In (RStr t) vals -> exists e, baseline_stats (F := F) (BSamples vals) = Raise e.
Proof.
  intros Hin. unfold baseline_stats.
  destruct vals as [|v vs]; [destruct Hin|]. cbn [length Nat.eqb].
  destruct (raw_sum_from_text 0 (v :: vs) t Hin) as [e He].
  unfold raw_sum. rewrite He. exists e. reflexivity.
Qed.

Lemma append_sample_text x data k : preserves (has_text_sample x) (append_sample data k).
Proof.
  intros s (vals & t & Hl & Hin). unfold has_text_sample.
  destruct (String.eqb_spec k x) as [<-|Hne].
  - rewrite append_sample_run. cbv zeta. rewrite (dict_mem_some _ _ _ Hl), (dict_get_some _ _ _ Hl).
    destruct (dict_get data k) as [v|e]; cbn [fst]; [|eauto].
    rewrite lookup_set_baseline_entry, String.eqb_refl.
    exists (vals ++ [v])%list, t. split; [reflexivity|]. apply in_or_app. auto.
  - rewrite append_sample_other by exact Hne. eauto.
Qed.

Lemma finalize_entry_text x k : preserves (has_text_sample x) (finalize_entry k).
Proof.
  intros s (vals & t & Hl & Hin). unfold has_text_sample. rewrite finalize_entry_run.
  destruct (dict_get (baseline s) k) as [e|e] eqn:Hk; [|eauto].
  destruct (baseline_stats e) as [st|e'] eqn:Hs; cbn [fst]; [|eauto].
  rewrite lookup_set_baseline_entry. destruct (String.eqb_spec k x) as [<-|Hne]; [|eauto].
  unfold dict_get in Hk. rewrite Hl in Hk. inversion Hk; subst.
  destruct (baseline_stats_text vals t Hin) as [e' He']. congruence.
Qed.

Lemma append_sample_stats x data k : preserves (has_stats (F := F) x) (append_sample data k).
Proof.
  intros s (avg & sd & Hl). unfold has_stats.
  destruct (String.eqb_spec k x) as [<-|Hne].
  - rewrite append_sample_run. cbv zeta. rewrite (dict_mem_some _ _ _ Hl), (dict_get_some _ _ _ Hl). cbn [fst]. eauto.
  - rewrite append_sample_other by exact Hne. eauto.
Qed.

Lemma append_sample_blocked data k (s s' : polygraph F) :
  has_stats k s -> append_sample data k s <> (s', Ok tt).
Proof.
  intros (avg & sd & Hl). rewrite append_sample_run. cbv zeta.
  rewrite (dict_mem_some _ _ _ Hl), (dict_get_some _ _ _ Hl). discriminate.
Qed.

Lemma finalize_entry_blocked k (s s' : polygraph F) :
  has_text_sample k s -> finalize_entry k s <> (s', Ok tt).
Proof.
  intros (vals & t & Hl & Hin). rewrite finalize_entry_run.
  unfold dict_get. rewrite Hl.
  destruct (baseline_stats_text vals t Hin) as [e He]. rewrite He. discriminate.
Qed.

Lemma calibrate_step_no_score now data (s : polygraph F) p :
  snd (calibrate_step now data s) <> Ok (Some p).
Proof.
  rewrite calibrate_step_run.
  destruct (py_for channels (append_sample data) s) as [s1 [[]|e]]; [|discriminate].
  destruct (start_time s1); [|discriminate].
  destruct (float_ge_int _ _); [|discriminate].
  destruct (py_for _ finalize_entry s1) as [s2 [[]|e]]; discriminate.
Qed.

Lemma stats_text_exclusive k (s : polygraph F) : has_stats k s -> has_text_sample k s -> False.
Proof. intros (avg & sd & H1) (vals & t & H2 & _). congruence. Qed.

Lemma calibrate_step_stats x now data : preserves (has_stats (F := F) x) (calibrate_step now data).
Proof.
  unfold calibrate_step. solve_preserves; auto using append_sample_stats, finalize_entry_has_stats.
Qed.

Lemma calibrate_step_text x now data :
  preserves (has_text_sample x) (calibrate_step now data).
Proof.
  unfold calibrate_step. solve_preserves; auto using append_sample_text, finalize_entry_text.
Qed.

(** C11: A text value in a channel's calibration samples (a field such as
    [gsr:12.5], which [parse_line] keeps as a [str]), or a finalisation that
    stopped part-way, disables the object for good: every later [update],
    whatever its time and reading, leaves it uncalibrated and in the same
    condition, and never returns a score. *)
Theorem update_poisoned now data (s : polygraph F) :
  poisoned s ->
  poisoned (fst (update now data s)) /\ (forall p, snd (update now data s) <> Ok (Some p)).
Proof.
  intros [Hc (k & Hk & Hbad)]. rewrite update_run, Hc.
  destruct (started_fields now s) as (_ & Hc0 & Hb0 & _).
  set (s0 := started now s) in *. rewrite Hc in Hc0.
  assert (Hbad0 : has_stats k s0 \/ has_text_sample k s0)
    by (unfold has_stats, has_text_sample; rewrite Hb0; exact Hbad).
  split; [|intros p; apply calibrate_step_no_score].
  split.
  - destruct (calibrated (fst (calibrate_step now data s0))) eqn:Hc'; [exfalso|reflexivity].
    destruct Hbad0 as [Hst|Htx].
    + rewrite calibrate_step_run in Hc'.
      destruct (py_for channels (append_sample data) s0) as [s1 [[]|e]] eqn:E1.
      * exact (py_for_blocked (has_stats k) channels (append_sample data) k Hk
                 (fun y _ => append_sample_stats k data y)
                 (fun s2 s3 H => append_sample_blocked data k s2 s3 H) s0 s1 Hst E1).
      * pose proof (preserves_for _ channels (append_sample data)
                      (fun y _ => append_sample_calibrated false data y) s0 Hc0) as H1.
        rewrite E1 in H1. cbn in H1, Hc'. congruence.
    + destruct (calibrate_step_sets_stats now data s0 Hc0 Hc') as [_ Hall].
      exact (stats_text_exclusive k _ (Hall k Hk) (calibrate_step_text k now data s0 Htx)).
  - exists k. split; [exact Hk|].
    destruct Hbad0 as [Hst|Htx]; [left; apply calibrate_step_stats|right; apply calibrate_step_text];
      assumption.
Qed.

End Poisoned.

(** ** What finalisation sees *)

Section Finalisation.
Context {F : Type} {PF : PyFloat F}.

Definition nonempty_samples (k : string) (s : polygraph F) : Prop :=
  exists vals, dict_lookup (baseline s) k = Some (BSamples vals) /\ vals <> [].

Lemma append_sample_nonempty x data k : preserves (nonempty_samples x) (append_sample data k).
Proof.
  intros s (vals & Hl & Hvals). unfold nonempty_samples.
  destruct (String.eqb_spec k x) as [<-|Hne].
  - rewrite append_sample_run. cbv zeta. rewrite (dict_mem_some _ _ _ Hl), (dict_get_some _ _ _ Hl).
    destruct (dict_get data k) as [v|e]; cbn [fst]; [|eauto].
    rewrite lookup_set_baseline_entry, String.eqb_refl.
    exists (vals ++ [v])%list. split; [reflexivity|]. destruct vals; discriminate.
  - rewrite append_sample_other by exact Hne. eauto.
Qed.

Lemma append_sample_fills data k (s s' : polygraph F) :
  append_sample data k s = (s', Ok tt) -> nonempty_samples k s'.
Proof.
  rewrite append_sample_run. cbv zeta.
  destruct (dict_get _ k) as [[vals|avg sd]|e]; [|discriminate|discriminate].
  destruct (dict_get data k) as [v|e]; [|discriminate]. intros H. inversion H; subst.
  unfold nonempty_samples. rewrite lookup_set_baseline_entry, String.eqb_refl.
  exists (vals ++ [v])%list. split; [reflexivity|]. destruct vals; discriminate.
Qed.

Lemma append_sample_reads data k (s s' : polygraph F) :
  append_sample data k s = (s', Ok tt) -> exists v, dict_lookup data k = Some v.
Proof.
  rewrite append_sample_run. cbv zeta.
  destruct (dict_get _ k) as [[vals|avg sd]|e]; [|discriminate|discriminate].
  unfold dict_get at 1. destruct (dict_lookup data k) as [v|]; [eauto|discriminate].
Qed.

Lemma append_loop_keys_ok data (s : polygraph F) :
  keys_ok s -> keys_ok (fst (py_for channels (append_sample data) s)).
Proof. apply preserves_for. intros k Hk. apply append_sample_keys_ok. exact Hk. Qed.

(** What the append loop leaves for finalisation: a non-empty sample
    list under every key. *)
Lemma append_loop_nonempty data (s s1 : polygraph F) :
  keys_ok s ->
  py_for channels (append_sample data) s = (s1, Ok tt) ->
  forall k, In k (dict_keys (baseline s1)) -> nonempty_samples k s1.
Proof.
  intros Hk Hrun k Hin.
  pose proof (append_loop_keys_ok data s Hk) as [_ Hincl]. rewrite Hrun in Hincl.
  refine (py_for_ok_each nonempty_samples channels (append_sample data) _ _ s s1 Hrun k
            (Hincl k Hin)).
  - intros x s0 s2 _. apply append_sample_fills.
  - intros x y _ _. apply append_sample_nonempty.
Qed.

(** C9: The fallback [vals = [0]] for an empty sample list (lines 35-36) is
    dead code: when the append loop of a calibrating [update] completes,
    every list in [self.baseline] is non-empty, and finalisation runs only
    after that loop completed. *)
Theorem append_loop_fills_every_key data (s s1 : polygraph F) :
  keys_ok s ->
  py_for channels (append_sample data) s = (s1, Ok tt) ->
  forall k, In k (dict_keys (baseline s1)) ->
  exists vals, dict_lookup (baseline s1) k = Some (BSamples vals) /\ vals <> [].
Proof. exact (append_loop_nonempty data s s1). Qed.

(** C10: Calibration ends only on a reading that carries all three
    channels: if [update] turns an uncalibrated object into a calibrated
    one, [data] has a value for [ekg], [gsr] and [sound].  A channel that
    never received a sample cannot end up with the zero baseline the spec
    describes. *)
Theorem calibration_needs_every_channel now data (s : polygraph F) :
  calibrated s = false -> calibrated (fst (update now data s)) = true ->
  forall k, In k channels -> exists v, dict_lookup data k = Some v.
Proof.
  intros Hc. rewrite update_run, Hc, calibrate_step_run.
  destruct (py_for channels (append_sample data) (started now s)) as [s1 [[]|e]] eqn:E1.
  - intros _. refine (py_for_ok_each (fun k (_ : polygraph F) => exists v, dict_lookup data k = Some v)
                        channels (append_sample data) _ _ _ s1 E1).
    + intros x s0 s2 _. apply append_sample_reads.
    + intros x y _ _ s0 H. exact H.
  - pose proof (preserves_for _ channels (append_sample data)
                  (fun y _ => append_sample_calibrated false data y) (started now s)) as H1.
    rewrite E1 in H1. cbn in H1. rewrite started_calibrated in H1. cbn. intros H. 
    rewrite H1 in H; [discriminate|exact Hc].
Qed.

End Finalisation.

(** ** The reading history *)

Section History.
Context {F : Type} {PF : PyFloat F}.

(** Line 44 runs before anything in the scoring branch can raise. *)
Lemma score_step_history data (s : polygraph F) :
  data_history (fst (score_step data s)) = deque_append history_maxlen (data_history s) data /\
  calibrated (fst (score_step data s)) = calibrated s.
Proof.
  unfold score_step, bind, modify, get, lift.
  destruct (count_exceed_from _ _ _ _); [|split; reflexivity].
  destruct (maybe_lying_prob _ _); split; reflexivity.
Qed.

(** C28: [self.data_history] of a calibrated object holds the last 1000
    readings given to [update], oldest first, whatever [update] did with
    them: a reading on which scoring raised (a missing channel) is kept
    too, since line 44 runs before the comparisons. *)
Theorem history_keeps_last_readings (s : polygraph F) (reqs : list (F * dict rawval)) :
  calibrated s = true -> length (data_history s) <= history_maxlen ->
  data_history (fold_left (fun p r => fst (update (fst r) (snd r) p)) reqs s) =
  lastn history_maxlen (data_history s ++ map snd reqs).
Proof.
  revert s. induction reqs as [|[now data] reqs IH]; intros s Hc Hl.
  - rewrite app_nil_r, lastn_short by exact Hl. reflexivity.
  - cbn [fold_left map fst snd]. rewrite update_run, Hc.
    destruct (started_fields now s) as (_ & Hc0 & _ & Hh0 & _).
    destruct (score_step_history data (started now s)) as [Hh Hc1].
    rewrite IH; [|congruence|rewrite Hh; apply deque_append_length; [unfold history_maxlen; lia|congruence]].
    rewrite Hh, Hh0, deque_append_lastn, lastn_lastn_app, <- app_assoc by first [unfold history_maxlen; lia|exact Hl].
    reflexivity.
Qed.

End History.

(** ** Concrete runs, in binary64 *)

Section Witnesses.

(** [ekg:e|gsr:g|sound:s] as [parse_line] returns it. *)
Definition sample_reading (e g s : Z) : dict rawval :=
  [("ekg", RInt e); ("gsr", RInt g); ("sound", RInt s)].

Definition at_time (t : Z) : b64 := fl_of_Z t.

(** A fresh object after its first reading, at time 0. *)
Definition obj_calibrating : polygraph b64 :=
  fst (update (at_time 0) (sample_reading 100 100 100) (init 15)).

(** The same object after a second reading at time 15: calibrated, with
    baseline mean 100 on every channel. *)
Definition obj_calibrated : polygraph b64 :=
  fst (update (at_time 15) (sample_reading 100 100 100) obj_calibrating).

(** The object after a second reading at time 15 whose [gsr] is text. *)
Definition obj_poisoned : polygraph b64 :=
  fst (update (at_time 15) [("ekg", RInt 100); ("gsr", RStr "abc"); ("sound", RInt 100)]
         obj_calibrating).

Lemma update_keeps_calibration_witness :
  calibrated obj_calibrated = true /\
  (let s' := fst (update (at_time 20) [("ekg", RInt 1)] obj_calibrated) in
   calibrated s' = true /\ baseline s' = baseline obj_calibrated /\
   calibration_time s' = calibration_time obj_calibrated).
Proof.
  split; [vm_compute; reflexivity|].
  apply update_keeps_calibration. vm_compute. reflexivity.
Defined.

Lemma update_scoring_witness :
  calibrated obj_calibrated = true /\
  count_exceed_from obj_calibrated (sample_reading 121 100 100) 0%Z channels = Ok 1%Z /\
  exists s' p,
    update (at_time 16) (sample_reading 121 100 100) obj_calibrated = (s', Ok (Some p)) /\
    maybe_lying_prob (exceed_count s') (total_count s') = Ok p /\
    total_count s' = (total_count obj_calibrated + 1)%Z /\
    exceed_count s' = (exceed_count obj_calibrated + (if Z.ltb 0 1 then 1 else 0))%Z /\
    data_history s' =
      deque_append history_maxlen (data_history obj_calibrated) (sample_reading 121 100 100) /\
    baseline s' = baseline obj_calibrated.
Proof.
  split; [vm_compute; reflexivity|]. split; [vm_compute; reflexivity|].
  apply update_scoring; vm_compute; first [reflexivity|discriminate].
Defined.

Lemma update_exceed_iff_witness :
  count_exceed_from obj_calibrated (sample_reading 100 100 131) 0%Z channels = Ok 1%Z /\
  (let s' := fst (update (at_time 16) (sample_reading 100 100 131) obj_calibrated) in
   (exceed_count s' = (exceed_count obj_calibrated + 1)%Z <->
    exists k, In k channels /\ channel_exceeds obj_calibrated (sample_reading 100 100 131) k = Ok true) /\
   (exceed_count s' = exceed_count obj_calibrated \/
    exceed_count s' = (exceed_count obj_calibrated + 1)%Z)).
Proof.
  split; [vm_compute; reflexivity|].
  apply (update_exceed_iff _ _ _ 1%Z); vm_compute; first [reflexivity|discriminate].
Defined.

Lemma update_missing_channel_witness :
  calibrated obj_calibrated = true /\
  dict_lookup [("ekg", RInt 100); ("sound", RInt 100)] "gsr" = None /\
  (let (s', r) := update (at_time 16) [("ekg", RInt 100); ("sound", RInt 100)] obj_calibrated in
   (exists e, r = Raise e) /\
   total_count s' = total_count obj_calibrated /\ exceed_count s' = exceed_count obj_calibrated /\
   data_history s' = deque_append history_maxlen (data_history obj_calibrated)
                       [("ekg", RInt 100); ("sound", RInt 100)]).
Proof.
  split; [vm_compute; reflexivity|]. split; [vm_compute; reflexivity|].
  apply (update_missing_channel _ _ _ "gsr"); [vm_compute; reflexivity|simpl; auto|vm_compute; reflexivity].
Defined.

Lemma reachable_inv_witness : reachable 15 obj_calibrated /\ polygraph_inv obj_calibrated.
Proof.
  assert (H : reachable 15 obj_calibrated)
    by (apply reachable_step, reachable_step, reachable_init).
  split; [exact H|]. apply (reachable_inv 15). exact H.
Defined.

Lemma append_loop_fills_every_key_witness :
  keys_ok (init (F := b64) 15) /\
  py_for channels (append_sample (sample_reading 1 2 3)) (init (F := b64) 15) =
    (fst (py_for channels (append_sample (sample_reading 1 2 3)) (init (F := b64) 15)), Ok tt) /\
  exists vals,
    dict_lookup (baseline (fst (py_for channels (append_sample (sample_reading 1 2 3))
                                  (init (F := b64) 15)))) "gsr" = Some (BSamples vals) /\
    vals <> [].
Proof.
  assert (Hk : keys_ok (init (F := b64) 15))
    by (split; [constructor|intros x []]).
  assert (Hr : py_for channels (append_sample (sample_reading 1 2 3)) (init (F := b64) 15) =
    (fst (py_for channels (append_sample (sample_reading 1 2 3)) (init (F := b64) 15)), Ok tt))
    by (vm_compute; reflexivity).
  split; [exact Hk|]. split; [exact Hr|].
  apply (append_loop_fills_every_key _ _ _ Hk Hr). vm_compute. auto.
Defined.

Lemma calibration_needs_every_channel_witness :
  calibrated obj_calibrating = false /\
  calibrated (fst (update (at_time 15) (sample_reading 100 100 100) obj_calibrating)) = true /\
  exists v, dict_lookup (sample_reading 100 100 100) "sound" = Some v.
Proof.
  split; [vm_compute; reflexivity|]. split; [vm_compute; reflexivity|].
  apply (calibration_needs_every_channel (at_time 15) _ obj_calibrating);
    [vm_compute; reflexivity|vm_compute; reflexivity|simpl; auto].
Defined.

Lemma update_poisoned_witness :
  poisoned obj_poisoned /\
  poisoned (fst (update (at_time 30) (sample_reading 100 100 100) obj_poisoned)) /\
  (forall p, snd (update (at_time 30) (sample_reading 100 100 100) obj_poisoned) <> Ok (Some p)).
Proof.
  assert (H : poisoned obj_poisoned).
  { split; [vm_compute; reflexivity|]. exists "ekg". split; [simpl; auto|].
    left. vm_compute. eauto. }
  split; [exact H|]. apply update_poisoned. exact H.
Defined.

Lemma history_keeps_last_readings_witness :
  (calibrated obj_calibrated = true /\ length (data_history obj_calibrated) <= history_maxlen) /\
  data_history (fold_left (fun p r => fst (update (fst r) (snd r) p))
                  [(at_time 20, sample_reading 130 100 100); (at_time 21, [("ekg", RInt 1)])] obj_calibrated) =
  lastn history_maxlen (data_history obj_calibrated ++
                        map snd [(at_time 20, sample_reading 130 100 100); (at_time 21, [("ekg", RInt 1)])]).
Proof.
  assert (H1 : calibrated obj_calibrated = true) by (vm_compute; reflexivity).
  assert (H2 : length (data_history obj_calibrated) <= history_maxlen) by (vm_compute; lia).
  split; [split; assumption|]. exact (history_keeps_last_readings _ _ H1 H2).
Defined.

End Witnesses.
