(* ===== verification/PolygraphExact.v ===== *)
(** * The [Polygraph] numbers, in exact arithmetic

    [update] instantiated with exact rationals ([PyFloat_Qc]): the score
    stays between 0 and 100 on every reachable object, the baseline is the
    exact mean and population standard deviation of the samples (the
    spec's constant-stream example included), and the scoring branch
    refines an abstract scorer written from §4.3 of the spec:
    [spec_exceeds] (value above mean times the channel multiplier, OR over
    the channels) and [spec_score_step] (two counters, the score
    [exceed / total * 100]); and every [update] of a reachable object
    follows a transition of the spec's phase machine ([spec_transition]). *)

From Stdlib Require Import ZArith QArith Qcanon String List Lia Morphisms.
From S2P Require Import Prelude PyFloat PyDict Polygraph PolygraphProps.
Import ListNotations.
Local Open Scope Q_scope.

(** ** Rationals behind the [Qc] instance *)

Lemma this_Q2Qc (q : Q) : this (Q2Qc q) == q.
Proof. apply Qred_correct. Qed.

Lemma Qc_score_value (e t : Z) :
  this (fl_mul (fl_truediv_Z e t) (fl_of_Z 100) : Qc) == inject_Z e / inject_Z t * 100.
Proof.
  cbn [fl_mul fl_truediv_Z fl_of_Z PyFloat_Qc]. unfold Qcmult.
  rewrite !this_Q2Qc. reflexivity.
Qed.

Lemma ratio_bounds (e t : Z) :
  (0 <= e <= t)%Z -> (0 < t)%Z -> 0 <= inject_Z e / inject_Z t <= 1.
Proof.
  intros [H0 H1] Ht. rewrite Zlt_Qlt in Ht. split.
  - apply Qle_shift_div_l; [exact Ht|]. rewrite Qmult_0_l. change 0 with (inject_Z 0).
    rewrite <- Zle_Qle. exact H0.
  - apply Qle_shift_div_r; [exact Ht|]. rewrite Qmult_1_l. rewrite <- Zle_Qle. exact H1.
Qed.

Lemma percent_bounds (q : Q) : 0 <= q <= 1 -> 0 <= q * 100 <= 100.
Proof.
  intros [H0 H1]. split.
  - apply (Qmult_le_compat_r 0 q 100) in H0; [|discriminate]. rewrite Qmult_0_l in H0. exact H0.
  - apply (Qmult_le_compat_r q 1 100) in H1; [|discriminate]. rewrite Qmult_1_l in H1. exact H1.
Qed.

Lemma Qc_score_bounds (e t : Z) :
  (0 <= e <= t)%Z -> (0 < t)%Z ->
  0 <= this (fl_mul (fl_truediv_Z e t) (fl_of_Z 100) : Qc) <= 100.
Proof.
  intros He Ht. rewrite Qc_score_value. apply percent_bounds, ratio_bounds; assumption.
Qed.

(** ** The score *)

Lemma update_score_bounds now data (s : polygraph Qc) p :
  polygraph_inv s -> snd (update now data s) = Ok (Some p) -> 0 <= this p <= 100.
Proof.
  intros Hi Hu. destruct Hi as (Hcnt & _ & _ & _ & _).
  destruct (calibrated s) eqn:Hc.
  - rewrite update_scoring_run in Hu by (auto; lia).
    destruct (count_exceed_from s data 0%Z channels) as [ex|e]; [|discriminate].
    cbn [snd] in Hu. injection Hu as <-.
    destruct (started_fields now s) as (_ & _ & _ & _ & He & Ht & _).
    apply Qc_score_bounds; cbn; rewrite ?He, ?Ht;
      destruct (Z.ltb_spec 0 ex); lia.
  - rewrite update_run, Hc in Hu. exfalso. exact (calibrate_step_no_score _ _ _ _ Hu).
Qed.

(** C5: Every score [update] returns on a reachable object lies in
    [0, 100]. *)
Theorem score_in_range T now data (s : polygraph Qc) p :
  reachable T s -> snd (update now data s) = Ok (Some p) -> 0 <= this p <= 100.
Proof.
  intros Hr. apply update_score_bounds. exact (reachable_polygraph_inv T s Hr).
Qed.

(** ** The baseline statistics *)

(** The mean and population variance of a list of integers, as the spec
    states them (§4.2). *)
Fixpoint zsum (zs : list Z) : Z :=
  match zs with
  | [] => 0%Z
  | z :: zs' => (z + zsum zs')%Z
  end.

Definition mean_Q (zs : list Z) : Q := inject_Z (zsum zs) / inject_Z (Z.of_nat (length zs)).

Fixpoint sq_dev_Q (m : Q) (zs : list Z) : Q :=
  match zs with
  | [] => 0
  | z :: zs' => (inject_Z z - m) * (inject_Z z - m) + sq_dev_Q m zs'
  end.

#[export] Instance sq_dev_Q_proper : Proper (Qeq ==> eq ==> Qeq) sq_dev_Q.
Proof.
  intros m m' Hm zs _ <-. induction zs as [|z zs IH]; cbn [sq_dev_Q]; [reflexivity|].
  rewrite IH, Hm. reflexivity.
Qed.

Definition var_Q (zs : list Z) : Q := sq_dev_Q (mean_Q zs) zs / inject_Z (Z.of_nat (length zs)).

Lemma raw_sum_from_ints acc zs : raw_sum_from acc (map RInt zs) = Ok (acc + zsum zs)%Z.
Proof.
  revert acc. induction zs as [|z zs IH]; intros acc; simpl.
  - rewrite Z.add_0_r. reflexivity.
  - rewrite IH. f_equal. lia.
Qed.

Lemma sq_dev_sum_ints (acc avg : Qc) zs :
  exists r, sq_dev_sum_from acc avg (map RInt zs) = Ok r /\
            this r == this acc + sq_dev_Q (this avg) zs.
Proof.
  revert acc. induction zs as [|z zs IH]; intros acc; simpl.
  - exists acc. split; [reflexivity|]. ring.
  - destruct (IH (fl_add acc (fl_mul (fl_sub (fl_of_Z z) avg) (fl_sub (fl_of_Z z) avg))))
      as (r & Hr & Hv).
    exists r. split; [exact Hr|]. rewrite Hv.
    cbn [fl_add fl_mul fl_sub fl_of_Z PyFloat_Qc]. unfold Qcplus, Qcmult, Qcminus, Qcopp, Qcplus.
    rewrite !this_Q2Qc. ring.
Qed.

Lemma py_truediv_Qc (a n : Z) :
  n <> 0%Z -> py_truediv a n = Ok (Q2Qc (inject_Z a / inject_Z n)).
Proof. intros H. unfold py_truediv. destruct (Z.eqb_spec n 0); [contradiction|reflexivity]. Qed.

Lemma py_fdiv_int_Qc (x : Qc) (n : Z) :
  n <> 0%Z -> exists r, py_fdiv_int x n = Ok r /\ this r == this x / inject_Z n.
Proof.
  intros H. unfold py_fdiv_int. destruct (Z.eqb_spec n 0); [contradiction|].
  eexists. split; [reflexivity|]. cbn [fl_div fl_of_Z PyFloat_Qc]. unfold Qcdiv, Qcmult, Qcinv.
  rewrite !this_Q2Qc. reflexivity.
Qed.

(** Lines 34-38 on a non-empty list of int samples. *)
Lemma baseline_stats_ints (zs : list Z) :
  zs <> [] ->
  exists var,
    baseline_stats (F := Qc) (BSamples (map RInt zs)) = Ok (Q2Qc (mean_Q zs), fl_sqrt var) /\
    this var == var_Q zs.
Proof.
  intros Hne. unfold baseline_stats.
  assert (Hlen : Nat.eqb (length (map RInt zs)) 0 = false)
    by (destruct zs; [contradiction|reflexivity]).
  rewrite Hlen. cbv zeta. rewrite length_map.
  assert (Hn : Z.of_nat (length zs) <> 0%Z) by (destruct zs; [contradiction|simpl; lia]).
  unfold raw_sum. rewrite raw_sum_from_ints, Z.add_0_l. cbn [rbind].
  rewrite (py_truediv_Qc _ _ Hn). cbn [rbind].
  destruct (sq_dev_sum_ints (fl_of_Z 0) (Q2Qc (mean_Q zs)) zs) as (sq & Hsq & Hsqv).
  unfold mean_Q in Hsq. rewrite Hsq. cbn [rbind].
  destruct (py_fdiv_int_Qc sq _ Hn) as (var & Hvar & Hvarv). rewrite Hvar. cbn [rbind].
  exists var. split; [reflexivity|].
  rewrite Hvarv, Hsqv. unfold var_Q. cbn [fl_of_Z PyFloat_Qc].
  rewrite !this_Q2Qc. rewrite Qplus_0_l. reflexivity.
Qed.

(** C8: Baseline estimation is exact: for a non-empty list of integer
    samples, lines 34-38 compute the arithmetic mean and the population
    variance of the samples (the standard deviation is [** 0.5] of the
    latter); the empty-list fallback plays no part. *)
Theorem baseline_stats_exact (zs : list Z) :
  zs <> [] ->
  exists avg var,
    baseline_stats (F := Qc) (BSamples (map RInt zs)) = Ok (avg, fl_sqrt var) /\
    this avg == mean_Q zs /\ this var == var_Q zs.
Proof.
  intros Hne. destruct (baseline_stats_ints zs Hne) as (var & Hrun & Hvar).
  exists (Q2Qc (mean_Q zs)), var. split; [exact Hrun|]. split; [apply this_Q2Qc|exact Hvar].
Qed.

Lemma zsum_repeat (c : Z) (n : nat) : zsum (repeat c n) = (c * Z.of_nat n)%Z.
Proof. induction n as [|n IH]; simpl repeat; cbn [zsum]; [lia|rewrite IH; lia]. Qed.

Lemma mean_Q_repeat (c : Z) (n : nat) : (0 < n)%nat -> mean_Q (repeat c n) == inject_Z c.
Proof.
  intros Hn. unfold mean_Q. rewrite repeat_length, zsum_repeat, inject_Z_mult.
  field. change 0 with (inject_Z 0). rewrite inject_Z_injective. lia.
Qed.

Lemma sq_dev_Q_repeat (m : Q) (c : Z) (n : nat) : m == inject_Z c -> sq_dev_Q m (repeat c n) == 0.
Proof.
  intros Hm. induction n as [|n IH]; cbn [repeat sq_dev_Q]; [reflexivity|].
  rewrite IH, Hm. ring.
Qed.

(** ** The scorer against its specification *)

(** Spec §4.3: the per-channel multipliers, a reading exceeds when one of
    its channels is above [mean * multiplier], and two counters give the
    score [exceed / total * 100]. *)
Definition spec_threshold (k : string) : Q :=
  if String.eqb k "sound" then 13 # 10 else 6 # 5.

Definition spec_exceeds (mean : string -> Q) (value : string -> Z) : bool :=
  existsb (fun k => Qltb (mean k * spec_threshold k) (inject_Z (value k))) channels.

Record scorer := mkScorer { sc_exceed : Z; sc_total : Z }.

Definition spec_score_step (mean : string -> Q) (value : string -> Z) (st : scorer) :
    scorer * Q :=
  let st' := mkScorer (sc_exceed st + if spec_exceeds mean value then 1 else 0)
                      (sc_total st + 1) in
  (st', inject_Z (sc_exceed st') / inject_Z (sc_total st') * 100).

Lemma Qltb_compat (a a' b : Q) : a == a' -> Qltb a b = Qltb a' b.
Proof.
  intros H. unfold Qltb. f_equal.
  destruct (Qle_bool b a) eqn:E1, (Qle_bool b a') eqn:E2; try reflexivity.
  - apply Qle_bool_iff in E1. rewrite H in E1. apply Qle_bool_iff in E1. congruence.
  - apply Qle_bool_iff in E2. rewrite <- H in E2. apply Qle_bool_iff in E2. congruence.
Qed.

Lemma thresholds_Qc (k : string) :
  In k channels ->
  exists thr : Qc, dict_get thresholds k = Ok thr /\ this thr == spec_threshold k.
Proof.
  intros Hk. destruct Hk as [<-|[<-|[<-|[]]]]; eexists; (split; [reflexivity|]);
    vm_compute; reflexivity.
Qed.

Lemma channel_exceeds_Qc (s : polygraph Qc) data k (m sd : Qc) (v : Z) :
  In k channels ->
  dict_lookup data k = Some (RInt v) ->
  dict_lookup (baseline s) k = Some (BStats m sd) ->
  channel_exceeds s data k = Ok (Qltb (this m * spec_threshold k) (inject_Z v)).
Proof.
  intros Hk Hv Hm. destruct (thresholds_Qc k Hk) as (thr & Hthr & Hthrv).
  unfold channel_exceeds. rewrite (dict_get_some _ _ _ Hv), (dict_get_some _ _ _ Hm).
  cbn [rbind]. rewrite Hthr. cbn [rbind raw_gt_float raw_num].
  unfold float_lt_int. cbn [fl_value fl_mul PyFloat_Qc]. f_equal.
  apply Qltb_compat. unfold Qcmult. rewrite this_Q2Qc, Hthrv. reflexivity.
Qed.

(** The exceed count of a reading whose comparisons all succeed. *)
Lemma count_exceed_existsb (s : polygraph Qc) data (f : string -> bool) e0 ks :
  (forall k, In k ks -> channel_exceeds s data k = Ok (f k)) ->
  exists ex, count_exceed_from s data e0 ks = Ok ex /\ (e0 <= ex)%Z /\
             Z.ltb e0 ex = existsb f ks.
Proof.
  revert e0. induction ks as [|k ks IH]; intros e0 Hks; cbn [count_exceed_from existsb].
  - exists e0. split; [reflexivity|]. split; [lia|apply Z.ltb_irrefl].
  - rewrite (Hks k (or_introl eq_refl)). cbn [rbind].
    destruct (IH (if f k then e0 + 1 else e0)%Z (fun k' H => Hks k' (or_intror H)))
      as (ex & Hex & Hle & Hlt).
    exists ex. split; [exact Hex|]. destruct (f k); cbn [orb].
    + split; [lia|]. apply Z.ltb_lt. lia.
    + split; [lia|exact Hlt].
Qed.

(** C2: Refinement: on a calibrated object whose baseline has means
    [mean k] and a reading with int values [value k] on the three
    channels, [update] behaves as the abstract scorer: the same exceed
    decision, the same counters, and the score
    [exceed / total * 100] (exactly, in rational arithmetic). *)
Theorem update_refines_spec now data (s : polygraph Qc) (mean : string -> Qc) (value : string -> Z) :
  calibrated s = true -> (0 <= total_count s)%Z ->
  (forall k, In k channels -> exists sd, dict_lookup (baseline s) k = Some (BStats (mean k) sd)) ->
  (forall k, In k channels -> dict_lookup data k = Some (RInt (value k))) ->
  let (st', score) := spec_score_step (fun k => this (mean k)) value
                        (mkScorer (exceed_count s) (total_count s)) in
  exists s' p, update now data s = (s', Ok (Some p)) /\
    exceed_count s' = sc_exceed st' /\ total_count s' = sc_total st' /\ this p == score.
Proof.
  intros Hc Ht Hmean Hval.
  destruct (count_exceed_existsb s data
              (fun k => Qltb (this (mean k) * spec_threshold k) (inject_Z (value k))) 0%Z channels)
    as (ex & Hex & Hle & Hlt).
  { intros k Hk. destruct (Hmean k Hk) as [sd Hsd].
    exact (channel_exceeds_Qc s data k (mean k) sd (value k) Hk (Hval k Hk) Hsd). }
  rewrite update_scoring_run by assumption. rewrite Hex.
  destruct (started_fields now s) as (_ & _ & _ & _ & He & Ht0 & _).
  unfold spec_score_step, spec_exceeds. rewrite <- Hlt.
  do 2 eexists. split; [reflexivity|]. cbn -[fl_mul fl_truediv_Z fl_of_Z].
  rewrite He, Ht0. split; [reflexivity|]. split; [reflexivity|]. apply Qc_score_value.
Qed.

(** ** The calibration state machine against its specification *)

(** The transitions of spec 4.3: the first reading starts the
    calibration, the calibration ends once, and scoring is terminal. *)
Inductive spec_transition : phase_t -> phase_t -> Prop :=
| tr_first_reading : spec_transition WARMING_UP CALIBRATING
| tr_accumulate : spec_transition CALIBRATING CALIBRATING
| tr_finalize : spec_transition CALIBRATING SCORING
| tr_score : spec_transition SCORING SCORING.

(** In exact arithmetic no time elapses between a time and itself. *)
Lemma elapsed_zero (now : Qc) (T : Z) : (0 < T)%Z -> float_ge_int (fl_sub now now) T = false.
Proof.
  intros HT. unfold float_ge_int. cbn [fl_value fl_sub PyFloat_Qc].
  destruct (Qle_bool (inject_Z T) (this (now - now)%Qc)) eqn:E; [|reflexivity].
  apply Qle_bool_iff in E. unfold Qcminus in E. rewrite Qcplus_opp_r in E. cbn in E.
  unfold Qle in E. cbn in E. lia.
Qed.

(** C26: With a calibration window of positive length, every [update] of
    a reachable object moves the phase along a transition of the spec's
    state machine, exceptions included: the first reading never completes
    the calibration, and no reading leaves SCORING or returns to
    WARMING_UP. *)
Theorem update_phase_transition T now data (s : polygraph Qc) :
  reachable T s -> (0 < T)%Z -> spec_transition (phase s) (phase (fst (update now data s))).
Proof.
  intros Hr HT. pose proof (reachable_calibration_time T s Hr) as Hct.
  destruct (reachable_polygraph_inv T s Hr) as (_ & _ & _ & Hcal & _).
  pose proof (update_start_time now data s) as Hst. unfold phase.
  rewrite Hst. rewrite update_run in *.
  destruct (calibrated s) eqn:Hc.
  - destruct (score_step_frame (started now s) data (started now s) (score_frame_refl _))
      as (_ & _ & -> & _).
    rewrite started_calibrated, Hc. constructor.
  - destruct (calibrated (fst (calibrate_step now data (started now s)))) eqn:Hc'.
    + destruct (calibrate_step_becomes_calibrated now data (started now s)) as (t & Ht & Hge);
        [rewrite started_calibrated; exact Hc|exact Hc'|].
      destruct (start_time s) as [t0|] eqn:E; [constructor|].
      unfold started in Ht, Hge. rewrite E in Ht, Hge.
      cbn [start_time calibration_time set_start_time] in Ht, Hge. injection Ht as <-.
      rewrite Hct, elapsed_zero in Hge by exact HT. discriminate.
    + destruct (start_time s); constructor.
Qed.

(** ** Concrete runs, in exact arithmetic *)

Section ExactWitnesses.

(** [Polygraph(15)] after two readings of 100 on every channel, at times
    0 and 15: calibrated. *)
Definition qobj_calibrated : polygraph Qc :=
  fst (update (fl_of_Z 15) (sample_reading 100 100 100)
         (fst (update (fl_of_Z 0) (sample_reading 100 100 100) (init 15)))).

Definition qobj_mean (k : string) : Qc :=
  match dict_lookup (baseline qobj_calibrated) k with
  | Some (BStats m _) => m
  | _ => fl_of_Z 0
  end.

Definition qobj_sd (k : string) : Qc :=
  match dict_lookup (baseline qobj_calibrated) k with
  | Some (BStats _ sd) => sd
  | _ => fl_of_Z 0
  end.

Definition reading_121 (k : string) : Z := if String.eqb k "ekg" then 121%Z else 100%Z.

Lemma score_in_range_witness :
  reachable 15 qobj_calibrated /\
  exists p, snd (update (fl_of_Z 16) (sample_reading 121 100 100) qobj_calibrated) = Ok (Some p) /\
            0 <= this p <= 100.
Proof.
  assert (H : reachable 15 qobj_calibrated)
    by (apply reachable_step, reachable_step, reachable_init).
  split; [exact H|]. eexists. split; [reflexivity|].
  apply (score_in_range 15 (fl_of_Z 16) (sample_reading 121 100 100) qobj_calibrated);
    [exact H|reflexivity].
Defined.

Lemma baseline_stats_exact_witness :
  [98; 100; 105]%Z <> [] /\
  exists avg var,
    baseline_stats (F := Qc) (BSamples (map RInt [98; 100; 105]%Z)) = Ok (avg, fl_sqrt var) /\
    this avg == mean_Q [98; 100; 105]%Z /\ this var == var_Q [98; 100; 105]%Z.
Proof.
  split; [discriminate|]. apply baseline_stats_exact. discriminate.
Defined.

Lemma update_refines_spec_witness :
  calibrated qobj_calibrated = true /\
  let (st', score) := spec_score_step (fun k => this (qobj_mean k)) reading_121
                        (mkScorer (exceed_count qobj_calibrated) (total_count qobj_calibrated)) in
  exists s' p, update (fl_of_Z 16) (sample_reading 121 100 100) qobj_calibrated = (s', Ok (Some p)) /\
    exceed_count s' = sc_exceed st' /\ total_count s' = sc_total st' /\ this p == score.
Proof.
  assert (Hc : calibrated qobj_calibrated = true) by (vm_compute; reflexivity).
  split; [exact Hc|].
  apply update_refines_spec; [exact Hc|vm_compute; discriminate| |].
  - intros k Hk. exists (qobj_sd k). destruct Hk as [<-|[<-|[<-|[]]]]; vm_compute; reflexivity.
  - intros k Hk. destruct Hk as [<-|[<-|[<-|[]]]]; reflexivity.
Defined.

Lemma update_phase_transition_witness :
  reachable 15 (init (F := Qc) 15) /\ (0 < 15)%Z /\
  spec_transition (phase (init (F := Qc) 15))
    (phase (fst (update (F := Qc) (fl_of_Z 0) (sample_reading 100 100 100) (init 15)))).
Proof.
  split; [apply reachable_init|split; [lia|]].
  apply (update_phase_transition 15); [apply reachable_init|lia].
Defined.

End ExactWitnesses.
