(* ===== verification/PolygraphLive.v ===== *)
(** * Calibration completes

    [update_poisoned] shows what keeps an object from ever calibrating: a
    text sample, or a finalisation that stopped part-way.  This file shows
    that nothing else does.  An uncalibrated object whose sample lists hold
    numbers only ([healthy]) calibrates on the first reading with a number
    for [ekg], [gsr] and [sound] ([reading_numeric]) that arrives once the
    window has elapsed: the append loop (lines 27-30) runs to completion,
    every list is then non-empty, the finalisation loop (lines 33-39)
    averages each one without raising, and line 40 sets [calibrated].

    The loops are run with [py_for_nodup_ok]: the keys of [self.baseline]
    are distinct, so finalising one key leaves the lists of the keys still
    to come untouched. *)

From Stdlib Require Import ZArith String List Bool Lia.
From S2P Require Import Prelude PyFloat PyDict Polygraph PolygraphProps.
Import ListNotations.
Local Open Scope string_scope.

Section Liveness.
Context {F : Type} {PF : PyFloat F}.

(** A value [sum] and [v - avg] accept: an [int] or a [bool]. *)
Definition numeric (v : rawval) : bool :=
  match v with
  | RStr _ => false
  | RInt _ | RBool _ => true
  end.

(** An entry finalisation can average: a list of numbers. *)
Definition samples_numeric (e : bentry F) : bool :=
  match e with
  | BSamples vals => forallb numeric vals
  | BStats _ _ => false
  end.

(** Every entry of [self.baseline] is a list of numbers. *)
Definition healthy (s : polygraph F) : bool :=
  forallb (fun kv => samples_numeric (snd kv)) (baseline s).

(** [data[k]] is a number for each of the three channels. *)
Definition reading_numeric (data : dict rawval) : bool :=
  forallb (fun k => match dict_lookup data k with Some v => numeric v | None => false end) channels.

(** ** Arithmetic on numbers does not raise *)

Lemma numeric_raw_num v : numeric v = true -> exists z, raw_num v = Ok z.
Proof. destruct v; cbn; [eauto|eauto|discriminate]. Qed.

Lemma raw_sum_from_ok acc vals :
  forallb numeric vals = true -> exists z, raw_sum_from acc vals = Ok z.
Proof.
  revert acc. induction vals as [|v vals IH]; intros acc H; [eexists; reflexivity|].
  apply andb_prop in H as [Hv Hvs]. destruct (numeric_raw_num v Hv) as [z Hz].
  cbn. rewrite Hz. apply IH, Hvs.
Qed.

Lemma sq_dev_sum_from_ok acc avg vals :
  forallb numeric vals = true -> exists x, sq_dev_sum_from (F := F) acc avg vals = Ok x.
Proof.
  revert acc. induction vals as [|v vals IH]; intros acc H; [eexists; reflexivity|].
  apply andb_prop in H as [Hv Hvs]. destruct (numeric_raw_num v Hv) as [z Hz].
  cbn. unfold raw_sub_float. rewrite Hz. apply IH, Hvs.
Qed.

(** Lines 34-38 on a non-empty list of numbers: no [ZeroDivisionError],
    no [TypeError]. *)
Lemma baseline_stats_ok vals :
  vals <> [] -> forallb numeric vals = true -> exists st, baseline_stats (F := F) (BSamples vals) = Ok st.
Proof.
  intros Hne Hnum. unfold baseline_stats.
  destruct vals as [|v vs]; [contradiction|]. cbn [length Nat.eqb].
  set (n := Z.of_nat (S (length vs))).
  assert (Hn : Z.eqb n 0 = false) by (apply Z.eqb_neq; unfold n; lia).
  destruct (raw_sum_from_ok 0 (v :: vs) Hnum) as [total Ht]. unfold raw_sum. rewrite Ht. cbn [rbind].
  unfold py_truediv. rewrite Hn. cbn [rbind].
  destruct (sq_dev_sum_from_ok (fl_of_Z 0) (fl_truediv_Z total n) (v :: vs) Hnum) as [sq Hsq].
  rewrite Hsq. cbn [rbind]. unfold py_fdiv_int. rewrite Hn. eexists. reflexivity.
Qed.

(** ** [healthy] and the sample lists *)

Lemma healthy_lookup (s : polygraph F) k e :
  healthy s = true -> dict_lookup (baseline s) k = Some e -> samples_numeric e = true.
Proof.
  intros Hh Hl. unfold healthy in Hh. rewrite forallb_forall in Hh.
  exact (Hh (k, e) (dict_lookup_in _ _ _ Hl)).
Qed.

Lemma healthy_set (s : polygraph F) k e :
  healthy s = true -> samples_numeric e = true -> healthy (set_baseline_entry k e s) = true.
Proof.
  unfold healthy. rewrite !forallb_forall. intros Hh He.
  assert (Hd : Forall (fun kv => (fun (_ : string) e0 => samples_numeric e0 = true) (fst kv) (snd kv))
                 (baseline s)) by (apply Forall_forall; exact Hh).
  pose proof (dict_set_Forall _ (baseline s) k e Hd He) as H. rewrite Forall_forall in H. exact H.
Qed.

(** One iteration of the append loop, on a number. *)
Lemma append_sample_ok data k v (s : polygraph F) :
  healthy s = true -> dict_lookup data k = Some v -> numeric v = true ->
  exists s', append_sample data k s = (s', Ok tt) /\ healthy s' = true.
Proof.
  intros Hh Hd Hv. rewrite append_sample_run. cbv zeta.
  set (s1 := if dict_mem (baseline s) k then s else set_baseline_entry k (BSamples []) s).
  assert (Hh1 : healthy s1 = true)
    by (unfold s1; destruct (dict_mem _ _); [exact Hh|apply healthy_set; [exact Hh|reflexivity]]).
  assert (Hk1 : exists e, dict_lookup (baseline s1) k = Some e).
  { unfold s1. destruct (dict_mem (baseline s) k) eqn:Hm.
    - apply dict_mem_lookup, Hm.
    - exists (BSamples []). rewrite lookup_set_baseline_entry, String.eqb_refl. reflexivity. }
  destruct Hk1 as [e He]. rewrite (dict_get_some _ _ _ He).
  pose proof (healthy_lookup s1 k e Hh1 He) as Hn.
  destruct e as [vals|avg sd]; [|discriminate Hn].
  rewrite (dict_get_some _ _ _ Hd). eexists. split; [reflexivity|].
  apply healthy_set; [exact Hh1|]. cbn in Hn |- *. rewrite forallb_app, Hn. cbn. rewrite Hv. reflexivity.
Qed.

(** The samples of key [k], ready to be averaged. *)
Definition ready (k : string) (s : polygraph F) : Prop :=
  exists vals, dict_lookup (baseline s) k = Some (BSamples vals) /\ vals <> [] /\ forallb numeric vals = true.

(** One iteration of the finalisation loop, on a ready key. *)
Lemma finalize_entry_ok k (s : polygraph F) :
  ready k s ->
  exists s', finalize_entry k s = (s', Ok tt) /\ forall y, y <> k -> ready y s -> ready y s'.
Proof.
  intros (vals & Hl & Hne & Hnum). rewrite finalize_entry_run, (dict_get_some _ _ _ Hl).
  destruct (baseline_stats_ok vals Hne Hnum) as [st Hst]. rewrite Hst.
  eexists. split; [reflexivity|]. intros y Hy (vy & Hly & Hney & Hnumy).
  exists vy. rewrite lookup_set_baseline_entry.
  destruct (String.eqb_spec k y) as [<-|_]; [contradiction|]. auto.
Qed.

Lemma NoDup_channels : NoDup channels.
Proof. repeat constructor; cbn; intuition discriminate. Qed.

Lemma reading_numeric_lookup data k :
  reading_numeric data = true -> In k channels -> exists v, dict_lookup data k = Some v /\ numeric v = true.
Proof.
  unfold reading_numeric. rewrite forallb_forall. intros H Hk. specialize (H k Hk).
  destruct (dict_lookup data k) as [v|]; [eauto|discriminate].
Qed.

(** The append loop on a reading of numbers. *)
Lemma append_loop_ok data (s : polygraph F) :
  healthy s = true -> reading_numeric data = true ->
  exists s1, py_for channels (append_sample data) s = (s1, Ok tt) /\ healthy s1 = true.
Proof.
  intros Hh Hr.
  refine (py_for_nodup_ok (fun s0 => healthy s0 = true) (fun _ _ => True) channels (append_sample data)
            NoDup_channels _ s Hh (fun _ _ => I)).
  intros k s0 Hk Hh0 _. destruct (reading_numeric_lookup data k Hr Hk) as (v & Hd & Hv).
  destruct (append_sample_ok data k v s0 Hh0 Hd Hv) as (s' & E & Hh').
  exists s'. auto.
Qed.

(** The finalisation loop over keys whose lists are all ready. *)
Lemma finalize_loop_ok (s : polygraph F) :
  NoDup (dict_keys (baseline s)) -> (forall k, In k (dict_keys (baseline s)) -> ready k s) ->
  exists s2, py_for (dict_keys (baseline s)) finalize_entry s = (s2, Ok tt).
Proof.
  intros Hnd Hready.
  destruct (py_for_nodup_ok (fun _ => True) ready (dict_keys (baseline s)) finalize_entry Hnd
              (fun k s0 _ _ Hk => let '(ex_intro _ s' (conj E K)) := finalize_entry_ok k s0 Hk in
                                  ex_intro _ s' (conj E (conj I (fun y _ Hy => K y Hy))))
              s I Hready) as (s2 & E & _).
  eauto.
Qed.

End Liveness.

(** ** The theorem *)

Section Completion.
Context {F : Type} {PF : PyFloat F}.

(** C12: Calibration completes.  On an uncalibrated object whose sample
    lists hold numbers only (no text sample, no finalisation stopped
    part-way) and whose keys are distinct channels, a reading with a
    number for [ekg], [gsr] and [sound] that arrives when the window has
    elapsed ([now - start_time >= calibration_time], [start_time] being
    set by this very reading if it is the first) calibrates the object:
    [update] returns [None] without raising, [calibrated] is set, and every
    channel holds its statistics.  With [update_poisoned], this
    characterises when the object leaves calibration. *)
Theorem calibration_completes now data (s : polygraph F) :
  calibrated s = false -> keys_ok s -> healthy s = true -> reading_numeric data = true ->
  float_ge_int (fl_sub now (match start_time s with Some t => t | None => now end))
    (calibration_time s) = true ->
  exists s', update now data s = (s', Ok None) /\ calibrated s' = true /\
             (forall k, In k channels -> has_stats k s').
Proof.
  intros Hc Hk Hh Hr Hw.
  destruct (started_fields now s) as (Hct & Hc0 & Hb0 & _ & _ & _ & Hst).
  set (s0 := started now s) in *.
  assert (Hh0 : healthy s0 = true) by (unfold healthy; rewrite Hb0; exact Hh).
  assert (Hk0 : keys_ok s0) by (unfold keys_ok; rewrite Hb0; exact Hk).
  destruct (append_loop_ok data s0 Hh0 Hr) as (s1 & E1 & Hh1).
  pose proof (preserves_for (calib_frame s0) channels (append_sample data)
                (fun k _ => append_sample_frame s0 data k) s0 (calib_frame_refl s0)) as Hf.
  rewrite E1 in Hf. destruct Hf as (Hct1 & Hst1 & _). cbn [fst] in Hct1, Hst1.
  pose proof (append_loop_keys_ok data s0 Hk0) as Hk1. rewrite E1 in Hk1.
  destruct (finalize_loop_ok s1 (proj1 Hk1)) as (s2 & E2).
  { intros k Hin. destruct (append_loop_nonempty data s0 s1 Hk0 E1 k Hin) as (vals & Hl & Hne).
    exists vals. repeat split; [exact Hl|exact Hne|exact (healthy_lookup s1 k _ Hh1 Hl)]. }
  assert (E : calibrate_step now data s0 = (set_calibrated s2, Ok None)).
  { rewrite calibrate_step_run, E1, Hst1, Hst, Hct1, Hct, Hw, E2. reflexivity. }
  rewrite update_run, Hc. fold s0. rewrite E.
  exists (set_calibrated s2). split; [reflexivity|]. split; [reflexivity|].
  rewrite Hc in Hc0. pose proof (calibrate_step_sets_stats now data s0 Hc0) as H.
  rewrite E in H. exact (proj2 (H eq_refl)).
Qed.

End Completion.

Section LivenessWitness.

Lemma calibration_completes_witness :
  (calibrated obj_calibrating = false /\ keys_ok obj_calibrating /\ healthy obj_calibrating = true /\
   reading_numeric (sample_reading 100 100 100) = true /\
   float_ge_int (fl_sub (at_time 15)
                   (match start_time obj_calibrating with Some t => t | None => at_time 15 end))
     (calibration_time obj_calibrating) = true) /\
  exists s', update (at_time 15) (sample_reading 100 100 100) obj_calibrating = (s', Ok None) /\
             calibrated s' = true /\ (forall k, In k channels -> has_stats k s').
Proof.
  assert (Hk : keys_ok obj_calibrating).
  { unfold keys_ok. vm_compute. split; [repeat constructor; cbn; intuition discriminate|intros k H; exact H]. }
  assert (H1 : calibrated obj_calibrating = false) by (vm_compute; reflexivity).
  assert (H2 : healthy obj_calibrating = true) by (vm_compute; reflexivity).
  assert (H3 : reading_numeric (sample_reading 100 100 100) = true) by (vm_compute; reflexivity).
  assert (H4 : float_ge_int (fl_sub (at_time 15)
                  (match start_time obj_calibrating with Some t => t | None => at_time 15 end))
                  (calibration_time obj_calibrating) = true) by (vm_compute; reflexivity).
  split; [auto|]. exact (calibration_completes _ _ _ H1 Hk H2 H3 H4).
Defined.

End LivenessWitness.
