(* ===== verification/Binary64.v ===== *)
(** * The relayed percentage in IEEE binary64

    The ESP32 receives [int(score)] (line 125), where [score] is
    [(self.exceed_count / self.total_count) * 100] (line 52) computed in
    binary64: a correctly rounded division, then a correctly rounded
    product.  The exact percentage [100 * e / t] may be an integer that
    the two roundings land just below, and [int()] truncates: the ESP32
    then receives one less than the exact percentage (57 of 100 readings
    give 56).

    [relay_value_truncation] bounds this for every pair of counters with
    [total_count] up to [relay_check_bound]: the score lies in [0, 100],
    [int(score)] never raises, and it is the floor of the exact
    percentage, or one less when the exact percentage is an integer.  The
    proof is by reflection: [check_upto] runs the code's own
    [maybe_lying_prob] and [py_int_of_float] over every such pair, and
    [check_upto_correct] turns its [true] into the statement. *)

From Stdlib Require Import ZArith List Bool Lia.
From S2P Require Import Prelude PyFloat Polygraph.
Import ListNotations.
Local Open Scope Z_scope.

(** The counters covered: sessions of up to 200 scored readings. *)
Definition relay_check_bound : nat := 200.

(** The bound for one pair of counters, evaluated on the code's own
    binary64 operations. *)
Definition trunc_ok (e t : Z) : bool :=
  match maybe_lying_prob (F := b64) e t with
  | Ok x =>
      float_ge_int x 0 && negb (float_gt_int x 100) &&
      match py_int_of_float x with
      | Ok z =>
          let k := 100 * e / t in
          if Z.eqb ((100 * e) mod t) 0 then Z.eqb z k || Z.eqb z (k - 1) else Z.eqb z k
      | Raise _ => false
      end
  | Raise _ => false
  end.

(** Every [1 <= t <= n] and [0 <= e <= t]. *)
Definition check_upto (n : nat) : bool :=
  forallb (fun t => forallb (fun e => trunc_ok e t) (map Z.of_nat (seq 0 (S (Z.to_nat t)))))
    (map Z.of_nat (seq 1 n)).

Lemma check_upto_correct n t e :
  check_upto n = true -> 1 <= t <= Z.of_nat n -> 0 <= e <= t -> trunc_ok e t = true.
Proof.
  unfold check_upto. rewrite forallb_forall. intros H Ht He.
  assert (Hin : In t (map Z.of_nat (seq 1 n))).
  { apply in_map_iff. exists (Z.to_nat t). split; [lia|]. apply in_seq. lia. }
  specialize (H t Hin). rewrite forallb_forall in H. apply H.
  apply in_map_iff. exists (Z.to_nat e). split; [lia|]. apply in_seq. lia.
Qed.

Lemma trunc_ok_spec e t :
  trunc_ok e t = true ->
  exists x z, maybe_lying_prob (F := b64) e t = Ok x /\ py_int_of_float x = Ok z /\
    float_ge_int x 0 = true /\ float_gt_int x 100 = false /\
    (z = 100 * e / t \/ ((100 * e) mod t = 0 /\ z = 100 * e / t - 1)).
Proof.
  unfold trunc_ok. destruct (maybe_lying_prob e t) as [x|]; [|discriminate].
  destruct (float_ge_int x 0) eqn:G, (float_gt_int x 100) eqn:L; cbn [andb negb]; try discriminate.
  destruct (py_int_of_float x) as [z|] eqn:Hz; [|discriminate].
  destruct (Z.eqb_spec ((100 * e) mod t) 0) as [Hm|Hm]; intros H;
    exists x, z; (split; [reflexivity|split; [exact Hz|split; [exact G|split; [exact L|]]]]).
  - apply orb_true_iff in H. rewrite !Z.eqb_eq in H. destruct H as [->| ->]; [left|right; split]; auto.
  - apply Z.eqb_eq in H. auto.
Qed.

Lemma check_upto_bound : check_upto relay_check_bound = true.
Proof. vm_compute. reflexivity. Qed.

(** C23: For every session of up to 200 scored readings, the score
    [(exceed_count / total_count) * 100] computed in binary64 lies in
    [0, 100], [int(score)] on line 125 does not raise, and the relayed
    value is the floor of the exact percentage [100 * e / t], or one less
    when that percentage is an integer: binary64 never relays more than
    the exact percentage and loses at most one point. *)
Theorem relay_value_truncation (e t : Z) :
  1 <= t <= Z.of_nat relay_check_bound -> 0 <= e <= t ->
  exists x z, maybe_lying_prob (F := b64) e t = Ok x /\ py_int_of_float x = Ok z /\
    float_ge_int x 0 = true /\ float_gt_int x 100 = false /\
    (z = 100 * e / t \/ ((100 * e) mod t = 0 /\ z = 100 * e / t - 1)).
Proof.
  intros Ht He. apply trunc_ok_spec.
  exact (check_upto_correct relay_check_bound t e check_upto_bound Ht He).
Qed.

(** The lower value is reached: 57 exceeding readings of 100 relay 56. *)
Example relay_value_57 :
  rbind (maybe_lying_prob (F := b64) 57 100) py_int_of_float = Ok 56.
Proof. vm_compute. reflexivity. Qed.

Lemma relay_value_truncation_witness :
  (1 <= 100 <= Z.of_nat relay_check_bound /\ 0 <= 57 <= 100) /\
  exists x z, maybe_lying_prob (F := b64) 57 100 = Ok x /\ py_int_of_float x = Ok z /\
    float_ge_int x 0 = true /\ float_gt_int x 100 = false /\
    (z = 100 * 57 / 100 \/ ((100 * 57) mod 100 = 0 /\ z = 100 * 57 / 100 - 1)).
Proof.
  assert (H1 : 1 <= 100 <= Z.of_nat relay_check_bound) by (cbn; lia).
  assert (H2 : 0 <= 57 <= 100) by lia.
  split; [split; assumption|]. exact (relay_value_truncation 57 100 H1 H2).
Defined.
