(* ===== verification/Ingestion.v ===== *)
(** * The ingestion loop [read_serial] (src/pythonWeb.py, lines 93-137)

    One iteration of [while True:] (lines 106-137) is [iteration]: it reads
    a line, parses it, feeds it to the [Polygraph] object, publishes the
    reading with its score on Socket.IO, and, when the score is available
    and more than ten seconds have passed since the last relay, opens the
    ESP32 port, writes the truncated score and closes the port.

    The environment of one iteration is a [tick]: what [ser.readline()]
    returned (or that it raised), the three [time.time()] readings the
    iteration may take (line 20 inside [update], lines 124 and 133), and
    whether opening and writing the ESP32 port succeed.  An iteration uses
    a time reading only when the code evaluates that call.

    The state of the loop is [ingest]: the local variables [poly] and
    [last_sent_time], and [outbox], the observable effects so far in order
    ([socketio.emit], the ESP32 port's open, write and close, and the
    thread's [print] calls, with the exception they report).  Effects
    already performed stay in [outbox] when a later statement raises.
    The loop over a finite prefix of the input is [serial_loop]; the loop
    itself never returns ([while True]), and every statement that can
    raise is inside the [try] of line 106.

    [read_serial]'s connection preamble (lines 94-100) is [preamble]: if
    [serial.Serial(ARDUINO_PORT, ARDUINO_BAUD, ...)] raises, the error is
    printed, the thread returns and nothing is ever published. *)

From Stdlib Require Import ZArith String List Lia.
From S2P Require Import Prelude PyFloat PyDict LineParser Polygraph.
Import ListNotations.
Local Open Scope string_scope.
Local Open Scope py_scope.

(** The observable effects of the loop. *)
Inductive out_event (F : Type) : Type :=
| SensorData (payload : dict (pyval F))  (** [socketio.emit('sensor_data', data)] *)
| EspOpen (port : string) (baud : Z)    (** [serial.Serial(ESP32_PORT, ESP32_BAUD, ...)] *)
| EspWrite (bytes : string)              (** [esp.write(...)] *)
| EspClose                               (** the end of the [with] block *)
| Print (text : string)                  (** [print(text)] *)
| PrintErr (text : string) (e : pyexc).  (** [print(text, e)] *)
Arguments SensorData {F} payload.
Arguments EspOpen {F} port baud.
Arguments EspWrite {F} bytes.
Arguments EspClose {F}.
Arguments Print {F} text.
Arguments PrintErr {F} text e.

(** What the outside world supplies to one iteration. *)
Record tick (F : Type) : Type := mkTick {
  tk_line : option string;  (** the decoded line; [None]: [readline] raised *)
  tk_now : F;               (** [time.time()] in [Polygraph.update] *)
  tk_check : F;             (** [time.time()] on line 124 *)
  tk_sent : F;              (** [time.time()] on line 133 *)
  tk_esp_open : bool;       (** opening the ESP32 port succeeds *)
  tk_esp_write : bool       (** [esp.write] succeeds *)
}.
Arguments mkTick {F}.
Arguments tk_line {F}.
Arguments tk_now {F}.
Arguments tk_check {F}.
Arguments tk_sent {F}.
Arguments tk_esp_open {F}.
Arguments tk_esp_write {F}.

Record ingest (F : Type) : Type := mkIngest {
  poly : polygraph F;
  last_sent_time : F;
  outbox : list (out_event F)
}.
Arguments mkIngest {F}.
Arguments poly {F}.
Arguments last_sent_time {F}.
Arguments outbox {F}.

(** Lines 69-70: the Arduino's serial device and bit rate. *)
Definition ARDUINO_PORT : string := "COM10".
Definition ARDUINO_BAUD : Z := 9600.

(** Lines 71-72: the ESP32's serial device and bit rate. *)
Definition ESP32_PORT : string := "COM16".
Definition ESP32_BAUD : Z := 9600.

(** The relay cooldown, the [10] of line 124. *)
Definition relay_cooldown : Z := 10.

(** Line 102: [Polygraph(calibration_time=15)]. *)
Definition session_calibration_time : Z := 15.

(** The newline byte of [f"{stress_percent}\n"]. *)
Definition newline : string := String (Ascii.ascii_of_nat 10) "".

(** [f"{stress_percent}\n".encode()]: ASCII digits, so the bytes are the
    characters. *)
Definition esp_payload (stress : Z) : string := py_str_Z stress ++ newline.

(** The messages the thread prints (lines 97, 99, 130, 132, 136). *)
Definition connected_text : string := "Connected to Arduino on " ++ ARDUINO_PORT.
Definition connect_error_text : string := "Error connecting to Arduino:".
Definition sent_text (stress : Z) : string := "Sent " ++ py_str_Z stress ++ "% to ESP32 (briefly)".
Definition esp_error_text : string := "Error writing to ESP32:".
Definition loop_error_text : string := "Error in serial loop:".

Section Ingestion.
Context {F : Type} {PF : PyFloat F}.
Abbreviation state := (ingest F).

Definition set_poly (p : polygraph F) (st : state) : state :=
  mkIngest p (last_sent_time st) (outbox st).

Definition set_last_sent (t : F) (st : state) : state :=
  mkIngest (poly st) t (outbox st).

Definition push_out (e : out_event F) (st : state) : state :=
  mkIngest (poly st) (last_sent_time st) (outbox st ++ [e]).

Definition out (e : out_event F) : PyM state unit := modify (push_out e).

(** The loop state with the effects [o] performed before it. *)
Definition prefix_out (o : list (out_event F)) (st : state) : state :=
  mkIngest (poly st) (last_sent_time st) (o ++ outbox st).

(** Line 107: [ser.readline().decode('utf-8', errors='ignore').strip()]. *)
Definition readline (tk : tick F) : PyM state string :=
  lift (match tk_line tk with
        | Some raw => Ok (py_strip raw)
        | None => Raise OSError
        end).

(** Line 114: [poly.update(data)], a method of the local object [poly]. *)
Definition poly_update (now : F) (data : dict rawval) : PyM state (option F) :=
  zoom poly set_poly (update now data).

(** Lines 115-118: the dict [data] with ['maybe_lying'] set; an existing
    ['maybe_lying'] key of the line keeps its position. *)
Definition payload_of (data : dict rawval) (score : option F) : dict (pyval F) :=
  dict_set (map (fun kv => (fst kv, pyval_of_raw (snd kv))) data) "maybe_lying"
    (match score with
     | Some x => VFloat (py_round1 x)
     | None => VNone
     end).

(** Line 128: [serial.Serial(ESP32_PORT, ESP32_BAUD, timeout=1)]. *)
Definition esp_open (tk : tick F) : PyM state unit :=
  if tk_esp_open tk then out (EspOpen ESP32_PORT ESP32_BAUD) else raise OSError.

(** Line 129: [esp.write(...)]. *)
Definition esp_write (tk : tick F) (bytes : string) : PyM state unit :=
  if tk_esp_write tk then out (EspWrite bytes) else raise OSError.

(** Lines 126-132: the [with] block and the report inside their own
    [try]; the handler prints the exception. *)
Definition relay (tk : tick F) (stress : Z) : PyM state unit :=
  py_try (esp_open tk ;; py_finally (esp_write tk (esp_payload stress)) (out EspClose) ;;
          out (Print (sent_text stress)))
         (fun e => out (PrintErr esp_error_text e)).

(** Lines 124-133. *)
Definition maybe_relay (tk : tick F) (score : option F) : PyM state unit :=
  match score with
  | None => ret tt
  | Some sc =>
      st <- get ;;
      if float_gt_int (fl_sub (tk_check tk) (last_sent_time st)) relay_cooldown then
        stress <- lift (py_int_of_float sc) ;;
        relay tk stress ;;
        modify (set_last_sent (tk_sent tk))
      else ret tt
  end.

(** Lines 107-133, the body of the [try]; [continue] is [ret tt]. *)
Definition iteration_body (tk : tick F) : PyM state unit :=
  line <- readline tk ;;
  if String.eqb line "" then ret tt
  else match parse_line line with
       | None | Some [] => ret tt
       | Some data =>
           score <- poly_update (tk_now tk) data ;;
           out (SensorData (payload_of data score)) ;;
           maybe_relay tk score
       end.

(** Lines 106-137: [except Exception as e: print(...); continue]. *)
Definition iteration (tk : tick F) : PyM state unit :=
  py_try (iteration_body tk) (fun e => out (PrintErr loop_error_text e)).

(** The [while True] loop over the iterations of a finite input. *)
Definition serial_loop (ticks : list (tick F)) : PyM state unit :=
  py_for ticks iteration.

(** Lines 102-103: [poly = Polygraph(calibration_time=15)], [last_sent_time = 0]
    (the int 0 is converted exactly in [time.time() - last_sent_time]). *)
Definition init_ingest : state :=
  mkIngest (init session_calibration_time) (fl_of_Z 0) [].

(** Lines 95-97: [serial.Serial(ARDUINO_PORT, ARDUINO_BAUD, timeout=1)]
    ([connected]: whether it opens), then the report. *)
Definition connect_arduino (connected : bool) : PyM (list (out_event F)) unit :=
  if connected then modify (fun o => (o ++ [Print connected_text])%list) else raise OSError.

(** Lines 94-100: what the preamble prints, and whether the thread goes
    on to the loop ([return] on line 100 ends it). *)
Definition preamble (connected : bool) : list (out_event F) * bool :=
  match connect_arduino connected [] with
  | (o, Raise e) => ((o ++ [PrintErr connect_error_text e])%list, false)
  | (o, Ok _) => (o, true)
  end.

(** [read_serial()]: the preamble, lines 102-103, and the iterations of
    [ticks]. *)
Definition read_serial (connected : bool) (ticks : list (tick F)) : list (out_event F) :=
  let '(o, runs) := preamble connected in
  if runs then (o ++ outbox (fst (serial_loop ticks init_ingest)))%list else o.

(** The effects of one relay (spec 4.6): open, write if the write
    succeeds, close, then the report; only the error report if the port
    does not open. *)
Definition relay_events (tk : tick F) (stress : Z) : list (out_event F) :=
  if tk_esp_open tk
  then EspOpen ESP32_PORT ESP32_BAUD ::
       (if tk_esp_write tk then [EspWrite (esp_payload stress); EspClose; Print (sent_text stress)]
        else [EspClose; PrintErr esp_error_text OSError])
  else [PrintErr esp_error_text OSError].

(** The effects one iteration adds. *)
Definition events_of (tk : tick F) (st : state) : list (out_event F) :=
  skipn (length (outbox st)) (outbox (fst (iteration tk st))).

(** The relay is due (line 124, right operand of [and]). *)
Definition relay_due (tk : tick F) (st : state) : bool :=
  float_gt_int (fl_sub (tk_check tk) (last_sent_time st)) relay_cooldown.

(** The ESP32 port is used as spec 4.6 and 9 require: opened only when
    closed, written only while open, closed before anything else happens
    ([opened] is whether the port is open before [evs]). *)
Fixpoint esp_scoped (opened : bool) (evs : list (out_event F)) : bool :=
  match evs with
  | [] => negb opened
  | SensorData _ :: r => negb opened && esp_scoped false r
  | EspOpen _ _ :: r => negb opened && esp_scoped true r
  | EspWrite _ :: r => opened && esp_scoped true r
  | EspClose :: r => opened && esp_scoped false r
  | Print _ :: r | PrintErr _ _ :: r => esp_scoped opened r
  end.

End Ingestion.

(** ** Running the statements of an iteration *)

Section IngestionRun.
Context {F : Type} {PF : PyFloat F}.

Lemma relay_run (tk : tick F) stress st :
  relay tk stress st = (mkIngest (poly st) (last_sent_time st) (outbox st ++ relay_events tk stress), Ok tt).
Proof.
  unfold relay, relay_events, py_try, py_finally, esp_open, esp_write, out, push_out, bind, modify, raise, ret.
  destruct st as [p l o].
  destruct (tk_esp_open tk), (tk_esp_write tk); cbn; rewrite <- ?app_assoc; reflexivity.
Qed.

Lemma maybe_relay_none (tk : tick F) st : maybe_relay tk None st = (st, Ok tt).
Proof. reflexivity. Qed.

Lemma maybe_relay_some (tk : tick F) sc st :
  maybe_relay tk (Some sc) st =
  if relay_due tk st then
    match py_int_of_float sc with
    | Ok z => (mkIngest (poly st) (tk_sent tk) (outbox st ++ relay_events tk z), Ok tt)
    | Raise e => (st, Raise e)
    end
  else (st, Ok tt).
Proof.
  unfold maybe_relay, relay_due. cbn [bind get].
  destruct (float_gt_int _ _); [|reflexivity].
  unfold lift, bind. destruct (py_int_of_float sc); [|reflexivity].
  rewrite relay_run. reflexivity.
Qed.

(** The state after the handler of line 135 ran, if the body raised. *)
Definition after_except (r : ingest F * result unit) : ingest F :=
  match snd r with
  | Ok _ => fst r
  | Raise e => push_out (PrintErr loop_error_text e) (fst r)
  end.

Lemma iteration_after_except (tk : tick F) st :
  iteration tk st = (after_except (iteration_body tk st), Ok tt).
Proof.
  unfold iteration, py_try, after_except, out, modify.
  destruct (iteration_body tk st) as [st' [[]|e]]; reflexivity.
Qed.

(** The iteration of a line that parses to a non-empty [data]. *)
Lemma iteration_parsed (tk : tick F) st raw data :
  tk_line tk = Some raw -> py_strip raw <> "" -> parse_line (py_strip raw) = Some data -> data <> [] ->
  iteration tk st =
  (after_except
     (let '(p', r) := update (tk_now tk) data (poly st) in
      match r with
      | Ok score => maybe_relay tk score
                      (mkIngest p' (last_sent_time st) (outbox st ++ [SensorData (payload_of data score)]))
      | Raise e => (set_poly p' st, Raise e)
      end), Ok tt).
Proof.
  intros Hl Hne Hp Hd. rewrite iteration_after_except. f_equal. f_equal.
  unfold iteration_body, readline, bind, lift.
  rewrite Hl. cbn [fst snd]. apply String.eqb_neq in Hne. rewrite Hne, Hp.
  destruct data as [|kv data]; [contradiction|].
  unfold poly_update. rewrite zoom_run.
  destruct (update (tk_now tk) (kv :: data) (poly st)) as [p' [score|e]]; reflexivity.
Qed.

(** A line that is blank or not parsed leaves everything as it was. *)
Lemma iteration_skip (tk : tick F) st raw :
  tk_line tk = Some raw ->
  py_strip raw = "" \/ parse_line (py_strip raw) = None \/ parse_line (py_strip raw) = Some [] ->
  iteration tk st = (st, Ok tt).
Proof.
  intros Hl H. rewrite iteration_after_except. unfold iteration_body, readline, bind, lift.
  rewrite Hl. cbn [fst snd].
  destruct H as [H|[H|H]]; [rewrite H; reflexivity| |];
    (destruct (String.eqb (py_strip raw) "") eqn:E; [reflexivity|]); rewrite H; reflexivity.
Qed.

(** A [readline] that raises is reported by the handler of line 135. *)
Lemma iteration_read_error (tk : tick F) st :
  tk_line tk = None -> iteration tk st = (push_out (PrintErr loop_error_text OSError) st, Ok tt).
Proof. intros Hl. rewrite iteration_after_except. unfold iteration_body, readline, bind, lift. rewrite Hl. reflexivity. Qed.

Lemma iteration_ok (tk : tick F) st : snd (iteration tk st) = Ok tt.
Proof. rewrite iteration_after_except. reflexivity. Qed.

Lemma serial_loop_cons (tk : tick F) ticks st :
  serial_loop (tk :: ticks) st = serial_loop ticks (fst (iteration tk st)).
Proof.
  unfold serial_loop. cbn [py_for]. unfold bind.
  pose proof (iteration_ok tk st) as H. destruct (iteration tk st) as [st1 r].
  cbn in H. subst r. reflexivity.
Qed.

(** The line is skipped, [readline] raised, or the line parses to a
    non-empty reading. *)
Lemma iteration_cases (tk : tick F) st :
  iteration tk st = (st, Ok tt) \/
  (tk_line tk = None /\ iteration tk st = (push_out (PrintErr loop_error_text OSError) st, Ok tt)) \/
  exists raw data, tk_line tk = Some raw /\ py_strip raw <> "" /\
    parse_line (py_strip raw) = Some data /\ data <> [].
Proof.
  destruct (tk_line tk) as [raw|] eqn:Hl.
  2: { right. left. split; [reflexivity|]. apply iteration_read_error, Hl. }
  destruct (String.eqb (py_strip raw) "") eqn:E.
  { left. apply (iteration_skip _ _ raw Hl). left. apply String.eqb_eq. exact E. }
  apply String.eqb_neq in E.
  destruct (parse_line (py_strip raw)) as [[|kv d]|] eqn:Hp.
  - left. apply (iteration_skip _ _ raw Hl). auto.
  - right. right. exists raw, (kv :: d). repeat split; auto; discriminate.
  - left. apply (iteration_skip _ _ raw Hl). auto.
Qed.

Lemma esp_scoped_app (o : bool) (a b : list (out_event F)) :
  esp_scoped o a = true -> esp_scoped o (a ++ b)%list = esp_scoped false b.
Proof.
  revert o. induction a as [|e a IH]; intros o H.
  - destruct o; [discriminate|reflexivity].
  - destruct e, o; cbn in *; try discriminate; apply IH; exact H.
Qed.

Lemma relay_events_scoped (tk : tick F) z : esp_scoped false (relay_events tk z) = true.
Proof. unfold relay_events. destruct (tk_esp_open tk), (tk_esp_write tk); reflexivity. Qed.

(** The ways an iteration can end. *)
Inductive iter_outcome (tk : tick F) (st : ingest F) : ingest F -> Prop :=
| io_skip : iter_outcome tk st st
| io_read_error :
    tk_line tk = None -> iter_outcome tk st (push_out (PrintErr loop_error_text OSError) st)
| io_raise data p' e :
    update (tk_now tk) data (poly st) = (p', Raise e) ->
    iter_outcome tk st (push_out (PrintErr loop_error_text e) (set_poly p' st))
| io_publish data p' score :
    update (tk_now tk) data (poly st) = (p', Ok score) ->
    (forall sc, score = Some sc -> relay_due tk st = false) ->
    iter_outcome tk st (mkIngest p' (last_sent_time st) (outbox st ++ [SensorData (payload_of data score)]))
| io_int_error data p' sc e :
    update (tk_now tk) data (poly st) = (p', Ok (Some sc)) ->
    relay_due tk st = true -> py_int_of_float sc = Raise e ->
    iter_outcome tk st
      (mkIngest p' (last_sent_time st)
         (outbox st ++ [SensorData (payload_of data (Some sc)); PrintErr loop_error_text e]))
| io_relay data p' sc z :
    update (tk_now tk) data (poly st) = (p', Ok (Some sc)) ->
    relay_due tk st = true -> py_int_of_float sc = Ok z ->
    iter_outcome tk st
      (mkIngest p' (tk_sent tk) (outbox st ++ SensorData (payload_of data (Some sc)) :: relay_events tk z)).

Lemma iteration_outcome (tk : tick F) st : iter_outcome tk st (fst (iteration tk st)).
Proof.
  destruct (iteration_cases tk st) as [H|[[Hl H]|(raw & data & Hl & Hne & Hp & Hd)]].
  { rewrite H. apply io_skip. }
  { rewrite H. apply io_read_error, Hl. }
  rewrite (iteration_parsed tk st raw data Hl Hne Hp Hd).
  destruct (update (tk_now tk) data (poly st)) as [p' [score|e]] eqn:Hu.
  2: { eapply io_raise. exact Hu. }
  destruct score as [sc|].
  2: { eapply io_publish; [exact Hu|discriminate]. }
  rewrite maybe_relay_some. unfold relay_due at 1. cbn [last_sent_time].
  destruct (float_gt_int _ _) eqn:Hd'; [destruct (py_int_of_float sc) as [z|e] eqn:Hz|];
    cbn [fst poly outbox after_except snd].
  - rewrite <- app_assoc. eapply io_relay; eauto.
  - unfold push_out. cbn [poly last_sent_time outbox]. rewrite <- app_assoc.
    eapply io_int_error; eauto.
  - eapply io_publish; [exact Hu|]. intros sc' [= <-]. exact Hd'.
Qed.

(** What one iteration appends to the effects. *)
Lemma iteration_appends (tk : tick F) st :
  exists evs, outbox (fst (iteration tk st)) = (outbox st ++ evs)%list /\ esp_scoped false evs = true.
Proof.
  destruct (iteration_outcome tk st).
  - exists []. rewrite app_nil_r. auto.
  - exists [PrintErr loop_error_text OSError]. auto.
  - exists [PrintErr loop_error_text e]. auto.
  - exists [SensorData (payload_of data score)]. auto.
  - eexists. split; [reflexivity|]. reflexivity.
  - eexists. split; [reflexivity|]. apply relay_events_scoped.
Qed.

(** The loop never reads its past effects: effects performed earlier stay
    in front of those of later iterations. *)
Lemma iteration_prefix_out (tk : tick F) o st :
  fst (iteration tk (prefix_out o st)) = prefix_out o (fst (iteration tk st)).
Proof.
  rewrite !iteration_after_except. cbn [fst].
  unfold iteration_body, readline, bind, lift. destruct (tk_line tk) as [raw|]; cbn [fst snd].
  2: { unfold after_except, push_out, prefix_out. cbn. rewrite app_assoc. reflexivity. }
  destruct (String.eqb _ _); [reflexivity|].
  destruct (parse_line _) as [[|kv d]|]; try reflexivity.
  unfold poly_update. rewrite !zoom_run. cbn [poly prefix_out].
  destruct (update _ _ (poly st)) as [p' [score|e]]; cbn [fst snd].
  2: { unfold after_except, push_out, prefix_out, set_poly. cbn. rewrite app_assoc. reflexivity. }
  unfold out, modify.
  destruct score as [sc|]; [rewrite !maybe_relay_some|]; unfold relay_due; cbn [last_sent_time set_poly prefix_out push_out].
  - destruct (float_gt_int _ _); [destruct (py_int_of_float sc)|];
      unfold after_except, push_out, prefix_out; cbn; rewrite ?app_assoc; reflexivity.
  - unfold after_except, prefix_out, push_out. cbn. rewrite app_assoc. reflexivity.
Qed.

Lemma serial_loop_prefix_out (ticks : list (tick F)) o st :
  fst (serial_loop ticks (prefix_out o st)) = prefix_out o (fst (serial_loop ticks st)).
Proof.
  revert st. induction ticks as [|tk ticks IH]; intros st; [reflexivity|].
  rewrite !serial_loop_cons, iteration_prefix_out. apply IH.
Qed.

Lemma skipn_length_app {A} (l l' : list A) : skipn (length l) (l ++ l') = l'.
Proof. induction l as [|x l IH]; [reflexivity|exact IH]. Qed.

(** The effects one iteration appends. *)
Lemma iteration_events (tk : tick F) st :
  outbox (fst (iteration tk st)) = (outbox st ++ events_of tk st)%list /\
  esp_scoped false (events_of tk st) = true.
Proof.
  destruct (iteration_appends tk st) as (evs & H & Hs). unfold events_of.
  rewrite H, skipn_length_app. auto.
Qed.

(** What the loop appends to the effects. *)
Lemma serial_loop_appends (ticks : list (tick F)) st :
  exists evs, outbox (fst (serial_loop ticks st)) = (outbox st ++ evs)%list /\
              esp_scoped false evs = true.
Proof.
  revert st. induction ticks as [|tk ticks IH]; intros st.
  - exists []. rewrite app_nil_r. auto.
  - rewrite serial_loop_cons.
    destruct (iteration_appends tk st) as (evs1 & H1 & Hs1).
    destruct (IH (fst (iteration tk st))) as (evs2 & H2 & Hs2).
    exists (evs1 ++ evs2)%list. rewrite H2, H1, app_assoc. split; [reflexivity|].
    rewrite (esp_scoped_app false evs1 evs2 Hs1). exact Hs2.
Qed.

(** [parse_line] rejects the empty line. *)
Lemma parsed_nonblank line (data : dict rawval) : parse_line line = Some data -> line <> "".
Proof. intros H ->. discriminate H. Qed.

End IngestionRun.
