(* ===== verification/IngestionProps.v ===== *)
(** * Properties of the ingestion loop

    For any float arithmetic:
    - no exception escapes an iteration, so the loop runs over any input
      ([serial_loop_never_raises]);
    - a line that cannot be parsed changes nothing, and one that cannot
      be read is only reported ([iteration_skips_failures]);
    - a reading is published with its score, or with [None] while
      calibrating; the relay runs when the cooldown has passed and resets
      the cooldown whatever the port does; a reading whose [update] raises
      is not published ([iteration_calibrating], [iteration_relay_cooldown],
      [iteration_update_raises]);
    - the published payload is the reading plus ['maybe_lying']
      ([payload_of_fields]);
    - the ESP32 port is opened, used and closed within one relay
      ([read_serial_esp_scoped]).

    Examples: whole runs of [read_serial] in IEEE binary64, from a fresh
    session, on the lines the Arduino sends: the spec's cooldown examples with the
    strict comparison at exactly ten seconds, the truncation of a score that is
    mathematically 57 to 56, and the published scores of a scripted
    session. *)

From Stdlib Require Import ZArith QArith Qcanon String List Lia.
From S2P Require Import Prelude PyFloat PyDict LineParser Polygraph PolygraphProps Ingestion.
Import ListNotations.
Local Open Scope string_scope.

(** The bytes written to the ESP32, in order. *)
Fixpoint esp_writes {F} (evs : list (out_event F)) : list string :=
  match evs with
  | [] => []
  | EspWrite b :: r => b :: esp_writes r
  | _ :: r => esp_writes r
  end.

(** The payloads published on Socket.IO, in order. *)
Fixpoint published {F} (evs : list (out_event F)) : list (dict (pyval F)) :=
  match evs with
  | [] => []
  | SensorData p :: r => p :: published r
  | _ :: r => published r
  end.

Lemma published_app {F} (a b : list (out_event F)) :
  published (a ++ b) = (published a ++ published b)%list.
Proof. induction a as [|e a IH]; [reflexivity|destruct e; cbn; rewrite ?IH; reflexivity]. Qed.

Section LoopTheorems.
Context {F : Type} {PF : PyFloat F}.

(** C17: No exception escapes the body of [while True]: whatever the
    serial port, the parser, [Polygraph.update] or the ESP32 port do, every
    iteration ends normally and the loop goes on to the next line. *)
Theorem serial_loop_never_raises (ticks : list (tick F)) st :
  snd (serial_loop ticks st) = Ok tt.
Proof.
  revert st. induction ticks as [|tk ticks IH]; intros st; [reflexivity|].
  rewrite serial_loop_cons. apply IH.
Qed.

(** C18: The error policy of spec 7 for the input: a line that
    [parse_line] rejects (a blank line included) is discarded silently,
    leaving the object, the cooldown clock and the effects as they were;
    a [readline] that raises is printed once by the handler of line 135
    ([Error in serial loop:]) and changes nothing else. *)
Theorem iteration_skips_failures (tk : tick F) st :
  (forall raw, tk_line tk = Some raw -> parse_line (py_strip raw) = None -> iteration tk st = (st, Ok tt)) /\
  (tk_line tk = None -> iteration tk st = (push_out (PrintErr loop_error_text OSError) st, Ok tt)).
Proof.
  split; [|apply iteration_read_error].
  intros raw Hl Hp. apply (iteration_skip _ _ raw Hl). right. left. exact Hp.
Qed.

(** C19: While the object calibrates ([update] returns [None]), the
    iteration publishes the reading with ['maybe_lying'] set to [None], and
    neither opens the ESP32 port nor moves the cooldown clock. *)
Theorem iteration_calibrating (tk : tick F) st raw data p' :
  tk_line tk = Some raw -> parse_line (py_strip raw) = Some data -> data <> [] ->
  update (tk_now tk) data (poly st) = (p', Ok None) ->
  fst (iteration tk st) =
  mkIngest p' (last_sent_time st) (outbox st ++ [SensorData (payload_of data None)])%list.
Proof.
  intros Hl Hp Hd Hu.
  rewrite (iteration_parsed tk st raw data Hl (parsed_nonblank _ _ Hp) Hp Hd), Hu.
  reflexivity.
Qed.

(** C20: A scored reading is published first; then, if more than ten
    seconds have passed since [last_sent_time], the truncated score goes to
    the relay and [last_sent_time] becomes the time of line 133 whether the
    port opened and the write succeeded or not; otherwise nothing else
    happens. *)
Theorem iteration_relay_cooldown (tk : tick F) st raw data p' sc z :
  tk_line tk = Some raw -> parse_line (py_strip raw) = Some data -> data <> [] ->
  update (tk_now tk) data (poly st) = (p', Ok (Some sc)) -> py_int_of_float sc = Ok z ->
  fst (iteration tk st) =
  if relay_due tk st
  then mkIngest p' (tk_sent tk)
         (outbox st ++ SensorData (payload_of data (Some sc)) :: relay_events tk z)%list
  else mkIngest p' (last_sent_time st) (outbox st ++ [SensorData (payload_of data (Some sc))])%list.
Proof.
  intros Hl Hp Hd Hu Hz.
  rewrite (iteration_parsed tk st raw data Hl (parsed_nonblank _ _ Hp) Hp Hd), Hu.
  rewrite maybe_relay_some. unfold relay_due. cbn [last_sent_time outbox poly].
  destruct (float_gt_int _ _); [rewrite Hz; cbn; rewrite <- app_assoc|]; reflexivity.
Qed.

(** C21: A reading on which [Polygraph.update] raises (a missing channel,
    a text value) is not published and does not reach the relay: its only
    effect is the report of line 136; the mutations [update] made before
    raising stay in [poly]. *)
Theorem iteration_update_raises (tk : tick F) st raw data p' e :
  tk_line tk = Some raw -> parse_line (py_strip raw) = Some data -> data <> [] ->
  update (tk_now tk) data (poly st) = (p', Raise e) ->
  fst (iteration tk st) = push_out (PrintErr loop_error_text e) (set_poly p' st).
Proof.
  intros Hl Hp Hd Hu.
  rewrite (iteration_parsed tk st raw data Hl (parsed_nonblank _ _ Hp) Hp Hd), Hu.
  reflexivity.
Qed.

(** The published payload holds every field of the reading, in the
    line's order and with the parsed value, followed by ['maybe_lying'],
    which is [round(score, 1)] or [None]. *)
Theorem payload_of_fields (data : dict rawval) (score : option F) :
  ~ In "maybe_lying" (dict_keys data) ->
  dict_keys (payload_of data score) = (dict_keys data ++ ["maybe_lying"])%list /\
  (forall k, k <> "maybe_lying" ->
     dict_lookup (payload_of data score) k = option_map pyval_of_raw (dict_lookup data k)) /\
  dict_lookup (payload_of data score) "maybe_lying" =
    Some (match score with Some x => VFloat (py_round1 x) | None => VNone end).
Proof.
  intros Hn. unfold payload_of. split; [|split].
  - rewrite dict_keys_set_new; rewrite dict_keys_map_values; [reflexivity|exact Hn].
  - intros k Hk. rewrite dict_lookup_set_ne by congruence. apply dict_lookup_map_values.
  - apply dict_lookup_set_eq.
Qed.

(** C22: In every run of [read_serial], the ESP32 port is opened only when
    it is closed, written only while it is open, and closed again before
    the next reading is published: the [with] block releases the port on
    every path, a failed write included. *)
Theorem read_serial_esp_scoped (connected : bool) (ticks : list (tick F)) :
  esp_scoped false (read_serial connected ticks) = true.
Proof.
  unfold read_serial. destruct connected; [|reflexivity].
  destruct (serial_loop_appends ticks init_ingest) as (evs & -> & Hs). exact Hs.
Qed.

End LoopTheorems.

(** ** Runs of [read_serial] *)

Section Runs.

(** A line that arrives at time [t]; the iteration takes no time, and the
    ESP32 port works. *)
Definition line_tick {F} {PF : PyFloat F} (line : string) (t : Z) : tick F :=
  mkTick (Some line) (fl_of_Z t) (fl_of_Z t) (fl_of_Z t) true true.

Definition calm_line : string := "ekg:100|gsr:100|sound:100".
Definition tense_line : string := "ekg:130|gsr:100|sound:100".

(** Two calibration readings at times 0 and 15 (the window is 15 s), then
    a scored reading that exceeds at time [a] and a calm one at time [b]. *)
Definition session {F} {PF : PyFloat F} (a b : Z) : list (tick F) :=
  [line_tick calm_line 0; line_tick calm_line 15; line_tick tense_line a; line_tick calm_line b].

(** Calibration, 57 exceeding readings and 42 calm ones at time 16, and a
    last calm reading at time 30: 57 of 100 scored readings exceed. *)
Definition session57 {F} {PF : PyFloat F} : list (tick F) :=
  [line_tick calm_line 0; line_tick calm_line 15] ++
  repeat (line_tick tense_line 16) 57 ++ repeat (line_tick calm_line 16) 42 ++
  [line_tick calm_line 30].

(** The spec's relay examples (section 8) from a fresh session:
    two scored readings 2 seconds apart give one ESP32 write, 11 seconds
    apart give two; the first reading's score is 1 of 1 (100), the
    second's 1 of 2 (50).  The comparison is strict: a reading exactly ten
    seconds after the last relay is not relayed, although the cooldown
    interval has elapsed. *)
Example relay_spec_examples :
  esp_writes (read_serial (F := b64) true (session 20 22)) = [esp_payload 100] /\
  esp_writes (read_serial (F := b64) true (session 20 31)) = [esp_payload 100; esp_payload 50] /\
  esp_writes (read_serial (F := b64) true (session 20 30)) = [esp_payload 100].
Proof. repeat split; vm_compute; reflexivity. Qed.

(** [int(score)] truncates the binary64 product [(57 / 100) * 100],
    which is just below 57, so the ESP32 receives 56 after 57 of 100
    readings exceeded; in exact arithmetic the same run sends 57. *)
Example relay_truncation_57 :
  esp_writes (read_serial (F := b64) true session57) = [esp_payload 100; esp_payload 56] /\
  esp_writes (read_serial (F := Qc) true session57) = [esp_payload 100; esp_payload 57].
Proof. split; vm_compute; reflexivity. Qed.

(** Calibration, then ten scored readings, four of which exceed. *)
Definition script10 {F} {PF : PyFloat F} : list (tick F) :=
  [line_tick calm_line 0; line_tick calm_line 15] ++
  map (fun lt => line_tick (fst lt) (snd lt))
    [(tense_line, 16); (calm_line, 17); (tense_line, 18); (calm_line, 19); (calm_line, 20);
     (tense_line, 21); (calm_line, 22); (calm_line, 23); (calm_line, 24); (tense_line, 25)]%Z.

(** The ['maybe_lying'] values of the published payloads. *)
Definition published_scores {F} (evs : list (out_event F)) : list (option (pyval F)) :=
  map (fun p => dict_lookup p "maybe_lying") (published evs).

(** The spec's scripted sequence (section 8): the two calibration
    readings are published with [None], then each scored reading carries
    the cumulative ratio [round(exceed / total * 100, 1)]: 100.0, 50.0,
    66.7, 50.0, 40.0, 50.0, 42.9, 37.5, 33.3, 40.0 for the exceed pattern
    1,0,1,0,0,1,0,0,0,1 (binary64, [round] to the float nearest the
    decimal). *)
Example scripted_session_scores :
  published_scores (read_serial (F := b64) true script10) =
  ([Some VNone; Some VNone] ++
   map (fun k => Some (VFloat (fl_truediv_Z k 10)))
     [1000; 500; 667; 500; 400; 500; 429; 375; 333; 400]%Z)%list.
Proof. vm_compute. reflexivity. Qed.

End Runs.

Section LoopWitnesses.

Definition fresh_loop : ingest b64 := init_ingest.

(** The loop after calibration, before any relay. *)
Definition calibrated_loop : ingest b64 := mkIngest obj_calibrated (fl_of_Z 0) [].

(** A tick whose [readline] raises. *)
Definition read_error_tick : tick b64 := mkTick None (fl_of_Z 3) (fl_of_Z 3) (fl_of_Z 3) true true.

Lemma iteration_skips_failures_witness :
  (tk_line (line_tick (F := b64) "ekg512|gsr:340" 3) = Some "ekg512|gsr:340" /\
   parse_line (py_strip "ekg512|gsr:340") = None /\ tk_line read_error_tick = None) /\
  iteration (line_tick "ekg512|gsr:340" 3) fresh_loop = (fresh_loop, Ok tt) /\
  iteration read_error_tick fresh_loop = (push_out (PrintErr loop_error_text OSError) fresh_loop, Ok tt).
Proof.
  split; [repeat split; reflexivity|split].
  - apply (proj1 (iteration_skips_failures _ _) "ekg512|gsr:340"); reflexivity.
  - apply (proj2 (iteration_skips_failures _ _)). reflexivity.
Defined.

Lemma iteration_calibrating_witness :
  let tk := line_tick (F := b64) calm_line 0 in
  (tk_line tk = Some calm_line /\ parse_line (py_strip calm_line) = Some (sample_reading 100 100 100) /\
   sample_reading 100 100 100 <> [] /\
   update (tk_now tk) (sample_reading 100 100 100) (poly fresh_loop) = (obj_calibrating, Ok None)) /\
  fst (iteration tk fresh_loop) =
  mkIngest obj_calibrating (last_sent_time fresh_loop)
    (outbox fresh_loop ++ [SensorData (payload_of (sample_reading 100 100 100) None)])%list.
Proof.
  cbv zeta. split; [split; [reflexivity|split; [vm_compute; reflexivity|split; [discriminate|vm_compute; reflexivity]]]|].
  apply (iteration_calibrating _ _ calm_line (sample_reading 100 100 100)); [reflexivity|vm_compute; reflexivity|discriminate|].
  vm_compute. reflexivity.
Defined.

Lemma iteration_relay_cooldown_witness :
  let tk := line_tick (F := b64) tense_line 20 in
  let p' := fst (update (fl_of_Z 20) (sample_reading 130 100 100) obj_calibrated) in
  (tk_line tk = Some tense_line /\ parse_line (py_strip tense_line) = Some (sample_reading 130 100 100) /\
   update (tk_now tk) (sample_reading 130 100 100) (poly calibrated_loop) = (p', Ok (Some (fl_of_Z 100))) /\
   py_int_of_float (fl_of_Z (PyFloat := PyFloat_b64) 100) = Ok 100%Z) /\
  fst (iteration tk calibrated_loop) =
  if relay_due tk calibrated_loop
  then mkIngest p' (tk_sent tk)
         (outbox calibrated_loop ++ SensorData (payload_of (sample_reading 130 100 100) (Some (fl_of_Z 100)))
                                  :: relay_events tk 100)%list
  else mkIngest p' (last_sent_time calibrated_loop)
         (outbox calibrated_loop ++ [SensorData (payload_of (sample_reading 130 100 100) (Some (fl_of_Z 100)))])%list.
Proof.
  cbv zeta. split; [split; [reflexivity|split; [vm_compute; reflexivity|split; vm_compute; reflexivity]]|].
  apply (iteration_relay_cooldown _ _ tense_line (sample_reading 130 100 100)); [reflexivity|vm_compute; reflexivity|discriminate| |];
    vm_compute; reflexivity.
Defined.

Lemma iteration_update_raises_witness :
  let tk := line_tick (F := b64) "ekg:100|sound:100" 20 in
  let data := [("ekg", RInt 100); ("sound", RInt 100)] in
  let p' := fst (update (fl_of_Z 20) data obj_calibrated) in
  (parse_line (py_strip "ekg:100|sound:100") = Some data /\
   update (tk_now tk) data (poly calibrated_loop) = (p', Raise (KeyError "gsr"))) /\
  fst (iteration tk calibrated_loop) = push_out (PrintErr loop_error_text (KeyError "gsr")) (set_poly p' calibrated_loop).
Proof.
  cbv zeta. split; [split; vm_compute; reflexivity|].
  apply (iteration_update_raises _ _ "ekg:100|sound:100" [("ekg", RInt 100); ("sound", RInt 100)] _ (KeyError "gsr"));
    [reflexivity|vm_compute; reflexivity|discriminate|vm_compute; reflexivity].
Defined.

Lemma payload_of_fields_witness :
  ~ In "maybe_lying" (dict_keys (sample_reading 512 340 88)) /\
  dict_keys (payload_of (F := b64) (sample_reading 512 340 88) None) =
    (dict_keys (sample_reading 512 340 88) ++ ["maybe_lying"])%list /\
  (forall k, k <> "maybe_lying" ->
     dict_lookup (payload_of (F := b64) (sample_reading 512 340 88) None) k =
     option_map pyval_of_raw (dict_lookup (sample_reading 512 340 88) k)) /\
  dict_lookup (payload_of (F := b64) (sample_reading 512 340 88) None) "maybe_lying" = Some VNone.
Proof.
  assert (H : ~ In "maybe_lying" (dict_keys (sample_reading 512 340 88)))
    by (cbn; intros [H|[H|[H|[]]]]; discriminate H).
  split; [exact H|]. exact (payload_of_fields (F := b64) _ None H).
Defined.

End LoopWitnesses.
