(* ===== verification/IngestionExact.v ===== *)
(** * The ingestion loop in exact arithmetic

    [read_serial] with exact rationals ([PyFloat_Qc]) and a clock that
    does not go backwards:
    - two openings of the ESP32 port are more than [relay_cooldown] seconds
      apart, measured from the end of the first relay to the check of the
      second ([relay_spacing]);
    - every line written to the ESP32 is the decimal of an integer between
      0 and 100 followed by a newline, as the output protocol (spec 6)
      requires ([relay_writes_in_range]);
    - every published ['maybe_lying'] is [None] or a float in [0, 100]
      ([published_scores_in_range]).
    Both bounds come from one loop invariant, [loop_ok], proved for every
    iteration by cases on [iter_outcome]. *)

From Stdlib Require Import ZArith QArith Qcanon String List Lia.
From S2P Require Import Prelude PyFloat PyDict Polygraph PolygraphProps PolygraphExact.
From S2P Require Import Ingestion IngestionProps.
Import ListNotations.
Local Open Scope Q_scope.

(** ** The cooldown clock, for any float arithmetic *)

Section Cooldown.
Context {F : Type} {PF : PyFloat F}.

Lemma relay_events_open (tk : tick F) z :
  In (EspOpen ESP32_PORT ESP32_BAUD) (relay_events tk z) -> tk_esp_open tk = true.
Proof. unfold relay_events. destruct (tk_esp_open tk); [reflexivity|intros [H|[]]; discriminate H]. Qed.

(** An iteration that opens the port had the relay due and set the clock. *)
Lemma events_of_open (tk : tick F) st :
  In (EspOpen ESP32_PORT ESP32_BAUD) (events_of tk st) ->
  relay_due tk st = true /\ last_sent_time (fst (iteration tk st)) = tk_sent tk.
Proof.
  unfold events_of. destruct (iteration_outcome tk st) as [| | | | |data p' sc z _ Hd _];
    cbn [outbox last_sent_time set_poly push_out]; rewrite ?skipn_length_app, ?skipn_all;
    [intros []|intros [E|[]]; discriminate E ..|intros [E|[E|[]]]; discriminate E|intros _; auto].
Qed.

(** The clock only moves to the time of a relay. *)
Lemma iteration_last_sent (tk : tick F) st :
  last_sent_time (fst (iteration tk st)) = last_sent_time st \/
  last_sent_time (fst (iteration tk st)) = tk_sent tk.
Proof. destruct (iteration_outcome tk st); cbn; auto. Qed.

End Cooldown.

(** ** Exact arithmetic *)

Lemma Qltb_true (a b : Q) : Qltb a b = true <-> a < b.
Proof.
  unfold Qltb. rewrite Bool.negb_true_iff. split.
  - intros H. apply Qnot_le_lt. intros H'. apply Qle_bool_iff in H'. congruence.
  - intros H. destruct (Qle_bool b a) eqn:E; [|reflexivity].
    apply Qle_bool_iff in E. exfalso. apply (Qlt_not_le a b); assumption.
Qed.

Lemma relay_due_Qc (tk : tick Qc) st :
  relay_due tk st = true -> inject_Z relay_cooldown < this (tk_check tk) - this (last_sent_time st).
Proof.
  unfold relay_due, float_gt_int. cbn [fl_value fl_sub PyFloat_Qc]. rewrite Qltb_true.
  unfold Qcminus, Qcplus, Qcopp. cbn [this]. rewrite !this_Q2Qc. tauto.
Qed.

(** Over iterations whose relay times are all at least [x], the clock
    stays at least [x]. *)
Lemma serial_loop_last_sent_ge (x : Q) (mid : list (tick Qc)) st :
  Forall (fun tk => x <= this (tk_sent tk)) mid -> x <= this (last_sent_time st) ->
  x <= this (last_sent_time (fst (serial_loop mid st))).
Proof.
  revert st. induction mid as [|tk mid IH]; intros st Hm Hx; [exact Hx|].
  inversion Hm as [|? ? Htk Hmid]; subst.
  rewrite serial_loop_cons. apply IH; [exact Hmid|].
  destruct (iteration_last_sent tk st) as [-> | ->]; assumption.
Qed.

(** C24: With a clock that does not go backwards, two iterations that open
    the ESP32 port are separated by more than the cooldown: the check of
    the later one (line 124) comes more than ten seconds after the end of
    the earlier relay (line 133), whatever happened in between. *)
Theorem relay_spacing (tki tkj : tick Qc) (mid : list (tick Qc)) st :
  In (EspOpen ESP32_PORT ESP32_BAUD) (events_of tki st) ->
  Forall (fun tk => this (tk_sent tki) <= this (tk_sent tk)) mid ->
  In (EspOpen ESP32_PORT ESP32_BAUD) (events_of tkj (fst (serial_loop mid (fst (iteration tki st))))) ->
  inject_Z relay_cooldown < this (tk_check tkj) - this (tk_sent tki).
Proof.
  intros Hi Hmid Hj.
  destruct (events_of_open tki st Hi) as [_ Hsent].
  destruct (events_of_open _ _ Hj) as [Hdue _].
  apply relay_due_Qc in Hdue.
  pose proof (serial_loop_last_sent_ge (this (tk_sent tki)) mid (fst (iteration tki st)) Hmid)
    as Hge.
  rewrite Hsent in Hge. specialize (Hge (Qle_refl _)).
  apply Qlt_le_trans with (1 := Hdue).
  apply Qplus_le_r. apply Qopp_le_compat. exact Hge.
Qed.

(** ** What is written to the ESP32 *)

Lemma esp_writes_app {F} (a b : list (out_event F)) :
  esp_writes (a ++ b) = (esp_writes a ++ esp_writes b)%list.
Proof. induction a as [|e a IH]; [reflexivity|destruct e; cbn; rewrite ?IH; reflexivity]. Qed.

Lemma esp_writes_relay {F} (tk : tick F) z b :
  In b (esp_writes (relay_events tk z)) -> b = esp_payload z.
Proof.
  unfold relay_events. destruct (tk_esp_open tk), (tk_esp_write tk); cbn; intuition.
Qed.

(** [int(x)] of a float in [0, 100] is an int in [0, 100]. *)
Lemma int_of_score_range (sc : Qc) z :
  0 <= this sc <= 100 -> py_int_of_float sc = Ok z -> (0 <= z <= 100)%Z.
Proof.
  cbn. intros [H0 H1] [= <-]. destruct (this sc) as [n d]. unfold Qle in H0, H1. cbn in *.
  rewrite Z.quot_div_nonneg by lia. split.
  - apply Z.div_pos; lia.
  - apply Z.div_le_upper_bound; lia.
Qed.

(** [round(x, 1)] keeps a score in [0, 100]. *)
Lemma round_half_even_range (q : Q) :
  0 <= q <= 1000 -> (0 <= round_half_even q <= 1000)%Z.
Proof.
  destruct q as [n d]. unfold Qle. cbn [Qnum Qden]. intros [H0 H1]. unfold round_half_even. cbn [Qnum Qden].
  pose proof (Z.div_mod n (Zpos d) ltac:(lia)) as Hdm.
  pose proof (Z.mod_pos_bound n (Zpos d) ltac:(lia)) as Hb.
  set (fl := (n / Zpos d)%Z) in *. set (r := (n mod Zpos d)%Z) in *.
  assert (Hfl0 : (0 <= fl)%Z) by (apply Z.div_pos; lia).
  assert (Hfl1 : (fl <= 1000)%Z) by nia.
  assert (Hlt : (0 < r)%Z -> (fl < 1000)%Z) by nia.
  destruct (Z.compare_spec (2 * r) (Zpos d)); [destruct (Z.even fl)| |]; lia.
Qed.

Lemma py_round1_range (x : Qc) : 0 <= this x <= 100 -> 0 <= this (py_round1 x) <= 100.
Proof.
  intros [H0 H1]. unfold py_round1. cbn [fl_value fl_truediv_Z PyFloat_Qc].
  rewrite this_Q2Qc.
  destruct (round_half_even_range (this x * 10)) as [K0 K1].
  { split; [apply (Qmult_le_0_compat); [exact H0|discriminate]|].
    apply (Qmult_le_compat_r _ 100 10) in H1; [exact H1|discriminate]. }
  rewrite Zle_Qle in K0, K1. split.
  - apply Qle_shift_div_l; [reflexivity|]. rewrite Qmult_0_l. exact K0.
  - apply Qle_shift_div_r; [reflexivity|]. exact K1.
Qed.

(** A published ['maybe_lying'] value: [None], or a float in [0, 100]. *)
Definition score_ok (v : option (pyval Qc)) : Prop :=
  v = Some VNone \/ exists x, v = Some (VFloat x) /\ 0 <= this x <= 100.

(** The state of the loop: the object is one [read_serial] can hold, every
    line written so far is a percentage, and every published score is in
    range. *)
Definition loop_ok (st : ingest Qc) : Prop :=
  reachable session_calibration_time (poly st) /\
  (forall b, In b (esp_writes (outbox st)) -> exists z, b = esp_payload z /\ (0 <= z <= 100)%Z) /\
  (forall p, In p (published (outbox st)) -> score_ok (dict_lookup p "maybe_lying"%string)).

Lemma reachable_update_eq T now data (p p' : polygraph Qc) r :
  reachable T p -> update now data p = (p', r) -> reachable T p'.
Proof. intros Hr Hu. pose proof (reachable_step T now data p Hr) as H. rewrite Hu in H. exact H. Qed.

Lemma published_relay {F} (tk : tick F) z : published (relay_events tk z) = [].
Proof. unfold relay_events. destruct (tk_esp_open tk), (tk_esp_write tk); reflexivity. Qed.

(** The score of a reachable object's [update]. *)
Lemma update_score_ok now data (p p' : polygraph Qc) score :
  reachable session_calibration_time p -> update now data p = (p', Ok score) ->
  forall sc, score = Some sc -> 0 <= this sc <= 100.
Proof.
  intros Hr Hu sc ->. apply (update_score_bounds now data p).
  - exact (reachable_polygraph_inv _ _ Hr).
  - rewrite Hu. reflexivity.
Qed.

Lemma payload_score_ok data (score : option Qc) :
  (forall sc, score = Some sc -> 0 <= this sc <= 100) ->
  score_ok (dict_lookup (payload_of data score) "maybe_lying"%string).
Proof.
  intros H. unfold payload_of. rewrite dict_lookup_set_eq.
  destruct score as [sc|]; [right|left; reflexivity].
  exists (py_round1 sc). split; [reflexivity|]. apply py_round1_range, H. reflexivity.
Qed.

(** Publishing one payload whose score is in range keeps the published
    scores in range. *)
Lemma published_snoc_ok (o : list (out_event Qc)) (rest : list (out_event Qc)) data score :
  published rest = [] ->
  (forall sc, score = Some sc -> 0 <= this sc <= 100) ->
  (forall p, In p (published o) -> score_ok (dict_lookup p "maybe_lying"%string)) ->
  forall p, In p (published (o ++ SensorData (payload_of data score) :: rest)) ->
            score_ok (dict_lookup p "maybe_lying"%string).
Proof.
  intros Hrest Hs Ho p. rewrite published_app. cbn [published]. rewrite Hrest.
  intros Hp. apply in_app_or in Hp. destruct Hp as [Hp|[<-|[]]]; [exact (Ho p Hp)|].
  apply payload_score_ok, Hs.
Qed.

Lemma iteration_loop_ok (tk : tick Qc) st : loop_ok st -> loop_ok (fst (iteration tk st)).
Proof.
  intros (Hr & Hw & Hp).
  destruct (iteration_outcome tk st) as [|_|data p' e Hu|data p' score Hu _|data p' sc e Hu _ _|data p' sc z Hu _ Hz];
    cbn [outbox push_out set_poly poly].
  - repeat split; assumption.
  - split; [exact Hr|]. cbn [outbox push_out]. rewrite esp_writes_app, published_app, !app_nil_r. auto.
  - split; [exact (reachable_update_eq _ _ _ _ _ _ Hr Hu)|]. cbn [outbox push_out set_poly].
    rewrite esp_writes_app, published_app, !app_nil_r. auto.
  - pose proof (update_score_ok _ _ _ _ _ Hr Hu) as Hs.
    split; [exact (reachable_update_eq _ _ _ _ _ _ Hr Hu)|split].
    + cbn [outbox]. rewrite esp_writes_app, app_nil_r. exact Hw.
    + exact (published_snoc_ok (outbox st) [] data score eq_refl Hs Hp).
  - pose proof (update_score_ok _ _ _ _ _ Hr Hu) as Hs.
    split; [exact (reachable_update_eq _ _ _ _ _ _ Hr Hu)|split].
    + cbn [outbox]. rewrite esp_writes_app, app_nil_r. exact Hw.
    + exact (published_snoc_ok (outbox st) [PrintErr loop_error_text e] data (Some sc) eq_refl Hs Hp).
  - pose proof (update_score_ok _ _ _ _ _ Hr Hu) as Hs.
    split; [exact (reachable_update_eq _ _ _ _ _ _ Hr Hu)|split].
    + cbn [outbox]. rewrite esp_writes_app. intros b Hb. apply in_app_or in Hb.
      destruct Hb as [Hb|Hb]; [exact (Hw b Hb)|].
      exists z. split; [exact (esp_writes_relay tk z b Hb)|].
      apply (int_of_score_range sc); [apply Hs; reflexivity|exact Hz].
    + exact (published_snoc_ok (outbox st) _ data (Some sc) (published_relay tk z) Hs Hp).
Qed.

Lemma read_serial_loop_ok (ticks : list (tick Qc)) :
  loop_ok (fst (serial_loop ticks init_ingest)).
Proof.
  assert (H0 : loop_ok init_ingest) by (split; [apply reachable_init|split; intros ? []]).
  revert H0. generalize (init_ingest (F := Qc)) as st.
  induction ticks as [|tk ticks IH]; intros st H; [exact H|].
  rewrite serial_loop_cons. apply IH, iteration_loop_ok, H.
Qed.

(** C25: Every line [read_serial] writes to the ESP32 is
    [f"{stress_percent}\n"] for an integer [stress_percent] between 0 and
    100. *)
Theorem relay_writes_in_range (connected : bool) (ticks : list (tick Qc)) b :
  In b (esp_writes (read_serial connected ticks)) ->
  exists z, b = esp_payload z /\ (0 <= z <= 100)%Z.
Proof.
  unfold read_serial, connect_arduino. destruct connected; cbn; [|intros []].
  apply (read_serial_loop_ok ticks).
Qed.

(** C27: Every payload [read_serial] publishes carries ['maybe_lying'] as
    [None] (while calibrating) or as a float between 0 and 100, the
    spec's ScoredReading (section 3). *)
Theorem published_scores_in_range (connected : bool) (ticks : list (tick Qc)) p :
  In p (published (read_serial connected ticks)) ->
  dict_lookup p "maybe_lying"%string = Some VNone \/
  exists x, dict_lookup p "maybe_lying"%string = Some (VFloat x) /\ 0 <= this x <= 100.
Proof.
  unfold read_serial, connect_arduino. destruct connected; cbn; [|intros []].
  apply (read_serial_loop_ok ticks).
Qed.

Section ExactLoopWitnesses.

(** The loop after the two calibration readings of [session]. *)
Definition qloop_calibrated : ingest Qc :=
  fst (serial_loop [line_tick calm_line 0; line_tick calm_line 15] init_ingest).

Lemma relay_spacing_witness :
  In (EspOpen ESP32_PORT ESP32_BAUD) (events_of (line_tick tense_line 20) qloop_calibrated) /\
  Forall (fun tk => this (tk_sent (line_tick (F := Qc) tense_line 20)) <= this (tk_sent tk))
         [line_tick calm_line 22] /\
  In (EspOpen ESP32_PORT ESP32_BAUD) (events_of (line_tick calm_line 31)
               (fst (serial_loop [line_tick calm_line 22]
                       (fst (iteration (line_tick tense_line 20) qloop_calibrated))))) /\
  inject_Z relay_cooldown <
    this (tk_check (line_tick (F := Qc) calm_line 31)) - this (tk_sent (line_tick (F := Qc) tense_line 20)).
Proof.
  assert (H1 : In (EspOpen ESP32_PORT ESP32_BAUD) (events_of (line_tick tense_line 20) qloop_calibrated))
    by (vm_compute; right; left; reflexivity).
  assert (H2 : Forall (fun tk => this (tk_sent (line_tick (F := Qc) tense_line 20)) <= this (tk_sent tk))
                      [line_tick calm_line 22])
    by (repeat constructor; apply Qle_bool_iff; vm_compute; reflexivity).
  assert (H3 : In (EspOpen ESP32_PORT ESP32_BAUD) (events_of (line_tick calm_line 31)
               (fst (serial_loop [line_tick calm_line 22]
                       (fst (iteration (line_tick tense_line 20) qloop_calibrated))))))
    by (vm_compute; right; left; reflexivity).
  split; [exact H1|split; [exact H2|split; [exact H3|]]].
  exact (relay_spacing _ _ _ _ H1 H2 H3).
Defined.

Lemma relay_writes_in_range_witness :
  In (esp_payload 50) (esp_writes (read_serial (F := Qc) true (session 20 31))) /\
  exists z, esp_payload 50 = esp_payload z /\ (0 <= z <= 100)%Z.
Proof.
  assert (H : In (esp_payload 50) (esp_writes (read_serial (F := Qc) true (session 20 31)))).
  { assert (E : esp_writes (read_serial (F := Qc) true (session 20 31)) = [esp_payload 100; esp_payload 50])
      by (vm_compute; reflexivity).
    rewrite E. right. left. reflexivity. }
  split; [exact H|]. exact (relay_writes_in_range true _ _ H).
Defined.

Lemma published_scores_in_range_witness :
  let p := payload_of (sample_reading 130 100 100) (Some (Q2Qc (inject_Z 100))) in
  In p (published (read_serial (F := Qc) true (session 20 31))) /\
  (dict_lookup p "maybe_lying"%string = Some VNone \/
   exists x, dict_lookup p "maybe_lying"%string = Some (VFloat x) /\ 0 <= this x <= 100).
Proof.
  cbv zeta.
  assert (H : In (payload_of (sample_reading 130 100 100) (Some (Q2Qc (inject_Z 100))))
                 (published (read_serial (F := Qc) true (session 20 31)))).
  { assert (E : nth 2 (published (read_serial (F := Qc) true (session 20 31))) [] =
                payload_of (sample_reading 130 100 100) (Some (Q2Qc (inject_Z 100))))
      by (vm_compute; reflexivity).
    rewrite <- E. apply nth_In. vm_compute. lia. }
  split; [exact H|]. exact (published_scores_in_range true _ _ H).
Defined.

End ExactLoopWitnesses.
