(* ===== verification/Broadcast.v ===== *)
(** * The Socket.IO broadcast hub

    The program talks to its viewers through Flask-SocketIO: [read_serial]
    calls [socketio.emit('sensor_data', data)] (line 121), which sends to
    every connected client, and the handler [on_connect] (lines 145-148)
    answers a new client with [emit('message', {'data': 'Connected to
    server'})], which goes to that client only.  The hub itself is the
    library; its contract is spec 4.5 (broadcast to the current
    subscribers, no replay to later ones), and that is how it is modelled.

    The hub is a [gmap] from a client's session id to what the client has
    received so far and whether it is still connected.  Session ids are
    opaque and fresh (a reconnecting browser gets a new one).  A run of the
    server is a list of [hub_op], the connections and disconnections of
    the viewers interleaved in any way with the emits of the ingestion
    thread. *)

From stdpp Require Import base gmap.
From Stdlib Require Import ZArith String List.
From S2P Require Import PyFloat PyDict Polygraph PolygraphProps Ingestion IngestionProps.

Abbreviation sid := nat.

(** A Socket.IO event as a client receives it: its name and its payload. *)
Record hub_msg (F : Type) : Type := HubMsg {
  msg_event : string;
  msg_payload : dict (pyval F)
}.
Arguments HubMsg {F}.
Arguments msg_event {F}.
Arguments msg_payload {F}.

Record client (F : Type) : Type := mkClient {
  cl_connected : bool;
  cl_received : list (hub_msg F)
}.
Arguments mkClient {F}.
Arguments cl_connected {F}.
Arguments cl_received {F}.

Abbreviation hub F := (gmap nat (client F)).

Inductive hub_op (F : Type) : Type :=
| Connect (c : sid)
| Disconnect (c : sid)
| Emit (payload : dict (pyval F)).   (** [socketio.emit('sensor_data', data)] *)
Arguments Connect {F} c.
Arguments Disconnect {F} c.
Arguments Emit {F} payload.

Section Hub.
Context {F : Type}.

(** Line 148: [emit('message', {'data': 'Connected to server'})]. *)
Definition welcome : hub_msg F := HubMsg "message"%string [("data"%string, VStr "Connected to server"%string)].

Definition sensor_msg (payload : dict (pyval F)) : hub_msg F := HubMsg "sensor_data"%string payload.

(** A client connects and [on_connect] (lines 145-148) runs for it. *)
Definition on_connect (c : sid) (h : hub F) : hub F :=
  <[c := mkClient true [welcome]]> h.

(** [socketio.emit] outside a request: every connected client gets it. *)
Definition hub_emit (payload : dict (pyval F)) (h : hub F) : hub F :=
  (fun cl => if cl_connected cl
             then mkClient true (cl_received cl ++ [sensor_msg payload])%list
             else cl) <$> h.

Definition hub_disconnect (c : sid) (h : hub F) : hub F :=
  alter (fun cl => mkClient false (cl_received cl)) c h.

Definition hub_step (h : hub F) (op : hub_op F) : hub F :=
  match op with
  | Connect c => on_connect c h
  | Disconnect c => hub_disconnect c h
  | Emit p => hub_emit p h
  end.

Definition run_hub (ops : list (hub_op F)) (h : hub F) : hub F := fold_left hub_step ops h.

(** The payloads emitted in a run, in order. *)
Fixpoint hub_emits (ops : list (hub_op F)) : list (dict (pyval F)) :=
  match ops with
  | [] => []
  | Emit p :: r => p :: hub_emits r
  | _ :: r => hub_emits r
  end.

(** Whether a run connects or disconnects client [c]. *)
Definition touches (c : sid) (op : hub_op F) : bool :=
  match op with
  | Connect c' | Disconnect c' => Nat.eqb c c'
  | Emit _ => false
  end.

End Hub.

(** ** What a client receives *)

Section HubTheorems.
Context {F : Type}.

Definition connects (c : sid) (op : hub_op F) : bool :=
  match op with
  | Connect c' => Nat.eqb c c'
  | _ => false
  end.

Lemma run_hub_cons (op : hub_op F) ops h : run_hub (op :: ops) h = run_hub ops (hub_step h op).
Proof. reflexivity. Qed.

Lemma run_hub_app (ops ops' : list (hub_op F)) h :
  run_hub (ops ++ ops') h = run_hub ops' (run_hub ops h).
Proof. apply fold_left_app. Qed.

Lemma hub_emits_app (ops ops' : list (hub_op F)) :
  hub_emits (ops ++ ops') = (hub_emits ops ++ hub_emits ops')%list.
Proof. induction ops as [|[] ops IH]; cbn; rewrite ?IH; reflexivity. Qed.

Lemma neq_of_eqb (c c' : sid) : Nat.eqb c c' = false -> c' <> c.
Proof. intros H ->. rewrite PeanoNat.Nat.eqb_refl in H. discriminate. Qed.

(** A connected client that the run neither reconnects nor disconnects
    receives every emit of the run, in order. *)
Lemma run_hub_connected c (ops : list (hub_op F)) h r :
  Forall (fun op => touches c op = false) ops -> h !! c = Some (mkClient true r) ->
  run_hub ops h !! c = Some (mkClient true (r ++ map sensor_msg (hub_emits ops))%list).
Proof.
  revert h r. induction ops as [|op ops IH]; intros h r Hops Hc.
  { rewrite app_nil_r. exact Hc. }
  inversion Hops as [|? ? Hop Hrest]; subst. rewrite run_hub_cons.
  destruct op as [c'|c'|p]; cbn [touches hub_step] in Hop |- *.
  - rewrite (IH _ r Hrest); [reflexivity|].
    unfold on_connect. rewrite lookup_insert_ne by exact (neq_of_eqb _ _ Hop). exact Hc.
  - rewrite (IH _ r Hrest); [reflexivity|].
    unfold hub_disconnect. rewrite lookup_alter_ne by exact (neq_of_eqb _ _ Hop). exact Hc.
  - rewrite (IH _ (r ++ [sensor_msg p])%list Hrest), <- app_assoc; [reflexivity|].
    unfold hub_emit. rewrite lookup_fmap, Hc. reflexivity.
Qed.

(** A disconnected client that does not connect again receives nothing. *)
Lemma run_hub_disconnected c (ops : list (hub_op F)) h r :
  Forall (fun op => connects c op = false) ops -> h !! c = Some (mkClient false r) ->
  run_hub ops h !! c = Some (mkClient false r).
Proof.
  revert h. induction ops as [|op ops IH]; intros h Hops Hc; [exact Hc|].
  inversion Hops as [|? ? Hop Hrest]; subst. rewrite run_hub_cons. apply IH; [exact Hrest|].
  destruct op as [c'|c'|p]; cbn [connects hub_step] in Hop |- *.
  - unfold on_connect. rewrite lookup_insert_ne by exact (neq_of_eqb _ _ Hop). exact Hc.
  - unfold hub_disconnect. destruct (decide (c' = c)) as [->|Hne].
    + rewrite lookup_alter_eq, Hc. reflexivity.
    + rewrite lookup_alter_ne by exact Hne. exact Hc.
  - unfold hub_emit. rewrite lookup_fmap, Hc. reflexivity.
Qed.

(** A viewer that disconnects receives exactly the readings emitted
    while it was connected, and nothing after it left. *)
Theorem disconnected_subscriber (pre mid post : list (hub_op F)) c h :
  Forall (fun op => touches c op = false) mid -> Forall (fun op => connects c op = false) post ->
  run_hub (pre ++ Connect c :: mid ++ Disconnect c :: post) h !! c =
  Some (mkClient false (welcome :: map sensor_msg (hub_emits mid))).
Proof.
  intros Hmid Hpost. rewrite run_hub_app, run_hub_cons, run_hub_app, run_hub_cons.
  cbn [hub_step]. apply (run_hub_disconnected c post); [exact Hpost|].
  unfold hub_disconnect. rewrite lookup_alter_eq.
  rewrite (run_hub_connected c mid _ [welcome] Hmid); [reflexivity|].
  unfold on_connect. apply lookup_insert_eq.
Qed.

(** Emitting when no viewer is connected changes nothing: no reading
    is kept for viewers that connect later (spec 4.5, 8). *)
Theorem emit_without_subscribers (ps : list (dict (pyval F))) (h : hub F) :
  (forall c cl, h !! c = Some cl -> cl_connected cl = false) ->
  run_hub (map Emit ps) h = h.
Proof.
  intros Hoff. induction ps as [|p ps IH]; [reflexivity|].
  cbn [map]. rewrite run_hub_cons. cbn [hub_step].
  replace (hub_emit p h) with h; [exact IH|].
  apply map_eq. intros c. unfold hub_emit. rewrite lookup_fmap.
  destruct (h !! c) as [cl|] eqn:E; [|reflexivity].
  cbn. rewrite (Hoff c cl E). reflexivity.
Qed.

End HubTheorems.

(** ** The hub fed by [read_serial] *)

Section Pipeline.
Context {F : Type} {PF : PyFloat F}.

(** When the emits of a server run are the readings [read_serial]
    publishes, a viewer that connects and stays connected receives the
    welcome message and then exactly the readings published after its
    connection: a suffix of [read_serial]'s output, in order. *)
Theorem read_serial_subscriber (ticks : list (tick F)) (pre post : list (hub_op F)) c :
  hub_emits (pre ++ Connect c :: post) = published (read_serial true ticks) ->
  Forall (fun op => touches c op = false) post ->
  run_hub (pre ++ Connect c :: post) ∅ !! c =
  Some (mkClient true (welcome :: map sensor_msg
          (skipn (length (hub_emits pre)) (published (read_serial true ticks))))).
Proof.
  intros Hem Hpost. rewrite <- Hem, hub_emits_app. cbn [hub_emits].
  rewrite skipn_app, skipn_all, PeanoNat.Nat.sub_diag. cbn [skipn app].
  rewrite run_hub_app, run_hub_cons. cbn [hub_step].
  apply (run_hub_connected c post _ [welcome] Hpost).
  unfold on_connect. apply lookup_insert_eq.
Qed.

End Pipeline.

Section HubWitnesses.

Definition reading (n : Z) : dict (pyval b64) := [("ekg"%string, VInt n)].

Lemma disconnected_subscriber_witness :
  Forall (fun op => touches 1 op = false) [Emit (reading 2)] /\
  Forall (fun op => connects 1 op = false) [Emit (reading 3); Connect 2] /\
  run_hub ([Emit (reading 1)] ++ Connect 1 :: [Emit (reading 2)] ++ Disconnect 1 ::
           [Emit (reading 3); Connect 2]) ∅ !! 1 =
  Some (mkClient false (welcome :: map sensor_msg (hub_emits [Emit (reading 2)]))).
Proof.
  assert (H1 : Forall (fun op : hub_op b64 => touches 1 op = false) [Emit (reading 2)])
    by (repeat constructor).
  assert (H2 : Forall (fun op : hub_op b64 => connects 1 op = false) [Emit (reading 3); Connect 2])
    by (repeat constructor).
  split; [exact H1|split; [exact H2|]]. exact (disconnected_subscriber _ _ _ 1 ∅ H1 H2).
Defined.

Lemma emit_without_subscribers_witness :
  (forall c cl, (<[1 := mkClient false [welcome]]> ∅ : hub b64) !! c = Some cl ->
                cl_connected cl = false) /\
  run_hub (map Emit [reading 1; reading 2]) (<[1 := mkClient false [welcome]]> ∅) =
  <[1 := mkClient false [welcome]]> ∅.
Proof.
  assert (H : forall c cl, (<[1 := mkClient false [welcome]]> ∅ : hub b64) !! c = Some cl ->
                           cl_connected cl = false).
  { intros c cl. destruct (decide (c = 1)) as [->|Hne].
    - rewrite lookup_insert_eq. intros [= <-]. reflexivity.
    - rewrite lookup_insert_ne by congruence. rewrite lookup_empty. discriminate. }
  split; [exact H|]. exact (emit_without_subscribers _ _ H).
Defined.

End HubWitnesses.
