(* ===== verification/System.v ===== *)
(** * The program as a whole: the serial thread beside the server

    At import the module builds the Flask app and its Socket.IO server
    (lines 56-58), reads the dashboard template (lines 61-62) and
    registers the route ['/'] (lines 64-66) and the [connect] handler
    (lines 145-148); it starts [read_serial] on a daemon thread (lines
    140-142) and then serves (lines 151-152).  From then on two contexts
    run side by side: the serial thread, which alone touches the
    [Polygraph] object, [last_sent_time] and the ESP32 port, and the
    server, which accepts viewers and HTTP requests.  Their only meeting
    point is the hub: the thread's [socketio.emit] (line 121).

    A run of the program is a list of [sys_event]s in any interleaving:
    an iteration of the serial thread ([STick]), a viewer connecting or
    leaving, an HTTP request.  An iteration is atomic here: it touches the
    hub once, at its emit, so no interleaving of viewers inside an
    iteration can be told apart from one before or after it.

    The hub is used through the class [Broadcaster], the contract of spec
    4.5 (connect, disconnect, publish, what a viewer has received) with
    its laws; [hub_broadcaster] shows the [gmap] hub of [Broadcast]
    satisfies it, and the lemmas of this file hold for any hub that
    does. *)

From stdpp Require Import base gmap.
From Stdlib Require Import ZArith String List Lia.
From S2P Require Import PyFloat PyDict Polygraph Ingestion IngestionProps Broadcast.

(** ** The hub's contract *)

Class Broadcaster (F H : Type) := {
  bc_empty : H;
  bc_connect : nat -> H -> H;
  bc_disconnect : nat -> H -> H;
  bc_publish : dict (pyval F) -> H -> H;
  (** whether viewer [c] is connected, and what it has received *)
  bc_inbox : H -> nat -> option (bool * list (hub_msg F));
  bc_empty_inbox : forall c, bc_inbox bc_empty c = None;
  bc_connect_self : forall c h, bc_inbox (bc_connect c h) c = Some (true, [welcome]);
  bc_connect_other : forall c c' h, c <> c' -> bc_inbox (bc_connect c h) c' = bc_inbox h c';
  bc_disconnect_inbox : forall c c' h,
    bc_inbox (bc_disconnect c h) c' =
    if decide (c = c') then option_map (fun x : bool * list (hub_msg F) => (false, snd x)) (bc_inbox h c') else bc_inbox h c';
  bc_publish_inbox : forall p h c,
    bc_inbox (bc_publish p h) c =
    option_map (fun x : bool * list (hub_msg F) => if fst x then (true, snd x ++ [sensor_msg p]) else x)
      (bc_inbox h c)
}.

(** The [gmap] hub keeps the contract. *)
#[export] Program Instance hub_broadcaster {F : Type} : Broadcaster F (hub F) := {|
  bc_empty := ∅;
  bc_connect := on_connect;
  bc_disconnect := hub_disconnect;
  bc_publish := hub_emit;
  bc_inbox h c := option_map (fun cl => (cl_connected cl, cl_received cl)) (h !! c)
|}.
Next Obligation. intros F c. cbv beta. rewrite lookup_empty. reflexivity. Qed.
Next Obligation. intros F c h. cbv beta. unfold on_connect. rewrite lookup_insert_eq. reflexivity. Qed.
Next Obligation.
  intros F c c' h Hne. cbv beta. unfold on_connect. rewrite lookup_insert_ne by exact Hne. reflexivity.
Qed.
Next Obligation.
  intros F c c' h. cbv beta. unfold hub_disconnect. destruct (decide (c = c')) as [<-|Hne].
  - rewrite lookup_alter_eq. destruct (h !! c); reflexivity.
  - rewrite lookup_alter_ne by exact Hne. reflexivity.
Qed.
Next Obligation.
  intros F p h c. cbv beta. unfold hub_emit. rewrite lookup_fmap.
  destruct (h !! c) as [[[] r]|]; reflexivity.
Qed.

(** ** The system *)

Record system (F H : Type) : Type := mkSystem {
  sys_loop : ingest F;          (** the serial thread's state *)
  sys_hub : H;                  (** the Socket.IO server's clients *)
  sys_serial_up : bool;         (** line 95 succeeded: the thread runs *)
  sys_http : list (string * option string)  (** HTTP requests and responses *)
}.
Arguments mkSystem {F H}.
Arguments sys_loop {F H}.
Arguments sys_hub {F H}.
Arguments sys_serial_up {F H}.
Arguments sys_http {F H}.

Inductive sys_event (F : Type) : Type :=
| STick (tk : tick F)           (** an iteration of [while True] *)
| SConnect (c : nat)            (** a viewer connects; [on_connect] runs *)
| SDisconnect (c : nat)
| SGet (path : string).         (** an HTTP [GET] *)
Arguments STick {F} tk.
Arguments SConnect {F} c.
Arguments SDisconnect {F} c.
Arguments SGet {F} path.

Section System.
Context {F : Type} {PF : PyFloat F} {H : Type} {BC : Broadcaster F H}.

(** Lines 61-62: the contents of [BLE.html], read once at import, and
    Flask's [render_template_string]. *)
Variable dashboard_html : string.
Variable render_template_string : string -> string.

(** Lines 64-66: the route ['/']. *)
Definition index : string := render_template_string dashboard_html.

(** Flask's dispatch: ['/'] is the only route; any other path is a 404. *)
Definition http_get (path : string) : option string :=
  if String.eqb path "/" then Some index else None.

(** Line 121 inside one iteration: each payload the iteration publishes
    goes to the hub. *)
Definition publish_all (ps : list (dict (pyval F))) (h : H) : H :=
  fold_left (fun h p => bc_publish p h) ps h.

Definition sys_step (s : system F H) (e : sys_event F) : system F H :=
  match e with
  | STick tk =>
      if sys_serial_up s
      then mkSystem (fst (iteration tk (sys_loop s)))
             (publish_all (published (events_of tk (sys_loop s))) (sys_hub s)) true (sys_http s)
      else s
  | SConnect c => mkSystem (sys_loop s) (bc_connect c (sys_hub s)) (sys_serial_up s) (sys_http s)
  | SDisconnect c => mkSystem (sys_loop s) (bc_disconnect c (sys_hub s)) (sys_serial_up s) (sys_http s)
  | SGet path => mkSystem (sys_loop s) (sys_hub s) (sys_serial_up s) (sys_http s ++ [(path, http_get path)])
  end.

Definition run_system (evs : list (sys_event F)) (s : system F H) : system F H :=
  fold_left sys_step evs s.

(** Lines 94-103 and 140-142: the thread runs its preamble, which prints
    whether the Arduino port opened ([up]), and then holds a fresh
    [Polygraph] and runs the loop if it did; the server starts with no
    viewer. *)
Definition system_init (up : bool) : system F H :=
  let '(o, runs) := preamble up in
  mkSystem (prefix_out o init_ingest) bc_empty runs [].

(** The iterations of a run, in order. *)
Fixpoint ticks_of (evs : list (sys_event F)) : list (tick F) :=
  match evs with
  | [] => []
  | STick tk :: r => tk :: ticks_of r
  | _ :: r => ticks_of r
  end.

(** Whether an event connects or disconnects viewer [c]. *)
Definition touches_viewer (c : nat) (e : sys_event F) : bool :=
  match e with
  | SConnect c' | SDisconnect c' => Nat.eqb c c'
  | _ => false
  end.

Definition is_tick (e : sys_event F) : bool :=
  match e with STick _ => true | _ => false end.

(** ** Runs of the system *)

Lemma run_system_cons e evs s : run_system (e :: evs) s = run_system evs (sys_step s e).
Proof. reflexivity. Qed.

Lemma run_system_app evs evs' s : run_system (evs ++ evs') s = run_system evs' (run_system evs s).
Proof. apply fold_left_app. Qed.

Lemma ticks_of_app evs evs' : ticks_of (evs ++ evs') = (ticks_of evs ++ ticks_of evs')%list.
Proof. induction evs as [|[] evs IH]; cbn; rewrite ?IH; reflexivity. Qed.

Lemma serial_loop_app (a b : list (tick F)) st :
  fst (serial_loop (a ++ b) st) = fst (serial_loop b (fst (serial_loop a st))).
Proof.
  revert st. induction a as [|tk a IH]; intros st; [reflexivity|].
  cbn [app]. rewrite !serial_loop_cons. apply IH.
Qed.

(** What a viewer has after a batch of publishes. *)
Lemma publish_all_inbox ps h c :
  bc_inbox (publish_all ps h) c =
  option_map (fun x : bool * list (hub_msg F) =>
                if fst x then (true, snd x ++ map sensor_msg ps) else x) (bc_inbox h c).
Proof.
  revert h. induction ps as [|p ps IH]; intros h; cbn [publish_all fold_left].
  - destruct (bc_inbox h c) as [[[] r]|]; cbn; rewrite ?app_nil_r; reflexivity.
  - change (fold_left _ ps (bc_publish p h)) with (publish_all ps (bc_publish p h)).
    rewrite IH, bc_publish_inbox.
    destruct (bc_inbox h c) as [[[] r]|]; cbn; rewrite <- ?app_assoc; reflexivity.
Qed.

Lemma run_system_up evs s : sys_serial_up (run_system evs s) = sys_serial_up s.
Proof.
  revert s. induction evs as [|[tk|c|c|path] evs IH]; intros s; [reflexivity| | | |];
    rewrite run_system_cons, IH; cbn; [destruct (sys_serial_up s) eqn:E; [reflexivity|exact E]| | |];
    reflexivity.
Qed.

(** Only the serial thread's iterations move its state. *)
Lemma run_system_loop evs s :
  sys_loop (run_system evs s) =
  if sys_serial_up s then fst (serial_loop (ticks_of evs) (sys_loop s)) else sys_loop s.
Proof.
  revert s. induction evs as [|[tk|c|c|path] evs IH]; intros s.
  - destruct (sys_serial_up s); reflexivity.
  - rewrite run_system_cons, IH. cbn [ticks_of]. unfold sys_step.
    destruct (sys_serial_up s) eqn:E; cbn [sys_serial_up sys_loop];
      [rewrite serial_loop_cons; reflexivity|rewrite E; reflexivity].
  - rewrite run_system_cons, IH. reflexivity.
  - rewrite run_system_cons, IH. reflexivity.
  - rewrite run_system_cons, IH. reflexivity.
Qed.

(** The payloads published between two states of the loop. *)
Definition published_since (st st' : ingest F) : list (dict (pyval F)) :=
  skipn (length (published (outbox st))) (published (outbox st')).

Lemma published_since_refl st : published_since st st = [].
Proof. unfold published_since. apply skipn_all. Qed.

Lemma published_since_tick tk st st' :
  (exists evs, outbox st' = (outbox (fst (iteration tk st)) ++ evs)%list) ->
  published_since st st' =
  (published (events_of tk st) ++ published_since (fst (iteration tk st)) st')%list.
Proof.
  intros [evs Hst']. destruct (iteration_events tk st) as [Hit _].
  unfold published_since. rewrite Hst', Hit, !published_app, <- !app_assoc, skipn_length_app.
  rewrite app_assoc, skipn_length_app. reflexivity.
Qed.

(** A connected viewer that the run neither reconnects nor disconnects
    receives, after what it had, every payload the serial thread published
    during the run. *)
Lemma run_system_connected c evs s r :
  Forall (fun e => touches_viewer c e = false) evs ->
  bc_inbox (sys_hub s) c = Some (true, r) ->
  bc_inbox (sys_hub (run_system evs s)) c =
  Some (true, r ++ map sensor_msg (published_since (sys_loop s) (sys_loop (run_system evs s))))%list.
Proof.
  revert s r. induction evs as [|e evs IH]; intros s r Hevs Hc.
  { cbn. rewrite published_since_refl, app_nil_r. exact Hc. }
  inversion Hevs as [|? ? He Hrest]; subst. rewrite run_system_cons.
  destruct e as [tk|c'|c'|path]; cbn [touches_viewer] in He.
  - cbn [sys_step]. destruct (sys_serial_up s) eqn:Hup; [|apply IH; assumption].
    rewrite (IH _ (r ++ map sensor_msg (published (events_of tk (sys_loop s))))%list Hrest).
    + cbn [sys_loop]. rewrite (published_since_tick tk (sys_loop s)), map_app, app_assoc; [reflexivity|].
      rewrite run_system_loop. cbn [sys_serial_up sys_loop].
      destruct (serial_loop_appends (ticks_of evs) (fst (iteration tk (sys_loop s)))) as (evs' & -> & _).
      eauto.
    + cbn [sys_hub]. rewrite publish_all_inbox, Hc. reflexivity.
  - rewrite (IH _ r Hrest); [reflexivity|].
    cbn. rewrite bc_connect_other by exact (neq_of_eqb _ _ He). exact Hc.
  - rewrite (IH _ r Hrest); [reflexivity|]. cbn. rewrite bc_disconnect_inbox.
    destruct (decide (c' = c)) as [->|_]; [rewrite PeanoNat.Nat.eqb_refl in He; discriminate|exact Hc].
  - rewrite (IH _ r Hrest); [reflexivity|exact Hc].
Qed.

End System.

Section SystemWitnesses.

(** Two calibration readings, a viewer [7] connecting, a scored reading,
    a page load and a second viewer. *)
Definition demo_pre : list (sys_event b64) :=
  [STick (line_tick calm_line 0); STick (line_tick calm_line 15)].
Definition demo_post : list (sys_event b64) :=
  [STick (line_tick tense_line 16); SGet "/"%string; SConnect 8].

End SystemWitnesses.
