(* ===== verification/Startup.v ===== *)
(** * Start-up: the module-level code of src/pythonWeb.py

    Importing the module runs, in this order: the Flask app and its
    configuration and the Socket.IO server (lines 56-58), the read of the
    dashboard template [BLE.html] in a [with] block (lines 61-62), the
    route ['/'] (lines 64-66), the serial thread, made a daemon and started
    (lines 140-142), the [connect] handler (lines 145-148), and, only when
    the file runs as the main program, [socketio.run] (lines 151-152).

    The module's globals are the record [module_state]; each statement is
    a [PyM module_state] computation, and [import_module] is their
    sequence.  An exception at module level is not caught: it ends the
    import, and with it the process, with the statements after it never
    run.  [program] composes the import with [System]: the template read
    here is the [dashboard_html] of the route, the Arduino device opening
    at [ARDUINO_PORT]/[ARDUINO_BAUD] decides whether the thread's loop runs,
    and viewers and HTTP requests reach the program only when the server
    was started. *)

From Stdlib Require Import ZArith String List.
From S2P Require Import Prelude PyFloat PyDict Ingestion Broadcast System.
Import ListNotations.
Local Open Scope string_scope.
Local Open Scope py_scope.

(** [app = Flask(__name__)] with [app.config] and the URL rules. *)
Record flask_app : Type := mkApp {
  app_config : dict string;        (** [app.config] (only the keys set here) *)
  app_routes : list string         (** the rules of [@app.route] *)
}.

(** [socketio = SocketIO(app, ...)] with its handlers. *)
Record socketio_server : Type := mkSocketIO {
  sio_cors : string;               (** [cors_allowed_origins] *)
  sio_async_mode : string;         (** [async_mode] *)
  sio_handlers : list string       (** the events of [@socketio.on] *)
}.

(** [threading.Thread(target=read_serial)]. *)
Record thread : Type := mkThread {
  th_daemon : bool;
  th_started : bool
}.

(** The module's globals and what it holds open or running. *)
Record module_state : Type := mkModule {
  m_app : option flask_app;
  m_socketio : option socketio_server;
  m_dashboard : option string;     (** [DASHBOARD_HTML] *)
  m_open_files : list string;      (** the files open right now *)
  m_thread : option thread;        (** [serial_thread] *)
  m_serving : option (string * Z)  (** [socketio.run]'s host and port *)
}.

Definition module_empty : module_state := mkModule None None None [] None None.

(** The file system: the contents of each readable file. *)
Definition filesystem : Type := string -> option string.

Definition set_app (a : option flask_app) (m : module_state) : module_state :=
  mkModule a (m_socketio m) (m_dashboard m) (m_open_files m) (m_thread m) (m_serving m).
Definition set_socketio (s : option socketio_server) (m : module_state) : module_state :=
  mkModule (m_app m) s (m_dashboard m) (m_open_files m) (m_thread m) (m_serving m).
Definition set_dashboard (html : string) (m : module_state) : module_state :=
  mkModule (m_app m) (m_socketio m) (Some html) (m_open_files m) (m_thread m) (m_serving m).
Definition set_open_files (fs : list string) (m : module_state) : module_state :=
  mkModule (m_app m) (m_socketio m) (m_dashboard m) fs (m_thread m) (m_serving m).
Definition set_thread (t : option thread) (m : module_state) : module_state :=
  mkModule (m_app m) (m_socketio m) (m_dashboard m) (m_open_files m) t (m_serving m).
Definition set_serving (hp : option (string * Z)) (m : module_state) : module_state :=
  mkModule (m_app m) (m_socketio m) (m_dashboard m) (m_open_files m) (m_thread m) hp.

(** Lines 56-58. *)
Definition create_app : PyM module_state unit :=
  modify (set_app (Some (mkApp [] []))) ;;
  modify (fun m => set_app (option_map (fun a => mkApp (dict_set (app_config a) "SECRET_KEY" "secret!") (app_routes a))
                                       (m_app m)) m) ;;
  modify (set_socketio (Some (mkSocketIO "*" "threading" []))).

(** [open(path, "r")]: [FileNotFoundError], an [OSError], when the file
    does not exist; the contents are what [f.read()] returns. *)
Definition py_open (fs : filesystem) (path : string) : PyM module_state string :=
  match fs path with
  | None => raise OSError
  | Some contents => modify (fun m => set_open_files (path :: m_open_files m) m) ;; ret contents
  end.

(** The end of the [with] block: [f.close()]. *)
Definition py_close (path : string) : PyM module_state unit :=
  modify (fun m => set_open_files (remove string_dec path (m_open_files m)) m).

(** Lines 61-62: [with open("BLE.html", "r") as f: DASHBOARD_HTML = f.read()]. *)
Definition load_dashboard (fs : filesystem) : PyM module_state unit :=
  contents <- py_open fs "BLE.html" ;;
  py_finally (modify (set_dashboard contents)) (py_close "BLE.html").

(** Line 64: [@app.route('/')] registers [index]. *)
Definition register_route (rule : string) : PyM module_state unit :=
  modify (fun m => set_app (option_map (fun a => mkApp (app_config a) (app_routes a ++ [rule])%list) (m_app m)) m).

(** Lines 140-142. *)
Definition start_serial_thread : PyM module_state unit :=
  modify (set_thread (Some (mkThread false false))) ;;
  modify (fun m => set_thread (option_map (fun t => mkThread true (th_started t)) (m_thread m)) m) ;;
  modify (fun m => set_thread (option_map (fun t => mkThread (th_daemon t) true) (m_thread m)) m).

(** Line 145: [@socketio.on('connect')] registers [on_connect]. *)
Definition register_handler (event : string) : PyM module_state unit :=
  modify (fun m => set_socketio (option_map (fun s => mkSocketIO (sio_cors s) (sio_async_mode s) (sio_handlers s ++ [event])%list)
                                            (m_socketio m)) m).

(** Lines 151-152: [socketio.run(app, host='0.0.0.0', port=5000, ...)]
    when [__name__ == '__main__']. *)
Definition run_server (is_main : bool) : PyM module_state unit :=
  if is_main then modify (set_serving (Some ("0.0.0.0", 5000%Z))) else ret tt.

(** The module, top to bottom. *)
Definition import_module (fs : filesystem) (is_main : bool) : PyM module_state unit :=
  create_app ;;
  load_dashboard fs ;;
  register_route "/" ;;
  start_serial_thread ;;
  register_handler "connect" ;;
  run_server is_main.

(** ** The program: the import, then the two execution contexts *)

Section Program.
Context {F : Type} {PF : PyFloat F} {H : Type} {BC : Broadcaster F H}.
Variable render_template_string : string -> string.

(** The events that reach the program: without [socketio.run] no viewer
    or HTTP request does, only the serial thread's iterations. *)
Definition reaching (serving : bool) (evs : list (sys_event F)) : list (sys_event F) :=
  if serving then evs else filter is_tick evs.

(** The program on the file system [fs], with [devices port baud] telling
    whether [serial.Serial(port, baud)] opens: the import, then the run of
    [System] from the template read at import.  [None]: the import raised
    and the process ended with the traceback. *)
Definition program (fs : filesystem) (devices : string -> Z -> bool) (is_main : bool)
    (evs : list (sys_event F)) : option (system F H) :=
  match import_module fs is_main module_empty with
  | (m, Ok _) =>
      match m_dashboard m with
      | Some html =>
          Some (run_system html render_template_string
                  (reaching (match m_serving m with Some _ => true | None => false end) evs)
                  (system_init (devices ARDUINO_PORT ARDUINO_BAUD)))
      | None => None
      end
  | (_, Raise _) => None
  end.

End Program.

(** ** Two imports *)

(** A machine with the template, and one without it. *)
Definition lab_fs : filesystem := fun p => if String.eqb p "BLE.html" then Some "<html></html>" else None.
Definition empty_fs : filesystem := fun _ => None.

(** Imported without being run, the module starts the serial thread (and
    with it the Arduino port) but no server. *)
Example import_as_library :
  import_module lab_fs false module_empty =
  (mkModule (Some (mkApp [("SECRET_KEY", "secret!")] ["/"])) (Some (mkSocketIO "*" "threading" ["connect"]))
            (Some "<html></html>") [] (Some (mkThread true true)) None, Ok tt).
Proof. vm_compute. reflexivity. Qed.

(** Without [BLE.html] the import stops at line 61: no thread, no server. *)
Example import_without_template :
  import_module empty_fs true module_empty =
  (mkModule (Some (mkApp [("SECRET_KEY", "secret!")] [])) (Some (mkSocketIO "*" "threading" []))
            None [] None None, Raise OSError).
Proof. vm_compute. reflexivity. Qed.
